(** * lotuslk: anomaly ensemble and recommendation fusion

    A shallow embedding of [src/models/anomalyDetector.js] (class
    [AnomalyDetector]), [src/models/recommendationEngine.js] (class
    [RecommendationEngine]) and the anomaly step of
    [src/pipeline/dataPipeline.js] (class [DataPipeline]), with the
    properties the specification states about them and further properties
    of the code.

    Numbers.  A JavaScript number is modelled by [num]: an exact rational, or
    one of the three special values of IEEE arithmetic.  Finite arithmetic is
    exact: the rounding of floating point is not modelled, and the two zeros
    are identified (the sign of a zero only shows when a non-zero value is
    divided by it; the zero is taken to be positive there).
    The series used as counterexamples are made of small integers, on which
    the sums, differences and products the code computes are exact in
    floating point too.  [Math.sqrt] and [Math.exp] are parameters of the
    development; the proofs use that the square root of zero is zero and,
    for the scores of the isolation forest, that the exponential is never
    negative.

    The TensorFlow model of the autoencoder is outside the source: what it
    loads, trains and predicts is a parameter as well. *)

From Stdlib Require Import QArith Qabs Qround Lqa ZArith.
From stdpp Require Import gmap strings list sorting.

Open Scope Q_scope.

(** ** JavaScript numbers *)

Inductive num : Type :=
| Fin (q : Q)
| PInf
| NInf
| NaN.

Definition Qltb (a b : Q) : bool :=
  match a ?= b with Lt => true | _ => false end.

Definition Qis0 (a : Q) : bool := Qeq_bool a 0.

Module Num.

Definition neg (a : num) : num :=
  match a with
  | Fin q => Fin (- q)
  | PInf => NInf
  | NInf => PInf
  | NaN => NaN
  end.

Definition add (a b : num) : num :=
  match a, b with
  | NaN, _ | _, NaN => NaN
  | Fin x, Fin y => Fin (x + y)
  | PInf, NInf | NInf, PInf => NaN
  | PInf, _ | _, PInf => PInf
  | NInf, _ | _, NInf => NInf
  end.

Definition sub (a b : num) : num := add a (neg b).

(** Sign of a finite value: [-1], [0] or [1]. *)
Definition sgn (q : Q) : Z := Z.sgn (Qnum q).

Definition signed_inf (s : Z) : num :=
  match s with
  | Z0 => NaN
  | Zpos _ => PInf
  | Zneg _ => NInf
  end.

Definition sgn_num (a : num) : Z :=
  match a with
  | Fin q => sgn q
  | PInf => 1%Z
  | NInf => (-1)%Z
  | NaN => 0%Z
  end.

Definition mul (a b : num) : num :=
  match a, b with
  | NaN, _ | _, NaN => NaN
  | Fin x, Fin y => Fin (x * y)
  | _, _ => signed_inf (sgn_num a * sgn_num b)
  end.

(** [x / 0] is [NaN] for [x = 0] and an infinity of the sign of [x]
    otherwise; a finite value over an infinity is [0]. *)
Definition div (a b : num) : num :=
  match a, b with
  | NaN, _ | _, NaN => NaN
  | Fin x, Fin y => if Qis0 y then signed_inf (sgn x) else Fin (x / y)
  | Fin _, _ => Fin 0
  | _, Fin y => signed_inf (sgn_num a * (if Qis0 y then 1 else sgn y))
  | _, _ => NaN
  end.

(** [Math.abs] *)
Definition abs (a : num) : num :=
  match a with
  | Fin q => Fin (Qabs q)
  | PInf | NInf => PInf
  | NaN => NaN
  end.

(** [a < b]; every comparison with [NaN] is false. *)
Definition ltb (a b : num) : bool :=
  match a, b with
  | NaN, _ | _, NaN => false
  | Fin x, Fin y => Qltb x y
  | NInf, NInf | PInf, _ | _, NInf => false
  | NInf, _ | _, PInf => true
  end.

Definition gtb (a b : num) : bool := ltb b a.

(** [a <= b] *)
Definition leb (a b : num) : bool :=
  match a, b with
  | NaN, _ | _, NaN => false
  | Fin x, Fin y => Qle_bool x y
  | NInf, _ | _, PInf => true
  | PInf, _ | _, NInf => false
  end.

Definition geb (a b : num) : bool := leb b a.

(** [Math.min(a, b)] and [Math.max(a, b)]: [NaN] if either is. *)
Definition min (a b : num) : num :=
  match a, b with
  | NaN, _ | _, NaN => NaN
  | _, _ => if ltb b a then b else a
  end.

Definition max (a b : num) : num :=
  match a, b with
  | NaN, _ | _, NaN => NaN
  | _, _ => if ltb a b then b else a
  end.

(** [Math.min(...xs)] and [Math.max(...xs)] *)
Definition min_list (xs : list num) : num := fold_left min xs PInf.
Definition max_list (xs : list num) : num := fold_left max xs NInf.

(** Truthiness of a number: [0] and [NaN] are falsy. *)
Definition truthy (a : num) : bool :=
  match a with
  | Fin q => negb (Qis0 q)
  | NaN => false
  | PInf | NInf => true
  end.

(** [a || d] on numbers; [None] stands for [undefined]. *)
Definition or_else (a : option num) (d : num) : num :=
  match a with
  | Some x => if truthy x then x else d
  | None => d
  end.

(** A value read from an array slot or an object property that may be
    absent: [undefined] behaves as [NaN] in arithmetic and comparisons. *)
Definition of_slot (a : option num) : num := default NaN a.

Definition or_num (a d : num) : num := if truthy a then a else d.

Definition of_nat (n : nat) : num := Fin (inject_Z (Z.of_nat n)).

(** [Math.pow(a, 2)] *)
Definition sq (a : num) : num := mul a a.

(** [parseFloat(a.toFixed(2))]: the nearest multiple of [1/100], a tie
    going away from zero. *)
Definition round2 (q : Q) : Q :=
  let r := inject_Z (Qfloor (Qabs q * 100 + (1 # 2))) / 100 in
  if Qltb q 0 then - r else r.

Definition toFixed2 (a : num) : num :=
  match a with
  | Fin q => Fin (round2 q)
  | _ => a
  end.

(** Equality of numbers as values ([NaN] is related to itself here: this
    is the relation of the model, not JavaScript's [===]). *)
Definition eqv (a b : num) : Prop :=
  match a, b with
  | Fin x, Fin y => x == y
  | PInf, PInf | NInf, NInf | NaN, NaN => True
  | _, _ => False
  end.

(** The value is a finite number of the closed unit interval. *)
Definition in_unit (a : num) : Prop :=
  match a with
  | Fin q => 0 <= q <= 1
  | _ => False
  end.

End Num.

Declare Scope num_scope.
Delimit Scope num_scope with num.
Bind Scope num_scope with num.
Notation "a + b" := (Num.add a b) : num_scope.
Notation "a - b" := (Num.sub a b) : num_scope.
Notation "a * b" := (Num.mul a b) : num_scope.
Notation "a / b" := (Num.div a b) : num_scope.

(** Array reads: [xs[i]], [undefined] out of range. *)
Definition at_index (xs : list num) (i : nat) : num := Num.of_slot (xs !! i).

(** [xs.forEach((x, index) => ...)] threading a state. *)
Fixpoint foldi_from {A St : Type} (f : St -> A -> nat -> St) (i : nat)
    (xs : list A) (s : St) : St :=
  match xs with
  | [] => s
  | x :: xs' => foldi_from f (S i) xs' (f s x i)
  end.

Definition foldi {A St : Type} (f : St -> A -> nat -> St) (xs : list A) (s : St) : St :=
  foldi_from f 0%nat xs s.

(** The loop the detection methods share,
    [xs.forEach((x, index) => { anomalyScores[index] = score;
                                if (flagged) anomalyIndices.push(index); })],
    where [f x] is the pair of [flagged] and [score]. *)
Definition scoreStep {A : Type} (f : A -> bool * num)
    (acc : list nat * gmap nat num) (x : A) (index : nat)
    : list nat * gmap nat num :=
  ((if (f x).1 then acc.1 ++ [index] else acc.1), <[index := (f x).2]> acc.2).

Definition scoreEach {A : Type} (f : A -> bool * num) (xs : list A)
    : list nat * gmap nat num :=
  foldi (scoreStep f) xs ([], ∅).

(** The positions, counted from [k], of the elements that [f] flags. *)
Fixpoint flaggedFrom {A : Type} (f : A -> bool * num) (k : nat) (xs : list A)
    : list nat :=
  match xs with
  | [] => []
  | x :: xs' => (if (f x).1 then [k] else []) ++ flaggedFrom f (S k) xs'
  end.

(** [xs.sort(cmp)]: a stable sort; [a] stays before a later [b] unless
    [cmp(a, b) > 0].  (With a comparator that is not a consistent order,
    for instance one returning [NaN], the engine may use another
    permutation; nothing below depends on which.) *)
Fixpoint sort_insert {A : Type} (cmp : A -> A -> num) (x : A) (l : list A) : list A :=
  match l with
  | [] => [x]
  | y :: l' =>
      if Num.gtb (cmp x y) (Fin 0) then y :: sort_insert cmp x l' else x :: l
  end.

Definition sortBy {A : Type} (cmp : A -> A -> num) (l : list A) : list A :=
  foldr (sort_insert cmp) [] l.

(** [Math.floor(n * r)] for an array length [n]. *)
Definition floor_scaled (n : nat) (r : Q) : nat :=
  Z.to_nat (Qfloor (inject_Z (Z.of_nat n) * r)).

(** ** The anomaly detector *)

Module AnomalyDetector.

(** [this.config], after the constructor has merged the defaults. *)
Record Config : Type := {
  zScoreThreshold : num;
  iqrMultiplier : num;
  contamination : num;
  useAutoencoder : bool;
  ensembleMethod : string;
  featureEngineering : bool;
  useCache : bool;
  cacheExpiration : Z
}.

Definition defaultConfig : Config := {|
  zScoreThreshold := Fin 2.5;
  iqrMultiplier := Fin 1.5;
  contamination := Fin 0.05;
  useAutoencoder := true;
  ensembleMethod := "majority";
  featureEngineering := true;
  useCache := true;
  cacheExpiration := 24 * 60 * 60 * 1000
|}.

(** One dividend record; [price] and [yield] may be absent. *)
Record Dividend : Type := {
  date : string;
  value : num;
  price : option num;
  yield : option num
}.

(** The result of one detection method.  [anomalyScores] is the object
    indexed by position. *)
Record MethodResult : Type := {
  anomalyIndices : list nat;
  anomalyScores : gmap nat num;
  threshold : num
}.

Record Anomaly : Type := {
  a_date : option string;
  a_value : num;
  anomalyScore : num;
  severity : string;
  type : string;
  deviation : num;
  detectedBy : list string
}.

Record MethodSummary : Type := {
  anomalyCount : nat;
  s_threshold : num
}.

Record Stats : Type := {
  count : nat;
  percentage : num
}.

Record DetectionResult : Type := {
  anomalies : list Anomaly;
  stats : Stats;
  methods : list (string * MethodSummary);
  error : option string
}.

(** A loaded or trained reconstruction model: [predict] followed by
    [arraySync], [None] when the library throws. *)
Definition Predictor : Type := list (list num) -> option (list (list num)).

Record CacheEntry : Type := {
  data : DetectionResult;
  timestamp : Z
}.

(** The mutable fields of the detector.  A cache key is the array that
    [JSON.stringify] serialises (its text determines the array of strings
    back). *)
Record State : Type := {
  initialized : bool;
  autoencoder : option Predictor;
  cache : gmap (list string) CacheEntry
}.

Definition newState : State :=
  {| initialized := false; autoencoder := None; cache := ∅ |}.

Section Detector.

(** [Math.sqrt] and [Math.exp] on finite arguments. *)
Variable Msqrt : Q -> Q.
Variable Mexp : Q -> Q.

Variable config : Config.

Definition sqrt (a : num) : num :=
  match a with
  | Fin q => if Qltb q 0 then NaN else Fin (Msqrt q)
  | PInf => PInf
  | NInf | NaN => NaN
  end.

Definition exp (a : num) : num :=
  match a with
  | Fin q => Fin (Mexp q)
  | PInf => PInf
  | NInf => Fin 0
  | NaN => NaN
  end.

Definition sum (values : list num) : num :=
  fold_left Num.add values (Fin 0).

Definition calculateMean (values : list num) : num :=
  if (length values =? 0)%nat then Fin 0
  else (sum values / Num.of_nat (length values))%num.

Definition calculateStdDev (values : list num) (mean : option num) : num :=
  if (length values <=? 1)%nat then Fin 0
  else
    let avg := match mean with Some m => m | None => calculateMean values end in
    let squaredDiffs := map (fun val => Num.sq (val - avg)) values in
    let variance := (sum squaredDiffs / Num.of_nat (length values))%num in
    sqrt variance.

Definition detectAnomaliesWithZScore (values : list num) : MethodResult :=
  let mean := calculateMean values in
  let stdDev := calculateStdDev values (Some mean) in
  let zScores := map (fun value => Num.abs ((value - mean) / stdDev)) values in
  let '(indices, scores) :=
    scoreEach (fun zScore =>
                 let normalizedScore :=
                   Num.min (zScore / (zScoreThreshold config * Fin 2)) (Fin 1) in
                 (Num.gtb zScore (zScoreThreshold config), normalizedScore))
              zScores in
  {| anomalyIndices := indices;
     anomalyScores := scores;
     threshold := zScoreThreshold config |}.

Definition q1Of (values : list num) : num :=
  let sortedValues := sortBy Num.sub values in
  at_index sortedValues (floor_scaled (length sortedValues) 0.25).

Definition q3Of (values : list num) : num :=
  let sortedValues := sortBy Num.sub values in
  at_index sortedValues (floor_scaled (length sortedValues) 0.75).

Definition lowerBoundOf (values : list num) : num :=
  let iqr := (q3Of values - q1Of values)%num in
  (q1Of values - (iqr * iqrMultiplier config))%num.

Definition upperBoundOf (values : list num) : num :=
  let iqr := (q3Of values - q1Of values)%num in
  (q3Of values + (iqr * iqrMultiplier config))%num.

(** The score the IQR method gives one value, and whether it flags it. *)
Definition iqrScore (lowerBound upperBound value : num) : bool * num :=
  if Num.ltb value lowerBound || Num.gtb value upperBound then
    let distance :=
      if Num.ltb value lowerBound
      then ((lowerBound - value) / Num.or_num lowerBound (Fin 1))%num
      else ((value - upperBound) / Num.or_num upperBound (Fin 1))%num in
    (true, Num.min distance (Fin 1))
  else
    let range := (upperBound - lowerBound)%num in
    let distanceFromCenter :=
      Num.abs (value - (lowerBound + range / Fin 2)) in
    (false, ((distanceFromCenter / range) * Fin 0.5)%num).

Definition detectAnomaliesWithIQR (values : list num) : MethodResult :=
  let lowerBound := lowerBoundOf values in
  let upperBound := upperBoundOf values in
  let '(indices, scores) := scoreEach (iqrScore lowerBound upperBound) values in
  {| anomalyIndices := indices;
     anomalyScores := scores;
     threshold := iqrMultiplier config |}.

(** *** Feature engineering *)

Definition valueAt (dividendData : list Dividend) (i : nat) : num :=
  Num.of_slot (value <$> dividendData !! i).

(** [item.yield || (item.price ? (item.value / item.price) * 100 : 0)] *)
Definition yieldOf (item : Dividend) : num :=
  Num.or_else (yield item)
    (if Num.truthy (Num.of_slot (price item))
     then ((value item / Num.of_slot (price item)) * Fin 100)%num
     else Fin 0).

Definition featureRow (dividendData : list Dividend) (i : nat) (item : Dividend)
    : list num :=
  let value := value item in
  let yield_value := yieldOf item in
  let prevValue := if (0 <? i)%nat then valueAt dividendData (i - 1) else value in
  let variation := (((value - prevValue) / prevValue) * Fin 100)%num in
  let movingAvg :=
    if (2 <=? i)%nat
    then ((valueAt dividendData i + valueAt dividendData (i - 1)
           + valueAt dividendData (i - 2)) / Fin 3)%num
    else value in
  let deviationFromMA := (((value - movingAvg) / movingAvg) * Fin 100)%num in
  [value; yield_value; variation; movingAvg; deviationFromMA].

Definition transposeMatrix (matrix : list (list num)) : list (list num) :=
  match matrix with
  | [] => []
  | row0 :: _ =>
      imap (fun colIndex _ => map (fun row => at_index row colIndex) matrix) row0
  end.

Definition normalizeColumn (column : list num) : list num :=
  let min := Num.min_list column in
  let max := Num.max_list column in
  let range := if Num.gtb (max - min) (Fin 0) then (max - min)%num else Fin 1 in
  map (fun value => ((value - min) / range)%num) column.

Definition normalizeFeatures (features : list (list num)) : list (list num) :=
  transposeMatrix (map normalizeColumn (transposeMatrix features)).

Definition engineerFeatures (dividendData : list Dividend) : list (list num) :=
  normalizeFeatures (imap (featureRow dividendData) dividendData).

(** *** The multivariate methods *)

(** Nothing in the [try] block of the source can throw on arrays of
    numbers, so its [catch] is not reached. *)
Definition detectAnomaliesWithIsolationForest (features : list (list num))
    : MethodResult :=
  let means := map calculateMean (transposeMatrix features) in
  let '(indices, scores) :=
    scoreEach (fun feature =>
                 let sumSquaredDiff :=
                   foldi (fun acc x i => (acc + Num.sq (x - at_index means i))%num)
                         feature (Fin 0) in
                 let distance := sqrt sumSquaredDiff in
                 let score :=
                   (Fin 1 / (Fin 1 + exp (Num.neg distance + Fin 3)))%num in
                 (Num.gtb score (Fin 1 - contamination config), score))
              features in
  {| anomalyIndices := indices;
     anomalyScores := scores;
     threshold := (Fin 1 - contamination config)%num |}.

(** The TensorFlow side: the model found in local storage by
    [tf.loadLayersModel], if any, and the model that
    [createAndTrainAutoencoder] leaves in [this.autoencoder], if any. *)
Variable storedModel : option Predictor.
Variable createAndTrainAutoencoder : list (list num) -> option Predictor.

Definition reconstructionError (input output : list num) : num :=
  let sumSquaredError :=
    foldi (fun acc x j => (acc + Num.sq (x - at_index output j))%num)
          input (Fin 0) in
  sqrt (sumSquaredError / Num.of_nat (length input)).

Definition scoreReconstruction (reconstructionErrors : list num) : MethodResult :=
  let mean := calculateMean reconstructionErrors in
  let stdDev := calculateStdDev reconstructionErrors (Some mean) in
  let threshold := (mean + (stdDev * Fin 2))%num in
  let '(indices, scores) :=
    scoreEach (fun error =>
                 let normalizedScore :=
                   Num.min (error / (threshold * Fin 1.5)) (Fin 1) in
                 (Num.gtb error threshold, normalizedScore))
              reconstructionErrors in
  {| anomalyIndices := indices; anomalyScores := scores; threshold := threshold |}.

(** The [catch] branch: Z-score on the first feature. *)
Definition fallbackZScore (features : list (list num)) : MethodResult :=
  detectAnomaliesWithZScore (map (fun f => at_index f 0) features).

Definition detectAnomaliesWithAutoencoder (st : State) (features : list (list num))
    : MethodResult * State :=
  let model :=
    match autoencoder st with
    | Some m => Some m
    | None => createAndTrainAutoencoder features
    end in
  let st' := {| initialized := initialized st; autoencoder := model;
                cache := cache st |} in
  match model with
  | None => (fallbackZScore features, st')
  | Some predict =>
      match predict features with
      | None => (fallbackZScore features, st')
      | Some outputArray =>
          let reconstructionErrors :=
            imap (fun i input =>
                    reconstructionError input (default [] (outputArray !! i)))
                 features in
          (scoreReconstruction reconstructionErrors, st')
      end
  end.

(** *** The ensemble *)

Record Tally : Type := {
  allIndices : list nat;
  indexCounts : gmap nat nat;
  indexScores : gmap nat num
}.

Definition emptyTally : Tally :=
  {| allIndices := []; indexCounts := ∅; indexScores := ∅ |}.

Definition tallyIndex (method : MethodResult) (t : Tally) (index : nat) : Tally :=
  let all :=
    if bool_decide (index ∈ allIndices t) then allIndices t
    else allIndices t ++ [index] in
  let score := Num.or_else (anomalyScores method !! index) (Fin 0) in
  match indexCounts t !! index with
  | Some (S c) =>
      {| allIndices := all;
         indexCounts := <[index := S (S c)]> (indexCounts t);
         indexScores :=
           <[index := (Num.of_slot (indexScores t !! index) + score)%num]>
             (indexScores t) |}
  | _ =>
      {| allIndices := all;
         indexCounts := <[index := 1%nat]> (indexCounts t);
         indexScores := <[index := score]> (indexScores t) |}
  end.

Definition tallyMethod (t : Tally) (method : MethodResult) : Tally :=
  fold_left (tallyIndex method) (anomalyIndices method) t.

Definition tally (methods : list (string * MethodResult)) : Tally :=
  fold_left tallyMethod (map snd methods) emptyTally.

Definition averageScores (t : Tally) : gmap nat num :=
  map_imap (fun index score =>
              Some (score / Num.of_slot (Num.of_nat <$> indexCounts t !! index))%num)
           (indexScores t).

(** [Math.ceil(methodCount / 2)] *)
Definition ceilHalf (methodCount : nat) : nat :=
  Z.to_nat (Qceiling (inject_Z (Z.of_nat methodCount) / 2)).

Definition countAtLeast (t : Tally) (threshold : nat) (index : nat) : bool :=
  match indexCounts t !! index with
  | Some c => (threshold <=? c)%nat
  | None => false
  end.

Definition combineAnomalyDetections (methods : list (string * MethodResult))
    : list nat :=
  let t := tally methods in
  let scores := averageScores t in
  let methodCount := length methods in
  if String.eqb (ensembleMethod config) "majority" then
    let threshold := ceilHalf methodCount in
    List.filter (countAtLeast t threshold) (allIndices t)
  else if String.eqb (ensembleMethod config) "weighted" then
    let threshold := Fin 0.6 in
    List.filter (fun index => Num.geb (Num.of_slot (scores !! index)) threshold)
                (allIndices t)
  else allIndices t.

(** *** [detectDividendAnomalies] *)

(** The string conversion of a number in [d.date + d.value], and the
    message of the [TypeError] raised by [dividendData.map] on a missing
    series; both are the engine's. *)
Variable numberToString : num -> string.
Variable missingSeriesMessage : string.

Definition cacheKeyOf (dividendData : list Dividend) : list string :=
  map (fun d => date d +:+ numberToString (value d)) dividendData.

Definition isCacheValid (now timestamp : Z) : bool :=
  (now - timestamp <? cacheExpiration config)%Z.

(** [initialize], with [loadModel] inlined: a stored model, when the
    autoencoder is enabled and one is found, replaces [this.autoencoder]. *)
Definition initialize (st : State) : State :=
  if initialized st then st
  else
    {| initialized := true;
       autoencoder :=
         if useAutoencoder config
         then match storedModel with
              | Some m => Some m
              | None => autoencoder st
              end
         else autoencoder st;
       cache := cache st |}.

Definition degraded (message : option string) : DetectionResult :=
  {| anomalies := [];
     stats := {| count := 0; percentage := Fin 0 |};
     methods := [];
     error := message |}.

Definition flags (index : nat) (method : MethodResult) : bool :=
  bool_decide (index ∈ anomalyIndices method).

(** The mean, over the methods that flag [index], of [score || 1]. *)
Definition averageMethodScore (methods : list (string * MethodResult))
    (index : nat) : num :=
  let '(anomalyScore, methodCount) :=
    fold_left (fun '(anomalyScore, methodCount) method =>
                 if flags index method
                 then ((anomalyScore
                          + Num.or_else (anomalyScores method !! index) (Fin 1))%num,
                       S methodCount)
                 else (anomalyScore, methodCount))
              (map snd methods) (Fin 0, 0%nat) in
  if (0 <? methodCount)%nat then (anomalyScore / Num.of_nat methodCount)%num
  else Fin 0.

Definition severityOf (anomalyScore : num) : string :=
  if Num.gtb anomalyScore (Fin 0.8) then "high"
  else if Num.gtb anomalyScore (Fin 0.5) then "medium"
  else "low".

Definition typeOf (value avg : num) : string :=
  if Num.gtb value avg then "high_value" else "low_value".

Definition toAnomaly (methods : list (string * MethodResult))
    (values : list num) (dates : list string) (index : nat) : Anomaly :=
  let anomalyScore := averageMethodScore methods index in
  let value := at_index values index in
  let avg := calculateMean values in
  let deviation := (((value - avg) / avg) * Fin 100)%num in
  {| a_date := dates !! index;
     a_value := value;
     anomalyScore := anomalyScore;
     severity := severityOf anomalyScore;
     type := typeOf value avg;
     deviation := Num.toFixed2 deviation;
     detectedBy :=
       map fst (List.filter (fun m => flags index (snd m)) methods) |}.

(** The four methods, in the order the source adds them to [methods]. *)
Definition runMethods (st : State) (dividendData : list Dividend)
    : list (string * MethodResult) * State :=
  let values := map value dividendData in
  let features :=
    if featureEngineering config then engineerFeatures dividendData
    else map (fun value => [value]) values in
  let statistical :=
    [("zScore", detectAnomaliesWithZScore values);
     ("iqr", detectAnomaliesWithIQR values);
     ("isolationForest", detectAnomaliesWithIsolationForest features)] in
  if useAutoencoder config then
    let '(result, st') := detectAnomaliesWithAutoencoder st features in
    (statistical ++ [("autoencoder", result)], st')
  else (statistical, st).

Definition summarize (method : MethodResult) : MethodSummary :=
  {| anomalyCount := length (anomalyIndices method);
     s_threshold := threshold method |}.

(** The path after the cache and the length check. *)
Definition analyse (st : State) (dividendData : list Dividend)
    : DetectionResult * State :=
  let values := map value dividendData in
  let dates := map date dividendData in
  let '(methods, st') := runMethods st dividendData in
  let anomalyIndices := combineAnomalyDetections methods in
  let anomalies :=
    sortBy (fun a b => (anomalyScore b - anomalyScore a)%num)
           (map (toAnomaly methods values dates) anomalyIndices) in
  let stats :=
    {| count := length anomalies;
       percentage :=
         Num.toFixed2 ((Num.of_nat (length anomalies)
                          / Num.of_nat (length dividendData)) * Fin 100) |} in
  ({| anomalies := anomalies;
      stats := stats;
      methods := map (fun m => (fst m, summarize (snd m))) methods;
      error := None |}, st').

Definition cachedResult (now : Z) (st : State) (cacheKey : list string)
    : option DetectionResult :=
  if useCache config then
    match cache st !! cacheKey with
    | Some entry => if isCacheValid now (timestamp entry) then Some (data entry) else None
    | None => None
    end
  else None.

(** [detectDividendAnomalies(dividendData)]: [None] is a missing series
    ([null] or [undefined]); [now] and [later] are the two readings of
    [Date.now()].  The outer [try]/[catch] makes it total: the only
    exception on well-formed records is the one raised on a missing
    series. *)
Definition detectDividendAnomalies (now later : Z) (st : State)
    (dividendData : option (list Dividend)) : DetectionResult * State :=
  let st := initialize st in
  match dividendData with
  | None => (degraded (Some missingSeriesMessage), st)
  | Some dividendData =>
      let cacheKey := cacheKeyOf dividendData in
      match cachedResult now st cacheKey with
      | Some result => (result, st)
      | None =>
          if (length dividendData <? 5)%nat then (degraded None, st)
          else
            let '(result, st') := analyse st dividendData in
            if useCache config then
              (result,
               {| initialized := initialized st';
                  autoencoder := autoencoder st';
                  cache :=
                    <[cacheKey := {| data := result; timestamp := later |}]>
                      (cache st') |})
            else (result, st')
      end
  end.

End Detector.

End AnomalyDetector.

(** ** Strings *)

(** [a || d] on strings ([None] is [undefined], the empty string is
    falsy). *)
Definition strOr (a : option string) (d : string) : string :=
  match a with
  | Some s => if String.eqb s "" then d else s
  | None => d
  end.

Definition strTruthy (a : option string) : bool :=
  match a with
  | Some s => negb (String.eqb s "")
  | None => false
  end.

(** [s.includes(sub)] *)
Definition includes (s sub : string) : bool :=
  match String.index 0 sub s with
  | Some _ => true
  | None => false
  end.

(** ** The recommendation engine *)

Module RecommendationEngine.

Import AnomalyDetector.

Record Weights : Type := {
  priceForecasting : num;
  sentiment : num;
  anomalies : num;
  fundamentals : num
}.

Record Thresholds : Type := {
  strongBuy : num;
  buy : num;
  sell : num;
  strongSell : num
}.

Record Preferences : Type := {
  riskTolerance : string;
  investmentHorizon : string;
  incomePreference : num;
  sectorPreferences : gmap string num
}.

Record Config : Type := {
  weights : Weights;
  thresholds : Thresholds;
  personalization : Preferences
}.

Definition defaultWeights : Weights :=
  {| priceForecasting := Fin 0.4; sentiment := Fin 0.3;
     anomalies := Fin 0.2; fundamentals := Fin 0.1 |}.

Definition defaultThresholds : Thresholds :=
  {| strongBuy := Fin 0.7; buy := Fin 0.55;
     sell := Fin (-0.55); strongSell := Fin (-0.7) |}.

Definition defaultConfig : Config :=
  {| weights := defaultWeights;
     thresholds := defaultThresholds;
     personalization :=
       {| riskTolerance := "moderate"; investmentHorizon := "medium";
          incomePreference := Fin 0.5; sectorPreferences := ∅ |} |}.

Definition adjustForRisk (preferences : Preferences) (w : Weights) : Weights :=
  if String.eqb (riskTolerance preferences) "low" then
    {| priceForecasting := (priceForecasting w * Fin 0.8)%num;
       sentiment := sentiment w;
       anomalies := (anomalies w * Fin 1.5)%num;
       fundamentals := (fundamentals w * Fin 1.3)%num |}
  else if String.eqb (riskTolerance preferences) "high" then
    {| priceForecasting := (priceForecasting w * Fin 1.3)%num;
       sentiment := (sentiment w * Fin 1.2)%num;
       anomalies := (anomalies w * Fin 0.7)%num;
       fundamentals := fundamentals w |}
  else w.

Definition adjustForHorizon (preferences : Preferences) (w : Weights) : Weights :=
  if String.eqb (investmentHorizon preferences) "short" then
    {| priceForecasting := (priceForecasting w * Fin 1.2)%num;
       sentiment := (sentiment w * Fin 1.3)%num;
       anomalies := anomalies w;
       fundamentals := (fundamentals w * Fin 0.7)%num |}
  else if String.eqb (investmentHorizon preferences) "long" then
    {| priceForecasting := priceForecasting w;
       sentiment := (sentiment w * Fin 0.8)%num;
       anomalies := (anomalies w * Fin 1.2)%num;
       fundamentals := (fundamentals w * Fin 1.5)%num |}
  else w.

Definition adjustForIncome (preferences : Preferences) (w : Weights) : Weights :=
  if Num.gtb (incomePreference preferences) (Fin 0.7) then
    {| priceForecasting := priceForecasting w;
       sentiment := sentiment w;
       anomalies := (anomalies w * Fin 1.3)%num;
       fundamentals := fundamentals w |}
  else if Num.ltb (incomePreference preferences) (Fin 0.3) then
    {| priceForecasting := (priceForecasting w * Fin 1.3)%num;
       sentiment := sentiment w;
       anomalies := anomalies w;
       fundamentals := fundamentals w |}
  else w.

(** [Object.values(weights)], in the order of the keys. *)
Definition weightValues (w : Weights) : list num :=
  [priceForecasting w; sentiment w; anomalies w; fundamentals w].

Definition normalizeWeights (w : Weights) : Weights :=
  let sum := fold_left Num.add (weightValues w) (Fin 0) in
  {| priceForecasting := (priceForecasting w / sum)%num;
     sentiment := (sentiment w / sum)%num;
     anomalies := (anomalies w / sum)%num;
     fundamentals := (fundamentals w / sum)%num |}.

Definition adjustWeightsByPreferences (config : Config) (preferences : Preferences)
    : Weights :=
  normalizeWeights
    (adjustForIncome preferences
       (adjustForHorizon preferences
          (adjustForRisk preferences (weights config)))).

(** The argument of [calculateAnomalyScore]: [None] for [null] or
    [undefined]; the field [anomalies] of a present object may be absent. *)
Record AnomalyReport : Type := {
  reported : option (list Anomaly)
}.

Definition anomalyImpact (anomaly : Anomaly) : num :=
  let impact :=
    if String.eqb (type anomaly) "high_value" then Fin 0.5
    else if String.eqb (type anomaly) "low_value" then Fin (-0.5)
    else Fin 0 in
  let impact :=
    (impact * Num.min (Fin 1) (Num.abs (deviation anomaly) / Fin 50))%num in
  let severityMultiplier :=
    if String.eqb (severity anomaly) "high" then Fin 1.0
    else if String.eqb (severity anomaly) "medium" then Fin 0.7
    else Fin 0.4 in
  (impact * severityMultiplier)%num.

Definition calculateAnomalyScore (anomalies : option AnomalyReport) : num :=
  match anomalies with
  | None => Fin 0
  | Some report =>
      match reported report with
      | None => Fin 0
      | Some list =>
          if (length list =? 0)%nat then Fin 0.1
          else
            let totalScore :=
              fold_left (fun totalScore anomaly =>
                           (totalScore + anomalyImpact anomaly)%num)
                        list (Fin 0) in
            let totalScore :=
              if (0 <? length list)%nat
              then (totalScore / Num.of_nat (length list))%num
              else totalScore in
            Num.max (Fin (-1)) (Num.min (Fin 1) totalScore)
      end
  end.

(** What the engine receives from the detector. *)
Definition reportOf (result : DetectionResult) : AnomalyReport :=
  {| reported := Some (AnomalyDetector.anomalies result) |}.

Definition determineRecommendation (config : Config) (score : num) : string :=
  if Num.geb score (strongBuy (thresholds config)) then "strong_buy"
  else if Num.geb score (buy (thresholds config)) then "buy"
  else if Num.leb score (strongSell (thresholds config)) then "strong_sell"
  else if Num.leb score (sell (thresholds config)) then "sell"
  else "hold".

(** *** The other scores *)

Record Metrics : Type := {
  confidence : option string
}.

(** A price forecast; [predictions] holds the [price] of each prediction. *)
Record Forecast : Type := {
  predictions : option (list num);
  metrics : option Metrics;
  trend : option string
}.

Definition confidenceMultiplier (confidence : string) : num :=
  if String.eqb confidence "high" then Fin 1.0
  else if String.eqb confidence "medium" then Fin 0.8
  else Fin 0.6.

Definition calculatePriceScore (forecast : option Forecast) : num :=
  match forecast with
  | None => Fin 0
  | Some forecast =>
      match predictions forecast with
      | None => Fin 0
      | Some predictions =>
          if (length predictions =? 0)%nat then Fin 0
          else
            let firstPrice := at_index predictions 0 in
            let lastPrice := at_index predictions (length predictions - 1) in
            let percentChange :=
              (((lastPrice - firstPrice) / firstPrice) * Fin 100)%num in
            let score := (percentChange / Fin 10)%num in
            let score := Num.max (Fin (-1)) (Num.min (Fin 1) score) in
            match metrics forecast with
            | Some metrics =>
                if strTruthy (confidence metrics)
                then (score * confidenceMultiplier (default "" (confidence metrics)))%num
                else score
            | None => score
            end
      end
  end.

Record Fundamentals : Type := {
  pvp : option num;
  dividendYield : option num;
  vacancy : option num;
  liquidity : option string
}.

Definition pvpPoints (pvp : num) : num :=
  if Num.ltb pvp (Fin 0.7) then (pvp / Fin 0.7 - Fin 1)%num
  else if Num.leb pvp (Fin 1.1) then Fin 0.5
  else (Fin 0.5 - Num.min (Fin 0.5) ((pvp - Fin 1.1) / Fin 0.5))%num.

Definition yieldPoints (dividendYield : num) : num :=
  if Num.geb dividendYield (Fin 8) then Fin 0.8
  else if Num.geb dividendYield (Fin 6) then Fin 0.5
  else if Num.geb dividendYield (Fin 4) then Fin 0.2
  else Fin (-0.2).

Definition vacancyPoints (vacancy : num) : num :=
  if Num.leb vacancy (Fin 5) then Fin 0.7
  else if Num.leb vacancy (Fin 10) then Fin 0.3
  else if Num.leb vacancy (Fin 15) then Fin (-0.2)
  else Fin (-0.6).

Definition liquidityPoints (liquidity : string) : num :=
  if String.eqb liquidity "high" then Fin 0.4
  else if String.eqb liquidity "medium" then Fin 0.2
  else Fin (-0.2).

(** One [if (fundamentals.k !== undefined) { score += ...; factorsCount++ }]. *)
Definition addFactor {A : Type} (points : A -> num) (field : option A)
    (acc : num * nat) : num * nat :=
  match field with
  | Some x => ((acc.1 + points x)%num, S acc.2)
  | None => acc
  end.

Definition calculateFundamentalScore (fundamentals : option Fundamentals) : num :=
  match fundamentals with
  | None => Fin 0
  | Some fundamentals =>
      let '(score, factorsCount) :=
        addFactor liquidityPoints (liquidity fundamentals)
          (addFactor vacancyPoints (vacancy fundamentals)
             (addFactor yieldPoints (dividendYield fundamentals)
                (addFactor pvpPoints (pvp fundamentals) (Fin 0, 0%nat)))) in
      let score :=
        if (0 <? factorsCount)%nat then (score / Num.of_nat factorsCount)%num
        else score in
      Num.max (Fin (-1)) (Num.min (Fin 1) score)
  end.

(** The part of a sentiment analysis that the confidence reads. *)
Record Aggregated : Type := {
  sentimentConfidence : option num
}.

Record Sentiment : Type := {
  aggregated : option Aggregated
}.

(** The anomaly detection as the engine receives it: its [anomalies] and
    the keys of its [methods], either of which may be absent. *)
Record AnomalyOutput : Type := {
  outputAnomalies : option (list Anomaly);
  outputMethods : option (list string)
}.

Definition outputOf (result : DetectionResult) : AnomalyOutput :=
  {| outputAnomalies := Some (AnomalyDetector.anomalies result);
     outputMethods := Some (map fst (AnomalyDetector.methods result)) |}.

Definition reportOfOutput (output : AnomalyOutput) : AnomalyReport :=
  {| reported := outputAnomalies output |}.

Record MLResults : Type := {
  priceForecast : option Forecast;
  sentimentAnalysis : option Sentiment;
  anomalyDetection : option AnomalyOutput
}.

Definition calculateConfidence (mlResults : MLResults) : string :=
  let acc := (Fin 0, 0%nat) in
  let acc :=
    match priceForecast mlResults ≫= metrics with
    | Some metrics =>
        ((acc.1 + (if String.eqb (default "" (confidence metrics)) "high" then Fin 1
                   else if String.eqb (default "" (confidence metrics)) "medium"
                        then Fin 0.6
                        else Fin 0.3))%num,
         S acc.2)
    | None => acc
    end in
  let acc :=
    match sentimentAnalysis mlResults ≫= aggregated with
    | Some aggregated =>
        ((acc.1 + Num.or_else (sentimentConfidence aggregated) (Fin 0.5))%num, S acc.2)
    | None => acc
    end in
  let acc :=
    match anomalyDetection mlResults with
    | Some output =>
        let methodCount := length (default [] (outputMethods output)) in
        ((acc.1 + Num.min (Fin 1) (Num.of_nat methodCount / Fin 3))%num, S acc.2)
    | None => acc
    end in
  let avgConfidence :=
    if (0 <? acc.2)%nat then (acc.1 / Num.of_nat acc.2)%num else Fin 0.5 in
  if Num.geb avgConfidence (Fin 0.7) then "high"
  else if Num.geb avgConfidence (Fin 0.4) then "medium"
  else "low".

(** The preferences a caller passes: any field may be absent. *)
Record UserPreferences : Type := {
  userRiskTolerance : option string;
  userInvestmentHorizon : option string;
  userIncomePreference : option num;
  userSectorPreferences : option (gmap string num)
}.

Definition mergePreferences (config : Config) (userPreferences : UserPreferences)
    : Preferences :=
  {| riskTolerance :=
       strOr (userRiskTolerance userPreferences)
             (riskTolerance (personalization config));
     investmentHorizon :=
       strOr (userInvestmentHorizon userPreferences)
             (investmentHorizon (personalization config));
     incomePreference :=
       match userIncomePreference userPreferences with
       | Some p => p
       | None => incomePreference (personalization config)
       end;
     sectorPreferences :=
       default ∅ (userSectorPreferences userPreferences)
         ∪ sectorPreferences (personalization config) |}.

(** Preferences passed back as the caller's. *)
Definition asUserPreferences (preferences : Preferences) : UserPreferences :=
  {| userRiskTolerance := Some (riskTolerance preferences);
     userInvestmentHorizon := Some (investmentHorizon preferences);
     userIncomePreference := Some (incomePreference preferences);
     userSectorPreferences := Some (sectorPreferences preferences) |}.

End RecommendationEngine.

(** ** The data pipeline: the anomaly step and the recommendation *)

Module DataPipeline.

(** What [detectAnomalies] returns. *)
Record Report : Type := {
  ticker : string;
  anomalies : list AnomalyDetector.Anomaly;
  stats : AnomalyDetector.Stats;
  riskLevel : string
}.

Record CacheEntry : Type := {
  data : Report;
  timestamp : Z
}.

(** The pipeline: its detector and [this.cache.anomalies]. *)
Record Pipeline : Type := {
  anomalyDetector : AnomalyDetector.State;
  anomalyCache : gmap string CacheEntry
}.

Definition isCacheValid (now timestamp : Z) : bool :=
  (now - timestamp <? 4 * 60 * 60 * 1000)%Z.

Definition calculateAnomalyStats (anomalies : option (list AnomalyDetector.Anomaly))
    (dividendData : option (list AnomalyDetector.Dividend)) : AnomalyDetector.Stats :=
  match anomalies, dividendData with
  | Some anomalies, Some dividendData =>
      if (length dividendData =? 0)%nat
      then {| AnomalyDetector.count := 0; AnomalyDetector.percentage := Fin 0 |}
      else
        let count := length anomalies in
        let percentage :=
          (Num.of_nat count / Num.of_nat (length dividendData) * Fin 100)%num in
        {| AnomalyDetector.count := count;
           AnomalyDetector.percentage := Num.toFixed2 percentage |}
  | _, _ => {| AnomalyDetector.count := 0; AnomalyDetector.percentage := Fin 0 |}
  end.

Definition calculateRiskLevel (stats : option AnomalyDetector.Stats) : string :=
  match stats with
  | None => "unknown"
  | Some stats =>
      if Num.gtb (AnomalyDetector.percentage stats) (Fin 15) then "high"
      else if Num.gtb (AnomalyDetector.percentage stats) (Fin 5) then "medium"
      else "low"
  end.

Section Pipeline.

(** The detector of the pipeline, with its configuration and environment. *)
Variable sqrt : Q -> Q.
Variable exp : Q -> Q.
Variable anomalyConfig : AnomalyDetector.Config.
Variable storedModel : option AnomalyDetector.Predictor.
Variable createAndTrainAutoencoder :
  list (list num) -> option AnomalyDetector.Predictor.
Variable numberToString : num -> string.
Variable missingSeriesMessage : string.

(** [detectAnomalies(ticker, dividendData)].  [now] is the clock read by
    the check of the cache, [detectorNow] and [detectorLater] the readings
    of the detector, and [stamp] the one stored with the new entry.  The
    detector catches its own errors, so the [catch] here is not reached. *)
Definition detectAnomalies (now detectorNow detectorLater stamp : Z)
    (pipeline : Pipeline) (ticker : string)
    (dividendData : option (list AnomalyDetector.Dividend)) : Report * Pipeline :=
  let cached :=
    match anomalyCache pipeline !! ticker with
    | Some entry => if isCacheValid now (timestamp entry) then Some (data entry) else None
    | None => None
    end in
  match cached with
  | Some report => (report, pipeline)
  | None =>
      let '(anomalyResults, detector) :=
        AnomalyDetector.detectDividendAnomalies sqrt exp anomalyConfig storedModel
          createAndTrainAutoencoder numberToString missingSeriesMessage
          detectorNow detectorLater (anomalyDetector pipeline) dividendData in
      let stats :=
        calculateAnomalyStats (Some (AnomalyDetector.anomalies anomalyResults))
          dividendData in
      let anomalies :=
        {| ticker := ticker;
           anomalies := AnomalyDetector.anomalies anomalyResults;
           stats := stats;
           riskLevel := calculateRiskLevel (Some stats) |} in
      (anomalies,
       {| anomalyDetector := detector;
          anomalyCache :=
            <[ticker := {| data := anomalies; timestamp := stamp |}]>
              (anomalyCache pipeline) |})
  end.

End Pipeline.

(** A result that carries a [trend]. *)
Record Trended : Type := {
  trend : option string
}.

(** The [data] of [generateRecommendations], as far as it is read. *)
Record Analysis : Type := {
  priceForecast : option Trended;
  sentimentAnalysis : option Trended;
  anomalyReport : option Report
}.

Record Recommendation : Type := {
  recommendedTicker : string;
  recommendation : string;
  score : Z;
  reasons : list string
}.

Definition priceTrendScore (priceTrend : string) : Z :=
  if String.eqb priceTrend "strong_up" then 2
  else if String.eqb priceTrend "up" then 1
  else if String.eqb priceTrend "down" then -1
  else if String.eqb priceTrend "strong_down" then -2
  else 0.

Definition sentimentTrendScore (sentimentTrend : string) : Z :=
  if String.eqb sentimentTrend "very_positive" then 2
  else if String.eqb sentimentTrend "positive" then 1
  else if String.eqb sentimentTrend "negative" then -1
  else if String.eqb sentimentTrend "very_negative" then -2
  else 0.

Definition riskScore (riskLevel : string) : Z :=
  if String.eqb riskLevel "high" then -1
  else if String.eqb riskLevel "low" then 1
  else 0.

Definition recommendationOf (score : Z) : string :=
  if (3 <=? score)%Z then "strong_buy"
  else if (1 <=? score)%Z then "buy"
  else if (score <=? -3)%Z then "strong_sell"
  else if (score <=? -1)%Z then "sell"
  else "hold".

(** [generateRecommendations(ticker, data)] without its time stamp;
    [forecastHorizon] is the text of [this.config.forecastHorizon].  On
    data of these types nothing in the [try] block throws, so its [catch]
    is not reached. *)
Definition generateRecommendations (forecastHorizon : string) (ticker : string)
    (data : Analysis) : Recommendation :=
  let priceTrend := strOr (priceForecast data ≫= trend) "neutral" in
  let sentimentTrend := strOr (sentimentAnalysis data ≫= trend) "neutral" in
  let riskLevel := strOr (riskLevel <$> anomalyReport data) "medium" in
  let score :=
    (0 + priceTrendScore priceTrend + sentimentTrendScore sentimentTrend
     + riskScore riskLevel)%Z in
  let reasons :=
    (if includes priceTrend "up"
     then ["Previsão de alta de preço nos próximos " +:+ forecastHorizon +:+ " dias"]
     else if includes priceTrend "down"
     then ["Previsão de queda de preço nos próximos " +:+ forecastHorizon +:+ " dias"]
     else [])
    ++ (if includes sentimentTrend "positive"
        then ["Sentimento positivo nas notícias recentes"]
        else if includes sentimentTrend "negative"
        then ["Sentimento negativo nas notícias recentes"]
        else [])
    ++ (if String.eqb riskLevel "high"
        then ["Anomalias detectadas nos dividendos recentes"]
        else if String.eqb riskLevel "low"
        then ["Padrão estável de dividendos sem anomalias"]
        else []) in
  {| recommendedTicker := ticker;
     recommendation := recommendationOf score;
     score := score;
     reasons := reasons |}.

End DataPipeline.


(** ** Executable stand-ins for the engine's functions

    Rational approximations of [Math.sqrt] and [Math.exp] and a printer for
    numbers, used to run the model on concrete series. *)

Module Approx.

(** The square root to six decimals, from below. *)
Definition sqrt (q : Q) : Q :=
  Qred (Z.sqrt (Qnum q * Zpos (Qden q) * 10 ^ 12) # (Qden q * 10 ^ 6)).

(** A value cut to six decimals. *)
Definition truncate (q : Q) : Q :=
  Qred (Qfloor (q * 1000000) # 1000000).

Fixpoint expSeries (x term : Q) (k fuel : nat) : Q :=
  match fuel with
  | O => 0
  | S fuel' =>
      Qred (term + expSeries x (Qred (term * x / inject_Z (Z.of_nat k))) (S k) fuel')
  end.

(** Sixteen terms of the exponential series at the argument cut to six
    decimals, through the reciprocal for a negative argument. *)
Definition exp (q : Q) : Q :=
  let x := truncate (Qabs q) in
  if Qltb q 0 then Qred (/ expSeries x 1 1 16) else expSeries x 1 1 16.

Definition digit (d : Z) : string :=
  String (Ascii.ascii_of_nat (48 + Z.to_nat d)) EmptyString.

Fixpoint digits (fuel : nat) (n : Z) : string :=
  match fuel with
  | O => ""
  | S fuel' =>
      if (n <? 10)%Z then digit n
      else digits fuel' (n / 10) +:+ digit (n mod 10)
  end.

(** A number to two decimals. *)
Definition showNum (a : num) : string :=
  match a with
  | Fin q =>
      let h := Qfloor (Qabs q * 100 + (1 # 2)) in
      (if Qltb q 0 then "-" else "")
        +:+ digits 30 (h / 100) +:+ "." +:+ digit (h / 10 mod 10) +:+ digit (h mod 10)
  | PInf => "Infinity"
  | NInf => "-Infinity"
  | NaN => "NaN"
  end.

End Approx.

(** ** Notions used in the statements *)

(** [detector.config.ensembleMethod = m] *)
Definition setEnsembleMethod (config : AnomalyDetector.Config) (m : string)
    : AnomalyDetector.Config :=
  {| AnomalyDetector.zScoreThreshold := AnomalyDetector.zScoreThreshold config;
     AnomalyDetector.iqrMultiplier := AnomalyDetector.iqrMultiplier config;
     AnomalyDetector.contamination := AnomalyDetector.contamination config;
     AnomalyDetector.useAutoencoder := AnomalyDetector.useAutoencoder config;
     AnomalyDetector.ensembleMethod := m;
     AnomalyDetector.featureEngineering := AnomalyDetector.featureEngineering config;
     AnomalyDetector.useCache := AnomalyDetector.useCache config;
     AnomalyDetector.cacheExpiration := AnomalyDetector.cacheExpiration config |}.

(** How often [index] occurs in a list of flagged indices. *)
Definition occurrences (index : nat) (indices : list nat) : nat :=
  length (List.filter (Nat.eqb index) indices).

(** The number of detections of [index] over all the methods. *)
Definition detections (methods : list (string * AnomalyDetector.MethodResult))
    (index : nat) : nat :=
  foldr (fun m n => (occurrences index (AnomalyDetector.anomalyIndices m.2) + n)%nat)
        0%nat methods.

(** The method results of the ensemble test of [anomalyDetectorTest.js]
    (they carry no [threshold]). *)
Definition sampleMethods : list (string * AnomalyDetector.MethodResult) :=
  [("zScore",
    {| AnomalyDetector.anomalyIndices := [11; 14]%nat;
       AnomalyDetector.anomalyScores :=
         list_to_map [(11%nat, Fin 0.9); (14%nat, Fin 0.8)];
       AnomalyDetector.threshold := NaN |});
   ("iqr",
    {| AnomalyDetector.anomalyIndices := [11; 14; 5]%nat;
       AnomalyDetector.anomalyScores :=
         list_to_map [(11%nat, Fin 0.85); (14%nat, Fin 0.75); (5%nat, Fin 0.6)];
       AnomalyDetector.threshold := NaN |});
   ("isolationForest",
    {| AnomalyDetector.anomalyIndices := [11; 2]%nat;
       AnomalyDetector.anomalyScores :=
         list_to_map [(11%nat, Fin 0.95); (2%nat, Fin 0.65)];
       AnomalyDetector.threshold := NaN |})].

(** A series of eight monthly dividends with one outlier, and a series too
    short to analyse. *)
Definition sampleDividend (month : string) (amount : Q) : AnomalyDetector.Dividend :=
  {| AnomalyDetector.date := "2024-" +:+ month;
     AnomalyDetector.value := Fin amount;
     AnomalyDetector.price := None;
     AnomalyDetector.yield := None |}.

Definition sampleDividends : list AnomalyDetector.Dividend :=
  [sampleDividend "01" 10; sampleDividend "02" 10; sampleDividend "03" 11;
   sampleDividend "04" 10; sampleDividend "05" 10; sampleDividend "06" 11;
   sampleDividend "07" 10; sampleDividend "08" 30].

Definition shortDividends : list AnomalyDetector.Dividend :=
  [sampleDividend "01" 10; sampleDividend "02" 10; sampleDividend "03" 30].

(** The tally [t] records exactly the detection counts [occ]. *)
Definition tallyOf (t : AnomalyDetector.Tally) (occ : nat -> nat) : Prop :=
  forall i,
    AnomalyDetector.indexCounts t !! i
      = (if (occ i =? 0)%nat then None else Some (occ i)) /\
    (i ∈ AnomalyDetector.allIndices t <-> (0 < occ i)%nat).

(** What the specification requires of an anomaly record built from a
    series with the given values: its type tells whether its value exceeds
    the mean of the series, its severity follows the thresholds 0.8 and 0.5
    on its score. *)
Definition recordInvariant (values : list num) (a : AnomalyDetector.Anomaly)
    : Prop :=
  (AnomalyDetector.type a = "high_value" <->
   Num.gtb (AnomalyDetector.a_value a) (AnomalyDetector.calculateMean values)
   = true) /\
  (AnomalyDetector.type a <> "high_value" ->
   AnomalyDetector.type a = "low_value") /\
  (Num.gtb (AnomalyDetector.anomalyScore a) (Fin 0.8) = true ->
   AnomalyDetector.severity a = "high") /\
  (Num.gtb (AnomalyDetector.anomalyScore a) (Fin 0.8) = false ->
   Num.gtb (AnomalyDetector.anomalyScore a) (Fin 0.5) = true ->
   AnomalyDetector.severity a = "medium") /\
  (Num.gtb (AnomalyDetector.anomalyScore a) (Fin 0.5) = false ->
   AnomalyDetector.severity a = "low").

(** Every cached result was computed from a series of at least five
    records that has the key of its entry.  This holds of a new detector
    and is kept by every call of [detectDividendAnomalies]. *)
Definition cacheSound (numberToString : num -> string)
    (st : AnomalyDetector.State) : Prop :=
  forall key entry,
    AnomalyDetector.cache st !! key = Some entry ->
    exists series,
      (5 <= length series)%nat /\
      AnomalyDetector.cacheKeyOf numberToString series = key /\
      Forall (recordInvariant (map AnomalyDetector.value series))
             (AnomalyDetector.anomalies (AnomalyDetector.data entry)).

(** ** Further notions *)

(** A number that is neither [NaN] nor an infinity. *)
Definition finite (a : num) : Prop := exists q, a = Fin q.

(** The finite value of a number ([0] for the others). *)
Definition valueOf (a : num) : Q :=
  match a with
  | Fin q => q
  | _ => 0
  end.

(** Every row of the matrix has [c] entries. *)
Definition rectangular (c : nat) (matrix : list (list num)) : Prop :=
  Forall (fun row => length row = c) matrix.

(** A finite number above zero. *)
Definition positive (a : num) : Prop := exists q, a = Fin q /\ 0 < q.

(** A dividend record the features are defined on: a positive value, and a
    finite yield and price where they are present. *)
Definition regularDividend (d : AnomalyDetector.Dividend) : Prop :=
  positive (AnomalyDetector.value d) /\
  (forall y, AnomalyDetector.yield d = Some y -> finite y) /\
  (forall p, AnomalyDetector.price d = Some p -> finite p).

(** The five recommendations, from the most negative to the most
    positive. *)
Definition rank (recommendation : string) : Z :=
  if String.eqb recommendation "strong_buy" then 2
  else if String.eqb recommendation "buy" then 1
  else if String.eqb recommendation "sell" then -1
  else if String.eqb recommendation "strong_sell" then -2
  else 0.

(** Weights that are all finite and positive. *)
Definition positiveWeights (w : RecommendationEngine.Weights) : Prop :=
  Forall positive (RecommendationEngine.weightValues w).

(** A running total of [calculateFundamentalScore] that is at most [0.8]
    for each factor counted; it may be [-Infinity] once a factor counts. *)
Definition boundedTotal (acc : num * nat) : Prop :=
  (acc.1 = NInf /\ (0 < acc.2)%nat) \/
  exists c, acc.1 = Fin c /\ c <= (4 # 5) * inject_Z (Z.of_nat acc.2).

(** The results the engine is given when only the detector ran. *)
Definition detectionOnly (result : AnomalyDetector.DetectionResult)
    : RecommendationEngine.MLResults :=
  {| RecommendationEngine.priceForecast := None;
     RecommendationEngine.sentimentAnalysis := None;
     RecommendationEngine.anomalyDetection :=
       Some (RecommendationEngine.outputOf result) |}.

(** No entry of the pipeline's cache answers for the ticker at [now]. *)
Definition unanswered (now : Z) (pipeline : DataPipeline.Pipeline)
    (name : string) : Prop :=
  forall entry,
    DataPipeline.anomalyCache pipeline !! name = Some entry ->
    DataPipeline.isCacheValid now (DataPipeline.timestamp entry) = false.

(** The anomaly of the sample series, as a record. *)
Definition sampleAnomaly : AnomalyDetector.Anomaly :=
  {| AnomalyDetector.a_date := Some "2024-08";
     AnomalyDetector.a_value := Fin 30;
     AnomalyDetector.anomalyScore := Fin 0.7;
     AnomalyDetector.severity := "medium";
     AnomalyDetector.type := "high_value";
     AnomalyDetector.deviation := Fin 135.29;
     AnomalyDetector.detectedBy := ["zScore"; "iqr"; "autoencoder"] |}.

(** The default configuration with the feature engineering turned off. *)
Definition rawValuesConfig : AnomalyDetector.Config :=
  {| AnomalyDetector.zScoreThreshold := Fin 2.5;
     AnomalyDetector.iqrMultiplier := Fin 1.5;
     AnomalyDetector.contamination := Fin 0.05;
     AnomalyDetector.useAutoencoder := true;
     AnomalyDetector.ensembleMethod := "majority";
     AnomalyDetector.featureEngineering := false;
     AnomalyDetector.useCache := true;
     AnomalyDetector.cacheExpiration := 24 * 60 * 60 * 1000 |}.

(** A pipeline that has not run yet. *)
Definition newPipeline : DataPipeline.Pipeline :=
  {| DataPipeline.anomalyDetector := AnomalyDetector.newState;
     DataPipeline.anomalyCache := ∅ |}.

(** * Properties *)

(** ** Comparisons on rationals *)

Lemma Qltb_true (a b : Q) : Qltb a b = true <-> a < b.
Proof.
  unfold Qltb. rewrite Qlt_alt. destruct (a ?= b); split; congruence.
Qed.

Lemma Qltb_false (a b : Q) : Qltb a b = false <-> b <= a.
Proof.
  split.
  - intros H. apply Qnot_lt_le. intros Hlt. apply Qltb_true in Hlt. congruence.
  - intros H. destruct (Qltb a b) eqn:E; [|reflexivity].
    apply Qltb_true in E. exfalso. apply (Qlt_not_le _ _ E H).
Qed.

Lemma Qis0_true (a : Q) : Qis0 a = true <-> a == 0.
Proof. apply Qeq_bool_iff. Qed.

Lemma Qis0_false (a : Q) : Qis0 a = false <-> ~ a == 0.
Proof.
  unfold Qis0. split.
  - intros H E. apply Qeq_bool_iff in E. congruence.
  - intros H. destruct (Qeq_bool a 0) eqn:E; [|reflexivity].
    apply Qeq_bool_iff in E. contradiction.
Qed.

Lemma sgn_zero (a : Q) : a == 0 -> Num.sgn a = 0%Z.
Proof.
  unfold Num.sgn, Qeq. destruct a as [n d]. simpl. intros H.
  assert (n = 0%Z) as -> by lia. reflexivity.
Qed.

(** ** The scoring loop *)

Section ScoreEach.

Context {A : Type} (f : A -> bool * num).

Lemma scoreStep_pair (indices : list nat) (scores : gmap nat num) (x : A) (k : nat) :
  scoreStep f (indices, scores) x k =
    ((if (f x).1 then indices ++ [k] else indices), <[k := (f x).2]> scores).
Proof. reflexivity. Qed.

Lemma foldi_from_scoreStep (xs : list A) : forall k indices scores,
  foldi_from (scoreStep f) k xs (indices, scores) =
    (indices ++ flaggedFrom f k xs,
     (foldi_from (scoreStep f) k xs (indices, scores)).2).
Proof.
  induction xs as [|x xs IH]; intros k indices scores; simpl.
  - by rewrite app_nil_r.
  - rewrite scoreStep_pair, IH. simpl.
    destruct (f x).1; simpl; by rewrite <- ?app_assoc.
Qed.

Lemma foldi_from_scores (xs : list A) : forall k indices scores i,
  (foldi_from (scoreStep f) k xs (indices, scores)).2 !! i =
    if decide (k <= i)%nat
    then match xs !! (i - k)%nat with
         | Some x => Some (f x).2
         | None => scores !! i
         end
    else scores !! i.
Proof.
  induction xs as [|x xs IH]; intros k indices scores i; simpl.
  - by destruct (decide _).
  - rewrite scoreStep_pair, IH.
    destruct (decide (S k <= i)%nat) as [Hle|Hnle].
    + rewrite decide_True by lia.
      replace (i - k)%nat with (S (i - S k)) by lia. simpl.
      destruct (xs !! (i - S k)%nat); [done|].
      rewrite lookup_insert_ne by lia. done.
    + destruct (decide (k <= i)%nat) as [Hle|Hnle'].
      * assert (i = k) as -> by lia. rewrite Nat.sub_diag. simpl.
        by rewrite lookup_insert_eq.
      * rewrite lookup_insert_ne by lia. done.
Qed.

Lemma scoreEach_indices (xs : list A) :
  (scoreEach f xs).1 = flaggedFrom f 0 xs.
Proof.
  unfold scoreEach, foldi. by rewrite foldi_from_scoreStep.
Qed.

Lemma scoreEach_scores (xs : list A) (i : nat) :
  (scoreEach f xs).2 !! i = (fun x => (f x).2) <$> xs !! i.
Proof.
  unfold scoreEach, foldi. rewrite foldi_from_scores.
  rewrite decide_True by lia. rewrite Nat.sub_0_r.
  destruct (xs !! i); done.
Qed.

Lemma elem_of_flaggedFrom (xs : list A) : forall k i,
  i ∈ flaggedFrom f k xs <->
  (k <= i)%nat /\ exists x, xs !! (i - k)%nat = Some x /\ (f x).1 = true.
Proof.
  induction xs as [|x xs IH]; intros k i; simpl.
  - split; [by intros ?%elem_of_nil | by intros [_ (? & ? & _)]].
  - rewrite elem_of_app, IH. split.
    + intros [H | [Hle (y & Hy & Hf)]].
      * destruct (f x).1 eqn:E; [|by apply elem_of_nil in H].
        apply list_elem_of_singleton in H as ->. split; [lia|].
        exists x. by rewrite Nat.sub_diag.
      * split; [lia|]. exists y.
        replace (i - k)%nat with (S (i - S k)) by lia. done.
    + intros [Hle (y & Hy & Hf)].
      destruct (decide (i = k)) as [->|Hne].
      * rewrite Nat.sub_diag in Hy. simpl in Hy. injection Hy as ->.
        left. rewrite Hf. by apply list_elem_of_singleton.
      * right. split; [lia|]. exists y.
        replace (i - k)%nat with (S (i - S k)) in Hy by lia. done.
Qed.

Lemma flaggedFrom_none (xs : list A) : forall k,
  Forall (fun x => (f x).1 = false) xs -> flaggedFrom f k xs = [].
Proof.
  induction xs as [|x xs IH]; intros k H; simpl; [done|].
  inversion H as [|? ? Hx Hxs]; subst. by rewrite Hx, IH.
Qed.

End ScoreEach.

(** ** Statistics of a constant series *)

Lemma inject_nat_succ (n : nat) :
  inject_Z (Z.of_nat (S n)) == inject_Z (Z.of_nat n) + 1.
Proof. rewrite Nat2Z.inj_succ. unfold Z.succ. rewrite inject_Z_plus. reflexivity. Qed.

Lemma inject_nat_pos (n : nat) : (0 < n)%nat -> 0 < inject_Z (Z.of_nat n).
Proof.
  intros H. change 0 with (inject_Z 0). rewrite <- Zlt_Qlt. lia.
Qed.

Lemma eqv_fin_inv (v : num) (c : Q) :
  Num.eqv v (Fin c) -> exists q, v = Fin q /\ q == c.
Proof. destruct v; simpl; try contradiction. eauto. Qed.

Lemma fold_add_constant (c : Q) (values : list num) :
  Forall (fun v => Num.eqv v (Fin c)) values ->
  forall a, exists s,
    fold_left Num.add values (Fin a) = Fin s /\
    s == a + inject_Z (Z.of_nat (length values)) * c.
Proof.
  induction 1 as [|v values Hv _ IH]; intros a.
  - exists a. split; [reflexivity|]. simpl. ring.
  - apply eqv_fin_inv in Hv as (q & -> & Hq). simpl fold_left.
    destruct (IH (a + q)) as (s & Hs & Es). exists s. split; [exact Hs|].
    rewrite Es. cbn [length]. rewrite inject_nat_succ, Hq. ring.
Qed.

Section ConstantSeries.

Variable Msqrt : Q -> Q.
Hypothesis Msqrt_zero : forall q, q == 0 -> Msqrt q == 0.

Variable c : Q.
Variable values : list num.
Hypothesis values_nonempty : values <> [].
Hypothesis values_constant : Forall (fun v => Num.eqv v (Fin c)) values.

Import AnomalyDetector.

Lemma length_values_pos : (0 < length values)%nat.
Proof. destruct values; [contradiction | simpl; lia]. Qed.

Lemma mean_constant :
  exists m, calculateMean values = Fin m /\ m == c.
Proof.
  pose proof length_values_pos as Hlen.
  pose proof (inject_nat_pos _ Hlen) as Hpos.
  unfold calculateMean, sum.
  destruct (Nat.eqb_spec (length values) 0) as [E|_]; [lia|].
  destruct (fold_add_constant c values values_constant 0) as (s & -> & Es).
  unfold Num.of_nat. simpl.
  destruct (Qis0 _) eqn:E0.
  - apply Qis0_true in E0. rewrite E0 in Hpos. inversion Hpos.
  - eexists. split; [reflexivity|]. rewrite Es. field.
    intros E. rewrite E in Hpos. inversion Hpos.
Qed.

Lemma stdDev_constant (m : Q) :
  m == c ->
  exists sd, calculateStdDev Msqrt values (Some (Fin m)) = Fin sd /\ sd == 0.
Proof.
  intros Hm. pose proof length_values_pos as Hlen.
  pose proof (inject_nat_pos _ Hlen) as Hpos.
  unfold calculateStdDev.
  destruct (length values <=? 1)%nat; [exists 0; split; reflexivity|].
  assert (Forall (fun v => Num.eqv v (Fin 0))
            (map (fun val => Num.sq (val - Fin m)) values)) as Hsq.
  { apply Forall_map. eapply Forall_impl; [exact values_constant|].
    intros v (q & -> & Hq)%eqv_fin_inv. simpl. rewrite Hq, Hm. ring. }
  unfold sum.
  destruct (fold_add_constant 0 _ Hsq 0) as (s & -> & Es).
  assert (s == 0) as Hs by (rewrite Es; ring).
  unfold Num.of_nat. simpl.
  destruct (Qis0 _) eqn:E0.
  { apply Qis0_true in E0. rewrite E0 in Hpos. inversion Hpos. }
  assert (s / inject_Z (Z.of_nat (length values)) == 0) as Hv.
  { rewrite Hs. unfold Qdiv. ring. }
  unfold sqrt.
  destruct (Qltb (s / inject_Z (Z.of_nat (length values))) 0) eqn:El.
  { apply Qltb_true in El. rewrite Hv in El. inversion El. }
  eexists. split; [reflexivity|]. by apply Msqrt_zero.
Qed.

(** Every Z-score of a constant series is [0 / 0]. *)
Lemma zScores_constant (m sd : Q) :
  m == c -> sd == 0 ->
  map (fun value => Num.abs ((value - Fin m) / Fin sd)) values =
  map (fun _ => NaN) values.
Proof.
  intros Hm Hsd.
  apply map_ext_in. intros v Hv%list_elem_of_In.
  pose proof (proj1 (list.Forall_forall _ _) values_constant v Hv) as Hc.
  apply eqv_fin_inv in Hc as (q & -> & Hq). simpl.
  apply Qis0_true in Hsd. rewrite Hsd.
  rewrite sgn_zero; [reflexivity|]. rewrite Hq, Hm. ring.
Qed.

End ConstantSeries.

(** ** The Z-score method on a constant series *)

Section ZScoreConstant.

Import AnomalyDetector.

Variable Msqrt : Q -> Q.
Variable config : Config.

Lemma zscore_indices (values : list num) :
  anomalyIndices (detectAnomaliesWithZScore Msqrt config values) =
  (scoreEach
     (fun zScore =>
        (Num.gtb zScore (zScoreThreshold config),
         Num.min (zScore / (zScoreThreshold config * Fin 2)) (Fin 1)))
     (map (fun value =>
             Num.abs ((value - calculateMean values)
                        / calculateStdDev Msqrt values (Some (calculateMean values))))
          values)).1.
Proof.
  unfold detectAnomaliesWithZScore. by destruct (scoreEach _ _).
Qed.

Lemma zscore_scores (values : list num) :
  anomalyScores (detectAnomaliesWithZScore Msqrt config values) =
  (scoreEach
     (fun zScore =>
        (Num.gtb zScore (zScoreThreshold config),
         Num.min (zScore / (zScoreThreshold config * Fin 2)) (Fin 1)))
     (map (fun value =>
             Num.abs ((value - calculateMean values)
                        / calculateStdDev Msqrt values (Some (calculateMean values))))
          values)).2.
Proof.
  unfold detectAnomaliesWithZScore. by destruct (scoreEach _ _).
Qed.

Lemma gtb_nan_l (a : num) : Num.gtb NaN a = false.
Proof. by destruct a. Qed.

Hypothesis Msqrt_zero : forall q, q == 0 -> Msqrt q == 0.

Lemma zscore_constant_zScores (c : Q) (values : list num) :
  values <> [] ->
  Forall (fun v => Num.eqv v (Fin c)) values ->
  map (fun value =>
         Num.abs ((value - calculateMean values)
                    / calculateStdDev Msqrt values (Some (calculateMean values))))
      values
  = map (fun _ => NaN) values.
Proof.
  intros Hne Hc.
  destruct (mean_constant c values Hne Hc) as (m & -> & Hm).
  destruct (stdDev_constant Msqrt Msqrt_zero c values Hne Hc m Hm) as (sd & -> & Hsd).
  by apply (zScores_constant c).
Qed.

Lemma zscore_constant_indices (c : Q) (values : list num) :
  values <> [] ->
  Forall (fun v => Num.eqv v (Fin c)) values ->
  anomalyIndices (detectAnomaliesWithZScore Msqrt config values) = [].
Proof.
  intros Hne Hc.
  rewrite zscore_indices, (zscore_constant_zScores c) by done.
  rewrite scoreEach_indices. apply flaggedFrom_none.
  apply Forall_map, Forall_true. intros _. simpl. apply gtb_nan_l.
Qed.

Lemma zscore_constant_scores (c : Q) (values : list num) (i : nat) :
  values <> [] ->
  Forall (fun v => Num.eqv v (Fin c)) values ->
  (i < length values)%nat ->
  anomalyScores (detectAnomaliesWithZScore Msqrt config values) !! i = Some NaN.
Proof.
  intros Hne Hc Hi.
  rewrite zscore_scores, (zscore_constant_zScores c) by done.
  rewrite scoreEach_scores, list_lookup_fmap.
  destruct (lookup_lt_is_Some_2 values i Hi) as [v ->]. reflexivity.
Qed.

End ZScoreConstant.

Lemma Approx_sqrt_zero (q : Q) : q == 0 -> Approx.sqrt q == 0.
Proof.
  intros H. unfold Approx.sqrt. rewrite Qred_correct.
  assert (Qnum q = 0%Z) as ->.
  { unfold Qeq in H. simpl in H. lia. }
  reflexivity.
Qed.

(** C1 (the code departs from the claim).  On a constant series of finite
    values the Z-score method flags no index, as the claim says, but the
    score it stores for every index is [NaN], the value of [0 / 0], not
    [0]: the division by a zero standard deviation is not guarded. *)
Theorem zscore_constant_series_scores_nan
    (Msqrt : Q -> Q) (config : AnomalyDetector.Config) (c : Q) (values : list num) :
  (forall q, q == 0 -> Msqrt q == 0) ->
  values <> [] ->
  Forall (fun v => Num.eqv v (Fin c)) values ->
  AnomalyDetector.anomalyIndices
    (AnomalyDetector.detectAnomaliesWithZScore Msqrt config values) = [] /\
  forall i, (i < length values)%nat ->
    AnomalyDetector.anomalyScores
      (AnomalyDetector.detectAnomaliesWithZScore Msqrt config values) !! i
    = Some NaN.
Proof.
  intros Hsqrt Hne Hc. split.
  - by apply (zscore_constant_indices Msqrt config Hsqrt c).
  - intros i Hi. by apply (zscore_constant_scores Msqrt config Hsqrt c).
Qed.

Lemma zscore_constant_series_scores_nan_witness :
  AnomalyDetector.anomalyIndices
    (AnomalyDetector.detectAnomaliesWithZScore Approx.sqrt
       AnomalyDetector.defaultConfig [Fin 1; Fin 1; Fin 1; Fin 1; Fin 1]) = [] /\
  AnomalyDetector.anomalyScores
    (AnomalyDetector.detectAnomaliesWithZScore Approx.sqrt
       AnomalyDetector.defaultConfig [Fin 1; Fin 1; Fin 1; Fin 1; Fin 1]) !! 0%nat
  = Some NaN.
Proof.
  destruct (zscore_constant_series_scores_nan Approx.sqrt
              AnomalyDetector.defaultConfig 1 [Fin 1; Fin 1; Fin 1; Fin 1; Fin 1]
              Approx_sqrt_zero) as [Hindices Hscores].
  - discriminate.
  - repeat constructor; reflexivity.
  - split; [exact Hindices | apply Hscores; simpl; lia].
Defined.

(** ** The ensemble: what the tally holds *)

Section Tally.

Import AnomalyDetector.

Lemma tallyOf_ext (t : Tally) (occ occ' : nat -> nat) :
  (forall i, occ i = occ' i) -> tallyOf t occ -> tallyOf t occ'.
Proof. intros E H i. rewrite <- E. apply H. Qed.

Lemma tallyOf_empty : tallyOf emptyTally (fun _ => 0%nat).
Proof.
  intros i. simpl. split; [apply lookup_empty|].
  split; [by intros ?%elem_of_nil | lia].
Qed.

Lemma tallyIndex_counts (method : MethodResult) (t : Tally) (index : nat)
    (occ : nat -> nat) :
  tallyOf t occ ->
  tallyOf (tallyIndex method t index)
          (fun i => (occ i + (if (index =? i)%nat then 1 else 0))%nat).
Proof.
  intros H i. destruct (H index) as [Hc Ha]. destruct (H i) as [Hci Hai].
  assert (allIndices (tallyIndex method t index) =
          if bool_decide (index ∈ allIndices t) then allIndices t
          else allIndices t ++ [index]) as Hall.
  { unfold tallyIndex. by destruct (indexCounts t !! index) as [[|?]|]. }
  assert (indexCounts (tallyIndex method t index) =
          <[index := S (occ index)]> (indexCounts t)) as Hcounts.
  { unfold tallyIndex. rewrite Hc.
    destruct (Nat.eqb_spec (occ index) 0) as [E|E]; simpl.
    - by rewrite E.
    - destruct (occ index); [done|]. reflexivity. }
  rewrite Hall, Hcounts. clear Hall Hcounts.
  destruct (Nat.eqb_spec index i) as [->|Hne].
  - split.
    + rewrite lookup_insert_eq.
      destruct (Nat.eqb_spec (occ i + 1) 0); [lia|]. f_equal. lia.
    + split; [lia|]. intros _.
      destruct (bool_decide_reflect (i ∈ allIndices t)); [done|].
      apply elem_of_app. right. by apply list_elem_of_singleton.
  - rewrite Nat.add_0_r. split.
    + by rewrite lookup_insert_ne.
    + rewrite <- Hai.
      destruct (bool_decide_reflect (index ∈ allIndices t)); [done|].
      rewrite elem_of_app, list_elem_of_singleton.
      split; [intros [?|?]; [done | congruence] | by left].
Qed.

Lemma occurrences_cons (index j : nat) (indices : list nat) :
  occurrences index (j :: indices) =
  ((if (j =? index)%nat then 1 else 0) + occurrences index indices)%nat.
Proof.
  unfold occurrences. simpl. rewrite (Nat.eqb_sym index j).
  by destruct (j =? index)%nat.
Qed.

Lemma tallyMethod_counts (method : MethodResult) : forall indices t occ,
  tallyOf t occ ->
  tallyOf (fold_left (tallyIndex method) indices t)
          (fun i => (occ i + occurrences i indices)%nat).
Proof.
  induction indices as [|j indices IH]; intros t occ H; simpl.
  - eapply tallyOf_ext; [|exact H]. intros i. unfold occurrences. simpl. lia.
  - eapply tallyOf_ext; [|exact (IH _ _ (tallyIndex_counts method t j occ H))].
    intros i. simpl. rewrite occurrences_cons. lia.
Qed.

Lemma tally_fold_counts : forall (methods : list (string * MethodResult)) t occ,
  tallyOf t occ ->
  tallyOf (fold_left tallyMethod (map snd methods) t)
          (fun i => (occ i + detections methods i)%nat).
Proof.
  intros methods.
  induction methods as [|m methods IH]; intros t occ H; simpl.
  - eapply tallyOf_ext; [|exact H]. intros i. lia.
  - eapply tallyOf_ext;
      [|exact (IH _ _ (tallyMethod_counts m.2 (anomalyIndices m.2) t occ H))].
    intros i. simpl. lia.
Qed.

Lemma tally_counts (methods : list (string * MethodResult)) :
  tallyOf (tally methods) (detections methods).
Proof.
  eapply tallyOf_ext; [|exact (tally_fold_counts methods _ _ tallyOf_empty)].
  done.
Qed.

Lemma detections_app (methods1 methods2 : list (string * MethodResult)) (i : nat) :
  detections (methods1 ++ methods2) i =
  (detections methods1 i + detections methods2 i)%nat.
Proof.
  induction methods1 as [|m methods1 IH]; simpl; [done|]. rewrite IH. lia.
Qed.

Lemma occurrences_pos (i : nat) (indices : list nat) :
  i ∈ indices -> (0 < occurrences i indices)%nat.
Proof.
  induction 1 as [i indices|i j indices _ IH]; rewrite occurrences_cons.
  - rewrite Nat.eqb_refl. lia.
  - lia.
Qed.

Lemma ceilHalf_eq (n : nat) : ceilHalf n = ((n + 1) / 2)%nat.
Proof.
  unfold ceilHalf, Qceiling, Qfloor.
  cbv [Qdiv Qmult Qinv inject_Z Qopp Qnum Qden].
  change (1 * 2)%positive with 2%positive.
  apply Nat2Z.inj. rewrite Nat2Z.inj_div, Nat2Z.inj_add.
  change (Z.of_nat 1) with 1%Z. change (Z.of_nat 2) with 2%Z.
  pose proof (Z.div_mod (- (Z.of_nat n * 1)) 2) as H1.
  pose proof (Z.mod_pos_bound (- (Z.of_nat n * 1)) 2) as H2.
  pose proof (Z.div_mod (Z.of_nat n + 1) 2) as H3.
  pose proof (Z.mod_pos_bound (Z.of_nat n + 1) 2) as H4.
  rewrite Z2Nat.id; lia.
Qed.

(** Membership in the three combinations. *)
Lemma combine_majority (config : Config) (methods : list (string * MethodResult))
    (i : nat) :
  i ∈ combineAnomalyDetections (setEnsembleMethod config "majority") methods <->
  (0 < detections methods i)%nat /\
  (ceilHalf (length methods) <= detections methods i)%nat.
Proof.
  unfold combineAnomalyDetections. simpl.
  rewrite list_elem_of_In, filter_In, <- list_elem_of_In.
  destruct (tally_counts methods i) as [Hc Ha]. rewrite Ha.
  unfold countAtLeast. rewrite Hc.
  destruct (Nat.eqb_spec (detections methods i) 0) as [E|E].
  - split; [intros [_ ?]; done | lia].
  - rewrite Nat.leb_le. done.
Qed.

Lemma combine_any (config : Config) (methods : list (string * MethodResult))
    (i : nat) :
  i ∈ combineAnomalyDetections (setEnsembleMethod config "any") methods <->
  (0 < detections methods i)%nat.
Proof.
  unfold combineAnomalyDetections. simpl.
  destruct (tally_counts methods i) as [_ Ha]. exact Ha.
Qed.

End Tally.

(** ** The ensemble policies compared *)

Lemma List_filter_sublist {A : Type} (p : A -> bool) (l : list A) :
  sublist (List.filter p l) l.
Proof.
  induction l as [|x l IH]; simpl; [constructor|].
  destruct (p x); by constructor.
Qed.

(** C3.  For the same method results, the indices kept under ['majority']
    all occur in the list kept under ['any'], and there are no more of
    them. *)
Theorem majority_within_any (config : AnomalyDetector.Config)
    (methods : list (string * AnomalyDetector.MethodResult)) :
  AnomalyDetector.combineAnomalyDetections
    (setEnsembleMethod config "majority") methods
  ⊆ AnomalyDetector.combineAnomalyDetections
      (setEnsembleMethod config "any") methods
  /\ (length (AnomalyDetector.combineAnomalyDetections
                (setEnsembleMethod config "majority") methods)
      <= length (AnomalyDetector.combineAnomalyDetections
                   (setEnsembleMethod config "any") methods))%nat.
Proof.
  assert (sublist
            (AnomalyDetector.combineAnomalyDetections
               (setEnsembleMethod config "majority") methods)
            (AnomalyDetector.combineAnomalyDetections
               (setEnsembleMethod config "any") methods)) as Hsub.
  { unfold AnomalyDetector.combineAnomalyDetections. simpl.
    apply List_filter_sublist. }
  split.
  - by apply sublist_subseteq.
  - by apply sublist_length.
Qed.

Lemma ceilHalf_succ (n : nat) :
  (AnomalyDetector.ceilHalf (S n) <= S (AnomalyDetector.ceilHalf n))%nat.
Proof.
  rewrite !ceilHalf_eq.
  pose proof (Nat.div_mod_eq (S n + 1) 2) as H1.
  pose proof (Nat.mod_upper_bound (S n + 1) 2) as H2.
  pose proof (Nat.div_mod_eq (n + 1) 2) as H3.
  pose proof (Nat.mod_upper_bound (n + 1) 2) as H4.
  lia.
Qed.

(** A method inserted anywhere among the others. *)
Lemma majority_keeps_index (config : AnomalyDetector.Config)
    (methods1 methods2 : list (string * AnomalyDetector.MethodResult))
    (name : string) (result : AnomalyDetector.MethodResult) (i : nat) :
  i ∈ AnomalyDetector.combineAnomalyDetections
        (setEnsembleMethod config "majority") (methods1 ++ methods2) ->
  i ∈ AnomalyDetector.anomalyIndices result ->
  i ∈ AnomalyDetector.combineAnomalyDetections
        (setEnsembleMethod config "majority")
        (methods1 ++ (name, result) :: methods2).
Proof.
  rewrite !combine_majority, !detections_app, !length_app.
  intros [Hpos Hmaj] Hflag.
  apply occurrences_pos in Hflag.
  cbn [detections foldr snd length]. fold (detections methods2 i).
  replace (length methods1 + S (length methods2))%nat
    with (S (length methods1 + length methods2)) by lia.
  pose proof (ceilHalf_succ (length methods1 + length methods2)).
  lia.
Qed.

(** C4.  Under ['majority'], an index that is in the combined result stays
    in it when one more method result that flags it is added. *)
Theorem majority_monotone (config : AnomalyDetector.Config)
    (methods : list (string * AnomalyDetector.MethodResult))
    (name : string) (result : AnomalyDetector.MethodResult) (i : nat) :
  i ∈ AnomalyDetector.combineAnomalyDetections
        (setEnsembleMethod config "majority") methods ->
  i ∈ AnomalyDetector.anomalyIndices result ->
  i ∈ AnomalyDetector.combineAnomalyDetections
        (setEnsembleMethod config "majority") (methods ++ [(name, result)]).
Proof.
  intros Hin Hflag.
  apply (majority_keeps_index config methods [] name result i); [|exact Hflag].
  by rewrite app_nil_r.
Qed.

Lemma majority_monotone_witness :
  14%nat ∈ AnomalyDetector.combineAnomalyDetections
    (setEnsembleMethod AnomalyDetector.defaultConfig "majority")
    (sampleMethods ++
       [("autoencoder",
         {| AnomalyDetector.anomalyIndices := [14%nat];
            AnomalyDetector.anomalyScores := {[ 14%nat := Fin 0.7 ]};
            AnomalyDetector.threshold := Fin 0.5 |})]).
Proof.
  apply (majority_monotone AnomalyDetector.defaultConfig sampleMethods).
  - apply (bool_decide_unpack _). vm_compute. exact I.
  - apply (bool_decide_unpack _). vm_compute. exact I.
Defined.

(** The test's expectations: only 11 and 14 reach a majority of the three
    methods, every flagged index passes under ['any']. *)
Example sample_combinations :
  AnomalyDetector.combineAnomalyDetections
    (setEnsembleMethod AnomalyDetector.defaultConfig "majority") sampleMethods
  = [11; 14]%nat /\
  AnomalyDetector.combineAnomalyDetections
    (setEnsembleMethod AnomalyDetector.defaultConfig "any") sampleMethods
  = [11; 14; 5; 2]%nat /\
  AnomalyDetector.combineAnomalyDetections
    (setEnsembleMethod AnomalyDetector.defaultConfig "weighted") sampleMethods
  = [11; 14; 5; 2]%nat.
Proof. repeat split; vm_compute; reflexivity. Qed.

(** ** The recommendation engine *)

Section Engine.

Import RecommendationEngine.

(** C6.  With the default thresholds the five scores of the scenario fall
    in the five classes. *)
Theorem default_thresholds_classify :
  determineRecommendation defaultConfig (Fin 0.75) = "strong_buy" /\
  determineRecommendation defaultConfig (Fin 0.60) = "buy" /\
  determineRecommendation defaultConfig (Fin 0.0) = "hold" /\
  determineRecommendation defaultConfig (Fin (-0.60)) = "sell" /\
  determineRecommendation defaultConfig (Fin (-0.75)) = "strong_sell".
Proof. repeat split; reflexivity. Qed.

(** C10.  A missing detection result, or one without its [anomalies]
    field, scores [0]; a present result with an empty list scores [0.1]. *)
Theorem anomaly_score_missing_or_empty :
  calculateAnomalyScore None = Fin 0 /\
  calculateAnomalyScore (Some {| reported := None |}) = Fin 0 /\
  calculateAnomalyScore (Some {| reported := Some [] |}) = Fin 0.1.
Proof. repeat split; reflexivity. Qed.

End Engine.

Section WeightAdjustment.

Import RecommendationEngine.

Variable config : Config.
Variables p s a f : Q.
Hypothesis base : weights config =
  {| priceForecasting := Fin p; sentiment := Fin s;
     anomalies := Fin a; fundamentals := Fin f |}.
Hypothesis p_pos : 0 < p.
Hypothesis s_pos : 0 < s.
Hypothesis a_pos : 0 < a.
Hypothesis f_pos : 0 < f.
Hypothesis sum_one : p + s + a + f == 1.

(** The sum of the weights after the low-risk adjustment. *)
Let total : Q := 0 + p * 0.8 + s + a * 1.5 + f * 1.3.

Lemma total_bounds : 0 < total /\ total < 1.5.
Proof. unfold total. split; lra. Qed.

Lemma low_risk_weights (sectors : gmap string num) :
  adjustWeightsByPreferences config
    {| riskTolerance := "low"; investmentHorizon := "medium";
       incomePreference := Fin 0.5; sectorPreferences := sectors |}
  = {| priceForecasting := Fin (p * 0.8 / total);
       sentiment := Fin (s / total);
       anomalies := Fin (a * 1.5 / total);
       fundamentals := Fin (f * 1.3 / total) |}.
Proof.
  destruct total_bounds as [Hpos _].
  assert (Qis0 total = false) as Hnz.
  { apply Qis0_false. intros E. rewrite E in Hpos. inversion Hpos. }
  unfold adjustWeightsByPreferences. rewrite base.
  change (adjustForRisk _ _)
    with {| priceForecasting := Fin (p * 0.8); sentiment := Fin s;
            anomalies := Fin (a * 1.5); fundamentals := Fin (f * 1.3) |}.
  change (adjustForHorizon _ ?w) with w.
  change (adjustForIncome _ ?w) with w.
  unfold normalizeWeights, weightValues.
  cbn [priceForecasting sentiment anomalies fundamentals fold_left Num.add].
  fold total. unfold Num.div. by rewrite Hnz.
Qed.

End WeightAdjustment.

(** C7.  For base weights that are positive and sum to 1, the weights
    adjusted for a low risk tolerance (medium horizon, income preference
    0.5) are finite, sum to 1, and give anomalies strictly more than the
    base weight. *)
Theorem low_risk_raises_anomaly_weight
    (config : RecommendationEngine.Config) (p s a f : Q)
    (sectors : gmap string num) :
  RecommendationEngine.weights config =
    {| RecommendationEngine.priceForecasting := Fin p;
       RecommendationEngine.sentiment := Fin s;
       RecommendationEngine.anomalies := Fin a;
       RecommendationEngine.fundamentals := Fin f |} ->
  0 < p -> 0 < s -> 0 < a -> 0 < f ->
  p + s + a + f == 1 ->
  exists p' s' a' f',
    RecommendationEngine.adjustWeightsByPreferences config
      {| RecommendationEngine.riskTolerance := "low";
         RecommendationEngine.investmentHorizon := "medium";
         RecommendationEngine.incomePreference := Fin 0.5;
         RecommendationEngine.sectorPreferences := sectors |}
    = {| RecommendationEngine.priceForecasting := Fin p';
         RecommendationEngine.sentiment := Fin s';
         RecommendationEngine.anomalies := Fin a';
         RecommendationEngine.fundamentals := Fin f' |} /\
    p' + s' + a' + f' == 1 /\
    a < a'.
Proof.
  intros Hbase Hp Hs Ha Hf Hsum.
  destruct (total_bounds p s a f Hp Hs Ha Hf Hsum) as [Hpos Hlt].
  do 4 eexists. split; [apply (low_risk_weights config p s a f); assumption|].
  split.
  - field. lra.
  - apply Qlt_shift_div_l; [exact Hpos|].
    apply Qmult_lt_l; assumption.
Qed.

Lemma low_risk_raises_anomaly_weight_witness :
  exists p' s' a' f',
    RecommendationEngine.adjustWeightsByPreferences
      RecommendationEngine.defaultConfig
      {| RecommendationEngine.riskTolerance := "low";
         RecommendationEngine.investmentHorizon := "medium";
         RecommendationEngine.incomePreference := Fin 0.5;
         RecommendationEngine.sectorPreferences := ∅ |}
    = {| RecommendationEngine.priceForecasting := Fin p';
         RecommendationEngine.sentiment := Fin s';
         RecommendationEngine.anomalies := Fin a';
         RecommendationEngine.fundamentals := Fin f' |} /\
    p' + s' + a' + f' == 1 /\
    0.2 < a'.
Proof.
  apply (low_risk_raises_anomaly_weight RecommendationEngine.defaultConfig
           0.4 0.3 0.2 0.1 ∅); reflexivity.
Defined.

(** With the default weights, anomalies go from 0.2 to 2/7. *)
Example low_risk_default_weights :
  Num.eqv
    (RecommendationEngine.anomalies
       (RecommendationEngine.adjustWeightsByPreferences
          RecommendationEngine.defaultConfig
          {| RecommendationEngine.riskTolerance := "low";
             RecommendationEngine.investmentHorizon := "medium";
             RecommendationEngine.incomePreference := Fin 0.5;
             RecommendationEngine.sectorPreferences := ∅ |}))
    (Fin (2 # 7)).
Proof. vm_compute. reflexivity. Qed.

(** ** The IQR method *)

Section IQR.

Import AnomalyDetector.

Variable config : Config.

Lemma iqr_indices (values : list num) :
  anomalyIndices (detectAnomaliesWithIQR config values) =
  (scoreEach (iqrScore (lowerBoundOf config values) (upperBoundOf config values))
             values).1.
Proof. unfold detectAnomaliesWithIQR. by destruct (scoreEach _ _). Qed.

Lemma iqr_scores (values : list num) :
  anomalyScores (detectAnomaliesWithIQR config values) =
  (scoreEach (iqrScore (lowerBoundOf config values) (upperBoundOf config values))
             values).2.
Proof. unfold detectAnomaliesWithIQR. by destruct (scoreEach _ _). Qed.

(** The score of a value inside finite bounds of non-zero width. *)
Lemma iqrScore_inside (l u v : Q) :
  l <= v <= u -> l < u ->
  iqrScore (Fin l) (Fin u) (Fin v) =
  (false, Fin (Qabs (v + - (l + (u + - l) / 2)) / (u + - l) * 0.5)).
Proof.
  intros [Hl Hu] Hlu. unfold iqrScore, Num.gtb. simpl.
  rewrite (proj2 (Qltb_false v l) Hl), (proj2 (Qltb_false u v) Hu). simpl.
  assert (Qis0 (u + - l) = false) as ->; [|reflexivity].
  apply Qis0_false. lra.
Qed.

Lemma inside_score_bounds (l u v : Q) :
  l <= v <= u -> l < u ->
  0 <= Qabs (v + - (l + (u + - l) / 2)) / (u + - l) * 0.5 <= 0.25.
Proof.
  intros [Hl Hu] Hlu.
  assert (0 < u + - l) as Hr by lra.
  assert ((u + - l) / 2 * 2 == u + - l) as Hh by field.
  set (h := (u + - l) / 2) in *.
  pose proof (Qabs_nonneg (v + - (l + h))) as Hn.
  assert (Qabs (v + - (l + h)) <= h) as Hd.
  { apply Qabs_Qle_condition. split; lra. }
  assert (0 <= Qabs (v + - (l + h)) / (u + - l)) as H0.
  { apply Qle_shift_div_l; [exact Hr | lra]. }
  assert (Qabs (v + - (l + h)) / (u + - l) <= 0.5) as H1.
  { apply Qle_shift_div_r; [exact Hr | lra]. }
  split; lra.
Qed.

Lemma inside_score_zero (l u v : Q) :
  l < u ->
  Qabs (v + - (l + (u + - l) / 2)) / (u + - l) * 0.5 == 0 <->
  v == l + (u + - l) / 2.
Proof.
  intros Hlu. assert (0 < u + - l) as Hr by lra.
  set (d := v + - (l + (u + - l) / 2)).
  assert (Qabs d == Qabs d / (u + - l) * 0.5 * (2 * (u + - l))) as E.
  { field. lra. }
  split.
  - intros Hz. rewrite Hz in E.
    assert (Qabs d <= 0) as Hle by lra.
    apply Qabs_Qle_condition in Hle. unfold d in Hle.
    set (h := (u + - l) / 2) in *. lra.
  - intros Hv. assert (d == 0) as -> by (unfold d; rewrite Hv; ring).
    change (Qabs 0) with 0. unfold Qdiv. ring.
Qed.

End IQR.

(** C8 (as amended).  A value inside finite IQR bounds of non-zero width
    is not flagged, and its score is half its distance from the centre of
    the bounds divided by their width: it lies between 0 and 0.5, and it is
    0 exactly when the value is at the centre. *)
Theorem iqr_inside_score (config : AnomalyDetector.Config)
    (values : list num) (i : nat) (l u v : Q) :
  AnomalyDetector.lowerBoundOf config values = Fin l ->
  AnomalyDetector.upperBoundOf config values = Fin u ->
  values !! i = Some (Fin v) ->
  l <= v <= u ->
  l < u ->
  (i ∉ AnomalyDetector.anomalyIndices
         (AnomalyDetector.detectAnomaliesWithIQR config values)) /\
  exists score,
    AnomalyDetector.anomalyScores
      (AnomalyDetector.detectAnomaliesWithIQR config values) !! i
    = Some (Fin score) /\
    score == Qabs (v - (l + (u - l) / 2)) / (u - l) * 0.5 /\
    0 <= score <= 0.5 /\
    (score == 0 <-> v == l + (u - l) / 2).
Proof.
  intros Hl Hu Hv Hin Hlu. split.
  - rewrite iqr_indices, scoreEach_indices, elem_of_flaggedFrom, Hl, Hu.
    intros [_ (x & Hx & Hflag)]. rewrite Nat.sub_0_r, Hv in Hx.
    injection Hx as <-. rewrite iqrScore_inside in Hflag by assumption.
    discriminate.
  - eexists. split.
    + rewrite iqr_scores, scoreEach_scores, Hv, Hl, Hu. simpl.
      rewrite iqrScore_inside by assumption. reflexivity.
    + split; [reflexivity|]. split.
      * pose proof (inside_score_bounds l u v Hin Hlu). lra.
      * apply inside_score_zero, Hlu.
Qed.

Lemma iqr_inside_score_witness :
  exists score,
    AnomalyDetector.anomalyScores
      (AnomalyDetector.detectAnomaliesWithIQR AnomalyDetector.defaultConfig
         [Fin 1; Fin 2; Fin 3; Fin 4; Fin 5]) !! 1%nat
    = Some (Fin score) /\
    0 <= score <= 0.5.
Proof.
  destruct (iqr_inside_score AnomalyDetector.defaultConfig
              [Fin 1; Fin 2; Fin 3; Fin 4; Fin 5] 1 _ _ 2
              eq_refl eq_refl eq_refl) as [_ (score & Hscore & _ & Hbounds & _)].
  - split; vm_compute; discriminate.
  - reflexivity.
  - exists score. split; [exact Hscore | exact Hbounds].
Defined.

(** C8 (as stated) fails: in the series 1, 2, 3, 4, 5 the bounds are -1 and
    7, the value 3 at index 2 lies inside them, at their centre, and its
    score is 0. *)
Lemma iqr_score_zero_at_centre :
  Num.eqv (AnomalyDetector.lowerBoundOf AnomalyDetector.defaultConfig
             [Fin 1; Fin 2; Fin 3; Fin 4; Fin 5]) (Fin (-1)) /\
  Num.eqv (AnomalyDetector.upperBoundOf AnomalyDetector.defaultConfig
             [Fin 1; Fin 2; Fin 3; Fin 4; Fin 5]) (Fin 7) /\
  ~ exists score,
      AnomalyDetector.anomalyScores
        (AnomalyDetector.detectAnomaliesWithIQR AnomalyDetector.defaultConfig
           [Fin 1; Fin 2; Fin 3; Fin 4; Fin 5]) !! 2%nat
      = Some (Fin score) /\
      0 < score.
Proof.
  split; [vm_compute; reflexivity|]. split; [vm_compute; reflexivity|].
  intros (score & Hscore & Hpos). vm_compute in Hscore.
  injection Hscore as <-. vm_compute in Hpos. discriminate.
Qed.

(** ** Scores outside the unit interval *)

(** C2 (the code departs from the claim).  On the constant series
    1, 1, 1, 1, 1 both statistical methods store [NaN] for every index: the
    Z-score method divides by a zero standard deviation, the IQR method by
    a zero width of its bounds.  No score of either map is in [0,1]. *)
Theorem constant_series_scores_not_in_unit (Msqrt : Q -> Q) (i : nat) :
  (forall q, q == 0 -> Msqrt q == 0) ->
  (i < 5)%nat ->
  exists zScore iqrScore,
    AnomalyDetector.anomalyScores
      (AnomalyDetector.detectAnomaliesWithZScore Msqrt
         AnomalyDetector.defaultConfig [Fin 1; Fin 1; Fin 1; Fin 1; Fin 1]) !! i
    = Some zScore /\
    AnomalyDetector.anomalyScores
      (AnomalyDetector.detectAnomaliesWithIQR
         AnomalyDetector.defaultConfig [Fin 1; Fin 1; Fin 1; Fin 1; Fin 1]) !! i
    = Some iqrScore /\
    ~ Num.in_unit zScore /\
    ~ Num.in_unit iqrScore.
Proof.
  intros Hsqrt Hi. exists NaN, NaN. split; [|split; [|split; intros []]].
  - apply (zscore_constant_scores Msqrt AnomalyDetector.defaultConfig Hsqrt 1).
    + discriminate.
    + repeat constructor; reflexivity.
    + exact Hi.
  - do 5 (destruct i as [|i]; [vm_compute; reflexivity|]). simpl in Hi. lia.
Qed.

Lemma constant_series_scores_not_in_unit_witness :
  exists zScore iqrScore,
    AnomalyDetector.anomalyScores
      (AnomalyDetector.detectAnomaliesWithZScore Approx.sqrt
         AnomalyDetector.defaultConfig [Fin 1; Fin 1; Fin 1; Fin 1; Fin 1]) !! 0%nat
    = Some zScore /\
    AnomalyDetector.anomalyScores
      (AnomalyDetector.detectAnomaliesWithIQR
         AnomalyDetector.defaultConfig [Fin 1; Fin 1; Fin 1; Fin 1; Fin 1]) !! 0%nat
    = Some iqrScore /\
    ~ Num.in_unit zScore /\
    ~ Num.in_unit iqrScore.
Proof.
  apply (constant_series_scores_not_in_unit Approx.sqrt 0 Approx_sqrt_zero). lia.
Defined.

(** The IQR method also leaves the interval without any division by zero,
    when a flagged value lies below a negative lower bound: in
    -10, 1, 2, 3, 4, 5 the bound is -3.5 and the score of -10 is -13/7. *)
Lemma iqr_negative_score :
  Num.eqv
    (Num.of_slot
       (AnomalyDetector.anomalyScores
          (AnomalyDetector.detectAnomaliesWithIQR AnomalyDetector.defaultConfig
             [Fin (-10); Fin 1; Fin 2; Fin 3; Fin 4; Fin 5]) !! 0%nat))
    (Fin (-13 # 7)).
Proof. vm_compute. reflexivity. Qed.

(** ** [detectDividendAnomalies] *)

Lemma Forall_sort_insert {A : Type} (P : A -> Prop) (cmp : A -> A -> num)
    (x : A) (l : list A) :
  P x -> Forall P l -> Forall P (sort_insert cmp x l).
Proof.
  intros Hx. induction 1 as [|y l Hy Hl IH]; cbn [sort_insert].
  - by repeat constructor.
  - destruct (Num.gtb (cmp x y) (Fin 0)); repeat constructor; assumption.
Qed.

Lemma Forall_sortBy {A : Type} (P : A -> Prop) (cmp : A -> A -> num) (l : list A) :
  Forall P l -> Forall P (sortBy cmp l).
Proof.
  induction 1 as [|x l Hx Hl IH]; cbn [sortBy foldr]; [constructor|].
  by apply Forall_sort_insert.
Qed.

Lemma length_sort_insert {A : Type} (cmp : A -> A -> num) (x : A) (l : list A) :
  length (sort_insert cmp x l) = S (length l).
Proof.
  induction l as [|y l IH]; cbn [sort_insert]; [done|].
  destruct (Num.gtb (cmp x y) (Fin 0)); cbn [length]; by rewrite ?IH.
Qed.

Lemma length_sortBy {A : Type} (cmp : A -> A -> num) (l : list A) :
  length (sortBy cmp l) = length l.
Proof.
  induction l as [|x l IH]; cbn [sortBy foldr]; [done|].
  rewrite length_sort_insert. cbn [length]. f_equal. exact IH.
Qed.

Lemma gtb_half_false (a : num) :
  Num.gtb a (Fin 0.5) = false -> Num.gtb a (Fin 0.8) = false.
Proof.
  destruct a as [q| | |]; simpl; try done.
  unfold Num.gtb. simpl. rewrite !Qltb_false. intros H. lra.
Qed.

Section Detection.

Import AnomalyDetector.

Variable Msqrt : Q -> Q.
Variable Mexp : Q -> Q.
Variable config : Config.
Variable storedModel : option Predictor.
Variable createAndTrainAutoencoder : list (list num) -> option Predictor.
Variable numberToString : num -> string.
Variable missingSeriesMessage : string.

Lemma toAnomaly_invariant (methods : list (string * MethodResult))
    (values : list num) (dates : list string) (index : nat) :
  recordInvariant values (toAnomaly methods values dates index).
Proof.
  unfold recordInvariant, toAnomaly, typeOf, severityOf.
  cbn [type severity a_value anomalyScore].
  repeat split.
  - destruct (Num.gtb (at_index values index) _); [done | discriminate].
  - by destruct (Num.gtb (at_index values index) _).
  - by destruct (Num.gtb (at_index values index) _).
  - by intros ->.
  - by intros -> ->.
  - intros H. by rewrite (gtb_half_false _ H), H.
Qed.

Lemma analyse_invariant (st : State) (dividendData : list Dividend) :
  Forall (recordInvariant (map value dividendData))
         (anomalies (analyse Msqrt Mexp config createAndTrainAutoencoder
                       st dividendData).1).
Proof.
  unfold analyse. destruct (runMethods _ _ _ _ _ _) as [methods st']. simpl.
  apply Forall_sortBy, Forall_map, Forall_true. intros index.
  apply toAnomaly_invariant.
Qed.

Lemma autoencoder_cache (st : State) (features : list (list num)) :
  cache (detectAnomaliesWithAutoencoder Msqrt config createAndTrainAutoencoder
           st features).2 = cache st.
Proof.
  unfold detectAnomaliesWithAutoencoder.
  destruct (match autoencoder st with Some m => Some m | None => _ end)
    as [predict|]; [destruct (predict features)|]; reflexivity.
Qed.

Lemma analyse_cache (st : State) (dividendData : list Dividend) :
  cache (analyse Msqrt Mexp config createAndTrainAutoencoder st dividendData).2
  = cache st.
Proof.
  unfold analyse, runMethods.
  destruct (useAutoencoder config); [|reflexivity].
  pose proof (autoencoder_cache st
                (if featureEngineering config then engineerFeatures dividendData
                 else map (fun value => [value]) (map value dividendData))) as H.
  destruct (detectAnomaliesWithAutoencoder _ _ _ _ _) as [result st']. exact H.
Qed.

Lemma initialize_cache (st : State) :
  cache (initialize config storedModel st) = cache st.
Proof. unfold initialize. by destruct (initialized st). Qed.

Lemma length_cacheKeyOf (dividendData : list Dividend) :
  length (cacheKeyOf numberToString dividendData) = length dividendData.
Proof. apply length_map. Qed.

Lemma cacheSound_new : cacheSound numberToString newState.
Proof. intros key entry H. simpl in H. by rewrite lookup_empty in H. Qed.

Lemma cachedResult_sound (now : Z) (st : State) (key : list string)
    (result : DetectionResult) :
  cacheSound numberToString st ->
  cachedResult config now st key = Some result ->
  useCache config = true /\
  exists series,
    (5 <= length series)%nat /\
    cacheKeyOf numberToString series = key /\
    Forall (recordInvariant (map value series)) (anomalies result).
Proof.
  intros Hsound. unfold cachedResult.
  destruct (useCache config); [|discriminate].
  destruct (cache st !! key) as [entry|] eqn:E; [|discriminate].
  destruct (isCacheValid _ _ _); [|discriminate].
  intros [= <-]. split; [reflexivity|]. by apply (Hsound key).
Qed.

End Detection.

Section DetectionResults.

Import AnomalyDetector.

Variable Msqrt : Q -> Q.
Variable Mexp : Q -> Q.
Variable config : Config.
Variable storedModel : option Predictor.
Variable createAndTrainAutoencoder : list (list num) -> option Predictor.
Variable numberToString : num -> string.
Variable missingSeriesMessage : string.
Variables now later : Z.

Let detect : State -> option (list Dividend) -> DetectionResult * State :=
  detectDividendAnomalies Msqrt Mexp config storedModel createAndTrainAutoencoder
    numberToString missingSeriesMessage now later.

Lemma cacheSound_initialize (st : State) :
  cacheSound numberToString st ->
  cacheSound numberToString (initialize config storedModel st).
Proof. unfold cacheSound. by rewrite initialize_cache. Qed.

(** The invariant of the cache is kept by every call. *)
Lemma detect_keeps_cacheSound (st : State) (dividendData : option (list Dividend)) :
  cacheSound numberToString st ->
  cacheSound numberToString (detect st dividendData).2.
Proof.
  intros Hsound%cacheSound_initialize.
  unfold detect, detectDividendAnomalies.
  destruct dividendData as [series|]; [|exact Hsound].
  destruct (cachedResult _ _ _ _); [exact Hsound|].
  destruct (Nat.ltb_spec (length series) 5) as [Hlt|Hge]; [exact Hsound|].
  pose proof (analyse_invariant Msqrt Mexp config createAndTrainAutoencoder
                (initialize config storedModel st) series) as Hinv.
  pose proof (analyse_cache Msqrt Mexp config createAndTrainAutoencoder
                (initialize config storedModel st) series) as Hcache.
  destruct (analyse _ _ _ _ _ _) as [result st']. simpl in Hinv, Hcache.
  assert (cacheSound numberToString st') as Hsound'.
  { unfold cacheSound. rewrite Hcache. exact Hsound. }
  destruct (useCache config); [|exact Hsound'].
  intros key entry. simpl.
  destruct (decide (cacheKeyOf numberToString series = key)) as [<-|Hne].
  - rewrite lookup_insert_eq. intros [= <-]. exists series. by repeat split.
  - rewrite lookup_insert_ne by done. apply Hsound'.
Qed.

Lemma detect_some_invariant (st : State) (dividendData : list Dividend) :
  cacheSound numberToString st ->
  exists series,
    cacheKeyOf numberToString series = cacheKeyOf numberToString dividendData /\
    (series = dividendData \/
     is_Some (cachedResult config now (initialize config storedModel st)
                (cacheKeyOf numberToString dividendData))) /\
    Forall (recordInvariant (map value series))
           (anomalies (detect st (Some dividendData)).1).
Proof.
  intros Hsound%cacheSound_initialize.
  unfold detect, detectDividendAnomalies.
  destruct (cachedResult _ _ _ _) as [result|] eqn:Hcached.
  - destruct (cachedResult_sound config numberToString now _ _ _ Hsound Hcached)
      as [_ (series & _ & Hkey & Hinv)].
    exists series. split; [exact Hkey|]. split; [right; by eexists | exact Hinv].
  - exists dividendData. split; [reflexivity|]. split; [by left|].
    destruct (length dividendData <? 5)%nat; [constructor|].
    pose proof (analyse_invariant Msqrt Mexp config createAndTrainAutoencoder
                  (initialize config storedModel st) dividendData) as Hinv.
    destruct (analyse _ _ _ _ _ _) as [result st'].
    by destruct (useCache config).
Qed.

Lemma detect_insufficient (st : State) (dividendData : option (list Dividend)) :
  cacheSound numberToString st ->
  (forall series, dividendData = Some series -> (length series < 5)%nat) ->
  exists message, (detect st dividendData).1 = degraded message.
Proof.
  intros Hsound%cacheSound_initialize Hshort.
  unfold detect, detectDividendAnomalies.
  destruct dividendData as [series|]; [|by eexists].
  specialize (Hshort series eq_refl).
  destruct (cachedResult _ _ _ _) as [result|] eqn:Hcached.
  - destruct (cachedResult_sound config numberToString now _ _ _ Hsound Hcached)
      as [_ (series' & Hlen & Hkey & _)].
    apply (f_equal length) in Hkey. rewrite !length_cacheKeyOf in Hkey. lia.
  - destruct (Nat.ltb_spec (length series) 5) as [_|Hge]; [by eexists | lia].
Qed.

End DetectionResults.



(** That run evaluated, with no stored model and a training that fails
    (so the autoencoder falls back on the Z-score): August is the one
    anomaly, above the mean, of medium severity. *)
Example sample_run :
  map (fun a => (AnomalyDetector.a_date a, AnomalyDetector.a_value a,
                 AnomalyDetector.type a, AnomalyDetector.severity a,
                 AnomalyDetector.detectedBy a))
      (AnomalyDetector.anomalies
         (AnomalyDetector.detectDividendAnomalies Approx.sqrt Approx.exp
            AnomalyDetector.defaultConfig None (fun _ => None)
            Approx.showNum "TypeError" 0 1 AnomalyDetector.newState
            (Some sampleDividends)).1)
  = [(Some "2024-08", Fin 30, "high_value", "medium",
      ["zScore"; "iqr"; "autoencoder"])].
Proof. vm_compute. reflexivity. Qed.

(** C9.  With fewer than five records, or with no series at all, the call
    returns the degraded result: no anomalies, count 0 and percentage 0, no
    methods (and the message of the exception when the series is
    missing). *)
Theorem insufficient_data_degraded
    (Msqrt Mexp : Q -> Q) (config : AnomalyDetector.Config)
    (storedModel : option AnomalyDetector.Predictor)
    (createAndTrainAutoencoder : list (list num) -> option AnomalyDetector.Predictor)
    (numberToString : num -> string) (missingSeriesMessage : string)
    (now later : Z) (st : AnomalyDetector.State)
    (dividendData : option (list AnomalyDetector.Dividend)) :
  cacheSound numberToString st ->
  (forall series, dividendData = Some series -> (length series < 5)%nat) ->
  exists message,
    (AnomalyDetector.detectDividendAnomalies Msqrt Mexp config storedModel
       createAndTrainAutoencoder numberToString missingSeriesMessage
       now later st dividendData).1
    = {| AnomalyDetector.anomalies := [];
         AnomalyDetector.stats :=
           {| AnomalyDetector.count := 0; AnomalyDetector.percentage := Fin 0 |};
         AnomalyDetector.methods := [];
         AnomalyDetector.error := message |}.
Proof. apply detect_insufficient. Qed.

Lemma insufficient_data_degraded_witness :
  exists message,
    (AnomalyDetector.detectDividendAnomalies Approx.sqrt Approx.exp
       AnomalyDetector.defaultConfig None (fun _ => None) Approx.showNum
       "TypeError" 0 1 AnomalyDetector.newState (Some shortDividends)).1
    = {| AnomalyDetector.anomalies := [];
         AnomalyDetector.stats :=
           {| AnomalyDetector.count := 0; AnomalyDetector.percentage := Fin 0 |};
         AnomalyDetector.methods := [];
         AnomalyDetector.error := message |}.
Proof.
  apply (insufficient_data_degraded Approx.sqrt Approx.exp
           AnomalyDetector.defaultConfig None (fun _ => None) Approx.showNum
           "TypeError" 0 1 AnomalyDetector.newState (Some shortDividends)).
  - apply cacheSound_new.
  - intros series [= <-]. simpl. lia.
Defined.

(** The two degraded results: a missing series carries the message of the
    exception, a short one does not. *)
Example degraded_runs :
  (AnomalyDetector.detectDividendAnomalies Approx.sqrt Approx.exp
     AnomalyDetector.defaultConfig None (fun _ => None) Approx.showNum
     "TypeError" 0 1 AnomalyDetector.newState None).1
  = AnomalyDetector.degraded (Some "TypeError") /\
  (AnomalyDetector.detectDividendAnomalies Approx.sqrt Approx.exp
     AnomalyDetector.defaultConfig None (fun _ => None) Approx.showNum
     "TypeError" 0 1 AnomalyDetector.newState (Some shortDividends)).1
  = AnomalyDetector.degraded None.
Proof. split; reflexivity. Qed.

(** ** Where the scores of the statistical methods do lie in [0,1] *)

Lemma min_one_in_unit (x : Q) : 0 <= x -> Num.in_unit (Num.min (Fin x) (Fin 1)).
Proof.
  intros Hx. simpl. destruct (Qltb 1 x) eqn:E; simpl.
  - split; lra.
  - apply Qltb_false in E. split; assumption.
Qed.

Lemma fold_add_finite (values : list num) :
  Forall (fun v => exists q, v = Fin q) values ->
  forall a, exists s, fold_left Num.add values (Fin a) = Fin s.
Proof.
  induction 1 as [|v values [q ->] _ IH]; intros a; simpl; [by eexists|].
  apply IH.
Qed.

Lemma mean_finite (values : list num) :
  Forall (fun v => exists q, v = Fin q) values ->
  exists m, AnomalyDetector.calculateMean values = Fin m.
Proof.
  intros Hfin. unfold AnomalyDetector.calculateMean, AnomalyDetector.sum.
  destruct (Nat.eqb_spec (length values) 0) as [_|Hne]; [by eexists|].
  destruct (fold_add_finite values Hfin 0) as [s ->].
  unfold Num.of_nat, Num.div.
  destruct (Qis0 _) eqn:E; [|by eexists].
  apply Qis0_true in E. pose proof (inject_nat_pos (length values)) as Hpos.
  rewrite E in Hpos. exfalso. apply (Qlt_irrefl 0), Hpos. lia.
Qed.

(** Away from a zero standard deviation, the Z-score method keeps its
    scores in the unit interval. *)
Lemma zscore_scores_in_unit (Msqrt : Q -> Q) (config : AnomalyDetector.Config)
    (values : list num) (t sd : Q) (i : nat) (score : num) :
  Forall (fun v => exists q, v = Fin q) values ->
  AnomalyDetector.zScoreThreshold config = Fin t ->
  0 < t ->
  AnomalyDetector.calculateStdDev Msqrt values
    (Some (AnomalyDetector.calculateMean values)) = Fin sd ->
  ~ sd == 0 ->
  AnomalyDetector.anomalyScores
    (AnomalyDetector.detectAnomaliesWithZScore Msqrt config values) !! i
  = Some score ->
  Num.in_unit score.
Proof.
  intros Hfin Ht Htpos Hsd Hnz.
  rewrite zscore_scores, scoreEach_scores, list_lookup_fmap, Hsd, Ht.
  destruct (mean_finite values Hfin) as [m ->].
  destruct (values !! i) as [v|] eqn:Hv; [|discriminate].
  destruct (proj1 (list.Forall_forall _ _) Hfin v) as [q ->].
  { eapply list_elem_of_lookup_2, Hv. }
  cbn [fmap option_fmap option_map snd Num.sub Num.neg Num.add Num.div Num.mul
       Num.abs].
  rewrite (proj2 (Qis0_false sd) Hnz). cbn [Num.abs Num.div].
  assert (Qis0 (t * 2) = false) as ->.
  { apply Qis0_false. lra. }
  intros Hscore. apply (inj Some) in Hscore. subst score.
  apply min_one_in_unit.
  pose proof (Qabs_nonneg ((q + - m) / sd)) as Hn. revert Hn.
  generalize (Qabs ((q + - m) / sd)). intros z Hn.
  apply Qle_shift_div_l; lra.
Qed.

(** With a positive lower bound below the upper bound, so does the IQR
    method. *)
Lemma iqr_scores_in_unit (config : AnomalyDetector.Config)
    (values : list num) (l u : Q) (i : nat) (score : num) :
  Forall (fun v => exists q, v = Fin q) values ->
  AnomalyDetector.lowerBoundOf config values = Fin l ->
  AnomalyDetector.upperBoundOf config values = Fin u ->
  0 < l ->
  l < u ->
  AnomalyDetector.anomalyScores
    (AnomalyDetector.detectAnomaliesWithIQR config values) !! i
  = Some score ->
  Num.in_unit score.
Proof.
  intros Hfin Hl Hu Hlpos Hlu.
  rewrite iqr_scores, scoreEach_scores, Hl, Hu.
  destruct (values !! i) as [v|] eqn:Hv; [|discriminate].
  destruct (proj1 (list.Forall_forall _ _) Hfin v) as [q ->].
  { eapply list_elem_of_lookup_2, Hv. }
  cbn [fmap option_fmap option_map].
  intros Hscore. apply (inj Some) in Hscore. subst score.
  assert (Qis0 l = false) as Hl0 by (apply Qis0_false; lra).
  assert (Qis0 u = false) as Hu0 by (apply Qis0_false; lra).
  destruct (Qltb q l) eqn:Hql.
  - apply Qltb_true in Hql.
    unfold AnomalyDetector.iqrScore, Num.or_num, Num.gtb.
    cbn [Num.ltb Num.truthy Num.sub Num.neg Num.add Num.div].
    rewrite (proj2 (Qltb_true q l) Hql), Hl0. cbn [orb negb snd Num.div].
    rewrite Hl0. apply min_one_in_unit.
    apply Qle_shift_div_l; lra.
  - apply Qltb_false in Hql. destruct (Qltb u q) eqn:Huq.
    + apply Qltb_true in Huq.
      unfold AnomalyDetector.iqrScore, Num.or_num, Num.gtb.
      cbn [Num.ltb Num.truthy Num.sub Num.neg Num.add Num.div].
      rewrite (proj2 (Qltb_false q l) Hql), (proj2 (Qltb_true u q) Huq), Hu0.
      cbn [orb negb snd Num.div]. rewrite Hu0. apply min_one_in_unit.
      apply Qle_shift_div_l; lra.
    + apply Qltb_false in Huq.
      rewrite iqrScore_inside by (try split; assumption).
      cbn [snd Num.in_unit].
      pose proof (inside_score_bounds l u q (conj Hql Huq) Hlu) as Hb.
      revert Hb. generalize (Qabs (q + - (l + (u + - l) / 2)) / (u + - l) * 0.5).
      intros e Hb. lra.
Qed.

(** ** The invariant of the records, relative to the series passed in *)

Section InputSeries.

Import AnomalyDetector.

Variable Msqrt : Q -> Q.
Variable Mexp : Q -> Q.
Variable config : Config.
Variable storedModel : option Predictor.
Variable createAndTrainAutoencoder : list (list num) -> option Predictor.
Variable numberToString : num -> string.
Variable missingSeriesMessage : string.
Variables now later : Z.
Variable st : State.
Variable dividendData : list Dividend.

Hypothesis sound : cacheSound numberToString st.

(** Without the cache the series is the one passed in. *)
Lemma records_invariant_without_cache :
  useCache config = false ->
  Forall (recordInvariant (map value dividendData))
         (anomalies
            (detectDividendAnomalies Msqrt Mexp config storedModel
               createAndTrainAutoencoder numberToString missingSeriesMessage
               now later st (Some dividendData)).1).
Proof.
  intros Hoff.
  destruct (detect_some_invariant Msqrt Mexp config storedModel
              createAndTrainAutoencoder numberToString missingSeriesMessage
              now later st dividendData sound)
    as (series & _ & [-> | [result Hcached]] & Hinv); [exact Hinv|].
  unfold cachedResult in Hcached. rewrite Hoff in Hcached. discriminate.
Qed.

(** So it is when a cache key determines the values of its series, as it
    does for dates of a fixed width and a printer of numbers that does not
    confuse two values. *)
Lemma records_invariant_with_faithful_keys :
  (forall series1 series2,
      cacheKeyOf numberToString series1 = cacheKeyOf numberToString series2 ->
      map value series1 = map value series2) ->
  Forall (recordInvariant (map value dividendData))
         (anomalies
            (detectDividendAnomalies Msqrt Mexp config storedModel
               createAndTrainAutoencoder numberToString missingSeriesMessage
               now later st (Some dividendData)).1).
Proof.
  intros Hkeys.
  destruct (detect_some_invariant Msqrt Mexp config storedModel
              createAndTrainAutoencoder numberToString missingSeriesMessage
              now later st dividendData sound)
    as (series & Hkey & _ & Hinv).
  by rewrite <- (Hkeys series dividendData Hkey).
Qed.

End InputSeries.

(** * Further properties of the code *)

(** ** Flags and scores of the statistical methods *)

Lemma sgn_pos (q : Q) : 0 < q -> Num.sgn q = 1%Z.
Proof.
  unfold Num.sgn, Qlt. destruct q as [n d]. simpl. intros H.
  destruct n; first [reflexivity | lia].
Qed.

Lemma flaggedFrom_range {A : Type} (f : A -> bool * num) (xs : list A) (k i : nat) :
  i ∈ flaggedFrom f k xs -> (k <= i < k + length xs)%nat.
Proof.
  intros [Hle (x & Hx & _)]%elem_of_flaggedFrom.
  apply lookup_lt_Some in Hx. lia.
Qed.

Lemma flaggedFrom_sorted {A : Type} (f : A -> bool * num) (xs : list A) : forall k,
  StronglySorted lt (flaggedFrom f k xs).
Proof.
  induction xs as [|x xs IH]; intros k; simpl; [constructor|].
  destruct (f x).1; simpl; [|apply IH].
  constructor; [apply IH|].
  apply list.Forall_forall. intros i Hi%flaggedFrom_range. lia.
Qed.

Lemma scoreEach_dom {A : Type} (f : A -> bool * num) (xs : list A) (i : nat) :
  is_Some ((scoreEach f xs).2 !! i) <-> (i < length xs)%nat.
Proof.
  rewrite scoreEach_scores, <- lookup_lt_is_Some.
  destruct (xs !! i); simpl; split; intros [? ?]; eauto; discriminate.
Qed.

Section StatisticalMethods.

Import AnomalyDetector.

Variable Msqrt : Q -> Q.
Variable config : Config.
Variable values : list num.

(** X1.  Both statistical methods give a score to exactly the indices of the
    series, and flag an increasing list of them. *)
Theorem statistical_methods_cover_the_series (i : nat) :
  (is_Some (anomalyScores (detectAnomaliesWithZScore Msqrt config values) !! i)
   <-> (i < length values)%nat) /\
  (is_Some (anomalyScores (detectAnomaliesWithIQR config values) !! i)
   <-> (i < length values)%nat) /\
  StronglySorted lt (anomalyIndices (detectAnomaliesWithZScore Msqrt config values)) /\
  StronglySorted lt (anomalyIndices (detectAnomaliesWithIQR config values)) /\
  Forall (fun j => (j < length values)%nat)
         (anomalyIndices (detectAnomaliesWithZScore Msqrt config values)) /\
  Forall (fun j => (j < length values)%nat)
         (anomalyIndices (detectAnomaliesWithIQR config values)).
Proof.
  rewrite zscore_scores, iqr_scores, zscore_indices, iqr_indices.
  rewrite !scoreEach_dom, !scoreEach_indices, length_map.
  repeat split; try tauto; try apply flaggedFrom_sorted.
  - apply list.Forall_forall. intros j Hj%flaggedFrom_range.
    rewrite length_map in Hj. lia.
  - apply list.Forall_forall. intros j Hj%flaggedFrom_range. lia.
Qed.

(** The normalised score against one half. *)
Lemma normalised_above_half (t : Q) (z : num) :
  0 < t ->
  Num.gtb z (Fin t) = true <->
  exists s, Num.min (z / (Fin t * Fin 2)) (Fin 1) = Fin s /\ 1 # 2 < s.
Proof.
  intros Ht.
  assert (Qis0 (t * 2) = false) as Hnz by (apply Qis0_false; lra).
  destruct z as [q| | |]; unfold Num.gtb; cbn [Num.ltb Num.mul Num.div].
  - rewrite Hnz. cbn [Num.min Num.ltb]. rewrite Qltb_true. split.
    + intros Hq. assert (1 # 2 < q / (t * 2)) as Hs.
      { apply Qlt_shift_div_l; lra. }
      destruct (Qltb 1 (q / (t * 2))) eqn:E.
      * exists 1. split; reflexivity.
      * exists (q / (t * 2)). split; [reflexivity | exact Hs].
    + intros (s & Hs & Hhalf).
      assert (1 # 2 < q / (t * 2)) as Hq.
      { destruct (Qltb 1 (q / (t * 2))) eqn:E.
        - apply Qltb_true in E. lra.
        - injection Hs as <-. exact Hhalf. }
      assert (q == q / (t * 2) * (t * 2)) as E by (field; lra).
      rewrite E. nra.
  - cbn [Num.sgn_num]. rewrite Hnz, sgn_pos by lra. cbn.
    split; [intros _; exists 1; split; reflexivity | reflexivity].
  - cbn [Num.sgn_num]. rewrite Hnz, sgn_pos by lra. cbn.
    split; [discriminate | intros (s & Hs & _); discriminate].
  - cbn. split; [discriminate | intros (s & Hs & _); discriminate].
Qed.

(** X2.  With a positive threshold, the Z-score method flags an index exactly
    when its normalised score exceeds one half. *)
Theorem zscore_flag_iff_score_above_half (t : Q) (i : nat) :
  zScoreThreshold config = Fin t ->
  0 < t ->
  i ∈ anomalyIndices (detectAnomaliesWithZScore Msqrt config values) <->
  exists s,
    anomalyScores (detectAnomaliesWithZScore Msqrt config values) !! i = Some (Fin s)
    /\ 1 # 2 < s.
Proof.
  intros Ht Hpos.
  rewrite zscore_indices, zscore_scores, scoreEach_indices, scoreEach_scores.
  rewrite elem_of_flaggedFrom, Nat.sub_0_r, Ht. cbn [fst snd].
  split.
  - intros [_ (z & -> & Hz)].
    apply (normalised_above_half t z Hpos) in Hz as (s & Hs & Hhalf).
    exists s. split; [|exact Hhalf]. rewrite <- Hs. reflexivity.
  - intros (s & Hs & Hhalf). split; [lia|].
    destruct (_ !! i) as [z|]; [|discriminate]. exists z. split; [done|].
    apply (normalised_above_half t z Hpos). exists s. split; [|done].
    apply (inj Some) in Hs. exact Hs.
Qed.

End StatisticalMethods.

(** ** Sorting *)

Lemma sort_insert_perm {A : Type} (cmp : A -> A -> num) (x : A) (l : list A) :
  sort_insert cmp x l ≡ₚ x :: l.
Proof.
  induction l as [|y l IH]; cbn [sort_insert]; [done|].
  destruct (Num.gtb (cmp x y) (Fin 0)); [|done].
  rewrite IH. apply Permutation_swap.
Qed.

Lemma sortBy_cons {A : Type} (cmp : A -> A -> num) (x : A) (l : list A) :
  sortBy cmp (x :: l) = sort_insert cmp x (sortBy cmp l).
Proof. reflexivity. Qed.

Lemma sortBy_perm {A : Type} (cmp : A -> A -> num) (l : list A) :
  sortBy cmp l ≡ₚ l.
Proof.
  induction l as [|x l IH]; [done|].
  rewrite sortBy_cons, sort_insert_perm. by constructor.
Qed.

Section SortedByKey.

Context {A : Type} (cmp : A -> A -> num) (key : A -> Q).

Lemma sort_insert_sorted (x : A) (l : list A) :
  (forall y, y ∈ l -> Num.gtb (cmp x y) (Fin 0) = Qltb (key y) (key x)) ->
  StronglySorted (fun a b => key a <= key b) l ->
  StronglySorted (fun a b => key a <= key b) (sort_insert cmp x l).
Proof.
  intros Hcmp Hsorted. induction Hsorted as [|y l Hl IH Hy]; cbn [sort_insert].
  - repeat constructor.
  - rewrite (Hcmp y) by apply list_elem_of_here.
    destruct (Qltb (key y) (key x)) eqn:E.
    + apply Qltb_true in E. constructor.
      * apply IH. intros z Hz. apply Hcmp. by apply list_elem_of_further.
      * rewrite sort_insert_perm. constructor; [lra | exact Hy].
    + apply Qltb_false in E. constructor; [by constructor|].
      constructor; [exact E|].
      eapply Forall_impl; [exact Hy|]. intros z Hz. simpl in Hz. lra.
Qed.

Lemma sortBy_sorted (l : list A) :
  (forall x y, x ∈ l -> y ∈ l ->
     Num.gtb (cmp x y) (Fin 0) = Qltb (key y) (key x)) ->
  StronglySorted (fun a b => key a <= key b) (sortBy cmp l).
Proof.
  induction l as [|x l IH]; intros Hcmp; [constructor|].
  rewrite sortBy_cons. apply sort_insert_sorted.
  - intros y Hy. rewrite sortBy_perm in Hy.
    apply Hcmp; [apply list_elem_of_here | by apply list_elem_of_further].
  - apply IH. intros y z Hy Hz. apply Hcmp; by apply list_elem_of_further.
Qed.

End SortedByKey.

Lemma StronglySorted_lookup_le {A : Type} (R : A -> A -> Prop) (l : list A) :
  StronglySorted R l ->
  forall i j x y, (i < j)%nat -> l !! i = Some x -> l !! j = Some y -> R x y.
Proof.
  induction 1 as [|z l Hl IH Hz]; intros i j x y Hij Hx Hy; [done|].
  destruct j as [|j]; [lia|]. destruct i as [|i]; simpl in Hx, Hy.
  - injection Hx as <-. eapply (proj1 (list.Forall_forall _ _) Hz).
    eapply list_elem_of_lookup_2, Hy.
  - apply (IH i j); [lia | done | done].
Qed.

Lemma Qltb_sub (a b : Q) : Qltb 0 (a + - b) = Qltb b a.
Proof.
  destruct (Qltb b a) eqn:E.
  - apply Qltb_true in E. apply Qltb_true. lra.
  - apply Qltb_false in E. apply Qltb_false. lra.
Qed.

(** The ascending sort of a finite series. *)
Lemma sortBy_sub_sorted (values : list num) :
  Forall finite values ->
  StronglySorted (fun a b => valueOf a <= valueOf b) (sortBy Num.sub values) /\
  Forall finite (sortBy Num.sub values) /\
  length (sortBy Num.sub values) = length values.
Proof.
  intros Hfin. split; [|split].
  - apply sortBy_sorted. intros x y Hx Hy.
    destruct (proj1 (list.Forall_forall _ _) Hfin x Hx) as [a ->].
    destruct (proj1 (list.Forall_forall _ _) Hfin y Hy) as [b ->].
    unfold Num.gtb. simpl. apply Qltb_sub.
  - by rewrite sortBy_perm.
  - apply length_sortBy.
Qed.

(** ** The quartiles and the bounds of the IQR method *)

Lemma floor_scaled_quartiles (n : nat) :
  (0 < n)%nat ->
  (floor_scaled n 0.25 <= floor_scaled n 0.75 < n)%nat.
Proof.
  intros Hn. unfold floor_scaled.
  pose proof (inject_nat_pos n Hn) as Hpos.
  assert (0 <= Qfloor (inject_Z (Z.of_nat n) * 0.25))%Z as H0.
  { change 0%Z with (Qfloor 0). apply Qfloor_resp_le. lra. }
  assert (Qfloor (inject_Z (Z.of_nat n) * 0.25)
          <= Qfloor (inject_Z (Z.of_nat n) * 0.75))%Z as H1.
  { apply Qfloor_resp_le. lra. }
  assert (Qfloor (inject_Z (Z.of_nat n) * 0.75) < Z.of_nat n)%Z as H2.
  { pose proof (Qfloor_le (inject_Z (Z.of_nat n) * 0.75)) as Hf.
    rewrite Zlt_Qlt. lra. }
  lia.
Qed.

Section IQRBounds.

Import AnomalyDetector.

Variable config : Config.
Variable values : list num.
Hypothesis values_nonempty : values <> [].
Hypothesis values_finite : Forall finite values.

Lemma quartiles_ordered :
  exists a b, q1Of values = Fin a /\ q3Of values = Fin b /\ a <= b.
Proof.
  destruct (sortBy_sub_sorted values values_finite) as (Hsorted & Hfin & Hlen).
  unfold q1Of, q3Of, at_index.
  assert (0 < length (sortBy Num.sub values))%nat as Hn.
  { rewrite Hlen. destruct values; [done | simpl; lia]. }
  destruct (floor_scaled_quartiles _ Hn) as [H13 H3].
  destruct (lookup_lt_is_Some_2 (sortBy Num.sub values)
              (floor_scaled (length (sortBy Num.sub values)) 0.25)) as [x Hx];
    [lia|].
  destruct (lookup_lt_is_Some_2 (sortBy Num.sub values)
              (floor_scaled (length (sortBy Num.sub values)) 0.75)) as [y Hy];
    [lia|].
  rewrite Hx, Hy. cbn [Num.of_slot default].
  destruct (list.Forall_lookup_1 _ _ _ _ Hfin Hx) as [a ->].
  destruct (list.Forall_lookup_1 _ _ _ _ Hfin Hy) as [b ->].
  exists a, b. split; [done|]. split; [done|].
  destruct (decide (floor_scaled (length (sortBy Num.sub values)) 0.25
                    = floor_scaled (length (sortBy Num.sub values)) 0.75)) as [E|E].
  - rewrite E in Hx. assert (a = b) as -> by congruence. apply Qle_refl.
  - assert (floor_scaled (length (sortBy Num.sub values)) 0.25
            < floor_scaled (length (sortBy Num.sub values)) 0.75)%nat as Hlt by lia.
    exact (StronglySorted_lookup_le _ _ Hsorted _ _ (Fin a) (Fin b) Hlt Hx Hy).
Qed.

(** X3.  For a non-empty series of finite values and a multiplier that is
    not negative, the bounds enclose the quartiles:
    [lowerBound <= Q1 <= Q3 <= upperBound]. *)
Theorem iqr_bounds_enclose_quartiles (k : Q) :
  iqrMultiplier config = Fin k ->
  0 <= k ->
  exists l a b u,
    lowerBoundOf config values = Fin l /\
    q1Of values = Fin a /\
    q3Of values = Fin b /\
    upperBoundOf config values = Fin u /\
    l <= a /\ a <= b /\ b <= u.
Proof.
  intros Hk Hpos. destruct quartiles_ordered as (a & b & Ha & Hb & Hab).
  unfold lowerBoundOf, upperBoundOf. rewrite Ha, Hb, Hk.
  do 4 eexists. repeat split; try reflexivity; try assumption; simpl; nra.
Qed.

End IQRBounds.

Lemma iqr_bounds_enclose_quartiles_witness :
  exists l a b u,
    AnomalyDetector.lowerBoundOf AnomalyDetector.defaultConfig
      [Fin 1; Fin 2; Fin 3; Fin 4; Fin 5] = Fin l /\
    AnomalyDetector.q1Of [Fin 1; Fin 2; Fin 3; Fin 4; Fin 5] = Fin a /\
    AnomalyDetector.q3Of [Fin 1; Fin 2; Fin 3; Fin 4; Fin 5] = Fin b /\
    AnomalyDetector.upperBoundOf AnomalyDetector.defaultConfig
      [Fin 1; Fin 2; Fin 3; Fin 4; Fin 5] = Fin u /\
    l <= a /\ a <= b /\ b <= u.
Proof.
  apply (iqr_bounds_enclose_quartiles AnomalyDetector.defaultConfig
           [Fin 1; Fin 2; Fin 3; Fin 4; Fin 5]) with (k := 1.5).
  - discriminate.
  - repeat constructor; by eexists.
  - reflexivity.
  - discriminate.
Defined.

(** ** Transposition *)

Section Transpose.

Import AnomalyDetector.

Lemma transposeMatrix_lookup (c : nat) (matrix : list (list num)) (j : nat) :
  matrix <> [] ->
  rectangular c matrix ->
  transposeMatrix matrix !! j =
    if decide (j < c)%nat
    then Some (map (fun row => at_index row j) matrix)
    else None.
Proof.
  intros Hne Hrect. destruct matrix as [|row0 rest]; [done|].
  assert (length row0 = c) as Hlen by (by inversion Hrect).
  unfold transposeMatrix. rewrite list_lookup_imap.
  destruct (decide (j < c)%nat) as [Hj|Hj].
  - destruct (lookup_lt_is_Some_2 row0 j) as [x ->]; [lia | done].
  - rewrite lookup_ge_None_2 by lia. done.
Qed.

Lemma length_transposeMatrix (c : nat) (matrix : list (list num)) :
  matrix <> [] -> rectangular c matrix -> length (transposeMatrix matrix) = c.
Proof.
  intros Hne Hrect. destruct matrix as [|row0 rest]; [done|].
  unfold transposeMatrix. rewrite length_imap. by inversion Hrect.
Qed.

Lemma transposeMatrix_rows (matrix : list (list num)) :
  rectangular (length matrix) (transposeMatrix matrix).
Proof.
  destruct matrix as [|row0 rest]; [constructor|].
  apply Forall_lookup_2. intros j col. unfold transposeMatrix.
  rewrite list_lookup_imap. destruct (row0 !! j); [|done].
  intros Hcol. apply (inj Some) in Hcol. subst col. apply length_map.
Qed.

Lemma rectangular_entry (c : nat) (matrix : list (list num)) (i j : nat)
    (row : list num) :
  rectangular c matrix -> matrix !! i = Some row -> (j < c)%nat ->
  exists x, row !! j = Some x /\ at_index row j = x.
Proof.
  intros Hrect Hrow Hj.
  pose proof (Forall_lookup_1 _ _ _ _ Hrect Hrow) as Hlen. simpl in Hlen.
  destruct (lookup_lt_is_Some_2 row j) as [x Hx]; [lia|].
  exists x. split; [done|]. unfold at_index. by rewrite Hx.
Qed.

(** The entry [(j, i)] of the transpose is the entry [(i, j)]. *)
Lemma transposeMatrix_entry (c : nat) (matrix : list (list num)) (i j : nat) :
  matrix <> [] ->
  rectangular c matrix ->
  transposeMatrix matrix !! j ≫= (fun col => col !! i)
  = matrix !! i ≫= (fun row => row !! j).
Proof.
  intros Hne Hrect. rewrite (transposeMatrix_lookup c) by done.
  destruct (decide (j < c)%nat) as [Hj|Hj]; simpl.
  - rewrite list_lookup_fmap. destruct (matrix !! i) as [row|] eqn:Hrow; [|done].
    simpl. destruct (rectangular_entry c matrix i j row Hrect Hrow Hj)
      as (x & Hx & Hat). by rewrite Hx, Hat.
  - destruct (matrix !! i) as [row|] eqn:Hrow; [|done]. simpl.
    pose proof (Forall_lookup_1 _ _ _ _ Hrect Hrow) as Hlen. simpl in Hlen.
    symmetry. apply lookup_ge_None_2. lia.
Qed.

Lemma transposeMatrix_nonempty (c : nat) (matrix : list (list num)) :
  matrix <> [] -> rectangular c matrix -> (0 < c)%nat ->
  transposeMatrix matrix <> [].
Proof.
  intros Hne Hrect Hc E. apply (f_equal length) in E.
  rewrite (length_transposeMatrix c) in E by done. simpl in E. lia.
Qed.

(** X4.  The transpose of a non-empty matrix with [c > 0] columns has [c]
    rows as long as the matrix, entry [(j, i)] of it is entry [(i, j)] of
    the matrix, and transposing twice gives the matrix back. *)
Theorem transposeMatrix_involutive (c : nat) (matrix : list (list num)) :
  matrix <> [] ->
  rectangular c matrix ->
  (0 < c)%nat ->
  length (transposeMatrix matrix) = c /\
  rectangular (length matrix) (transposeMatrix matrix) /\
  (forall i j,
      transposeMatrix matrix !! j ≫= (fun col => col !! i)
      = matrix !! i ≫= (fun row => row !! j)) /\
  transposeMatrix (transposeMatrix matrix) = matrix.
Proof.
  intros Hne Hrect Hc.
  pose proof (transposeMatrix_nonempty c matrix Hne Hrect Hc) as Hne'.
  pose proof (transposeMatrix_rows matrix) as Hrect'.
  split; [by apply length_transposeMatrix|]. split; [done|].
  split; [intros i j; by apply (transposeMatrix_entry c)|].
  apply list_eq. intros i.
  rewrite (transposeMatrix_lookup (length matrix)) by done.
  destruct (decide (i < length matrix)%nat) as [Hi|Hi].
  - destruct (lookup_lt_is_Some_2 matrix i Hi) as [row Hrow]. rewrite Hrow.
    f_equal. apply list_eq. intros j. rewrite list_lookup_fmap.
    pose proof (transposeMatrix_entry c matrix i j Hne Hrect) as Hentry.
    rewrite Hrow in Hentry. simpl in Hentry. rewrite <- Hentry.
    destruct (transposeMatrix matrix !! j) as [col|] eqn:Hcol; [|done]. simpl.
    destruct (rectangular_entry (length matrix) _ j i col Hrect' Hcol Hi)
      as (x & Hx & Hat). by rewrite Hx, Hat.
  - symmetry. apply lookup_ge_None_2. lia.
Qed.

End Transpose.

Lemma transposeMatrix_involutive_witness :
  AnomalyDetector.transposeMatrix
    (AnomalyDetector.transposeMatrix
       [[Fin 1; Fin 2; Fin 3]; [Fin 4; Fin 5; Fin 6]])
  = [[Fin 1; Fin 2; Fin 3]; [Fin 4; Fin 5; Fin 6]].
Proof.
  apply (transposeMatrix_involutive 3
           [[Fin 1; Fin 2; Fin 3]; [Fin 4; Fin 5; Fin 6]]).
  - discriminate.
  - repeat constructor.
  - lia.
Defined.

(** ** Normalisation of the features *)

Lemma fold_min_finite (l : list num) : forall a,
  Forall finite l ->
  exists b, fold_left Num.min l (Fin a) = Fin b /\ b <= a /\
            Forall (fun v => b <= valueOf v) l.
Proof.
  induction l as [|v l IH]; intros a Hfin; cbn [fold_left].
  - exists a. split; [done|]. split; [lra | constructor].
  - inversion Hfin as [|? ? [q ->] Hl]; subst.
    assert (exists m, Num.min (Fin a) (Fin q) = Fin m /\ m <= a /\ m <= q)
      as (m & -> & Hma & Hmq).
    { simpl. destruct (Qltb q a) eqn:E.
      - apply Qltb_true in E. exists q. repeat split; lra.
      - apply Qltb_false in E. exists a. repeat split; lra. }
    destruct (IH m Hl) as (b & Hb & Hbm & Hall).
    exists b. split; [done|]. split; [lra|].
    constructor; [simpl; lra | done].
Qed.

Lemma fold_max_finite (l : list num) : forall a,
  Forall finite l ->
  exists b, fold_left Num.max l (Fin a) = Fin b /\ a <= b /\
            Forall (fun v => valueOf v <= b) l.
Proof.
  induction l as [|v l IH]; intros a Hfin; cbn [fold_left].
  - exists a. split; [done|]. split; [lra | constructor].
  - inversion Hfin as [|? ? [q ->] Hl]; subst.
    assert (exists m, Num.max (Fin a) (Fin q) = Fin m /\ a <= m /\ q <= m)
      as (m & -> & Hma & Hmq).
    { simpl. destruct (Qltb a q) eqn:E.
      - apply Qltb_true in E. exists q. repeat split; lra.
      - apply Qltb_false in E. exists a. repeat split; lra. }
    destruct (IH m Hl) as (b & Hb & Hbm & Hall).
    exists b. split; [done|]. split; [lra|].
    constructor; [simpl; lra | done].
Qed.

Lemma min_list_finite (column : list num) :
  column <> [] -> Forall finite column ->
  exists b, Num.min_list column = Fin b /\ Forall (fun v => b <= valueOf v) column.
Proof.
  intros Hne Hfin. destruct column as [|v l]; [done|].
  inversion Hfin as [|? ? [q ->] Hl]; subst.
  unfold Num.min_list. cbn [fold_left].
  destruct (fold_min_finite l q Hl) as (b & Hb & Hbq & Hall).
  exists b. split; [exact Hb|]. constructor; [simpl; lra | done].
Qed.

Lemma max_list_finite (column : list num) :
  column <> [] -> Forall finite column ->
  exists b, Num.max_list column = Fin b /\ Forall (fun v => valueOf v <= b) column.
Proof.
  intros Hne Hfin. destruct column as [|v l]; [done|].
  inversion Hfin as [|? ? [q ->] Hl]; subst.
  unfold Num.max_list. cbn [fold_left].
  destruct (fold_max_finite l q Hl) as (b & Hb & Hbq & Hall).
  exists b. split; [exact Hb|]. constructor; [simpl; lra | done].
Qed.

Section Normalisation.

Import AnomalyDetector.

Lemma normalizeColumn_unit (column : list num) :
  Forall finite column -> Forall Num.in_unit (normalizeColumn column).
Proof.
  intros Hfin. destruct (decide (column = [])) as [->|Hne]; [constructor|].
  destruct (min_list_finite column Hne Hfin) as (mn & Hmn & Hlow).
  destruct (max_list_finite column Hne Hfin) as (mx & Hmx & Hhigh).
  unfold normalizeColumn. rewrite Hmn, Hmx.
  apply Forall_map, list.Forall_forall. intros v Hv.
  pose proof (proj1 (list.Forall_forall _ _) Hlow v Hv) as Hl.
  pose proof (proj1 (list.Forall_forall _ _) Hhigh v Hv) as Hh.
  destruct (proj1 (list.Forall_forall _ _) Hfin v Hv) as [q ->].
  simpl in Hl, Hh. unfold Num.gtb.
  cbn [Num.sub Num.neg Num.add Num.ltb].
  destruct (Qltb 0 (mx + - mn)) eqn:E; cbn [Num.div].
  - apply Qltb_true in E.
    rewrite (proj2 (Qis0_false (mx + - mn))) by lra. simpl. split.
    + apply Qle_shift_div_l; lra.
    + apply Qle_shift_div_r; lra.
  - apply Qltb_false in E. change (Qis0 1) with false. simpl.
    assert ((q + - mn) / 1 == 0) as -> by (field_simplify; lra).
    split; lra.
Qed.

Lemma length_normalizeColumn (column : list num) :
  length (normalizeColumn column) = length column.
Proof. unfold normalizeColumn. apply length_map. Qed.

(** The shape of the normalised matrix. *)
Lemma normalizeFeatures_shape (c : nat) (features : list (list num)) :
  features <> [] -> rectangular c features -> (0 < c)%nat ->
  length (normalizeFeatures features) = length features /\
  rectangular c (normalizeFeatures features).
Proof.
  intros Hne Hrect Hc. unfold normalizeFeatures.
  pose proof (transposeMatrix_nonempty c features Hne Hrect Hc) as Hne'.
  assert (map normalizeColumn (transposeMatrix features) <> []) as Hne''.
  { intros E. apply Hne'. by apply map_eq_nil in E. }
  assert (rectangular (length features)
            (map normalizeColumn (transposeMatrix features))) as Hrect'.
  { apply Forall_map. eapply Forall_impl; [apply transposeMatrix_rows|].
    intros col Hcol. simpl. by rewrite length_normalizeColumn. }
  split.
  - by apply length_transposeMatrix.
  - pose proof (transposeMatrix_rows
                  (map normalizeColumn (transposeMatrix features))) as H.
    by rewrite length_map, (length_transposeMatrix c) in H.
Qed.

Lemma normalizeFeatures_unit (c : nat) (features : list (list num)) :
  features <> [] ->
  rectangular c features ->
  (0 < c)%nat ->
  Forall (Forall finite) features ->
  length (normalizeFeatures features) = length features /\
  rectangular c (normalizeFeatures features) /\
  Forall (Forall Num.in_unit) (normalizeFeatures features).
Proof.
  intros Hne Hrect Hc Hfin.
  destruct (normalizeFeatures_shape c features Hne Hrect Hc) as [Hlen Hshape].
  split; [done|]. split; [done|].
  unfold normalizeFeatures.
  pose proof (transposeMatrix_nonempty c features Hne Hrect Hc) as Hne'.
  set (columns := map normalizeColumn (transposeMatrix features)).
  assert (columns <> []) as Hne''.
  { intros E. apply Hne'. by apply map_eq_nil in E. }
  assert (rectangular (length features) columns) as Hrect'.
  { apply Forall_map. eapply Forall_impl; [apply transposeMatrix_rows|].
    intros col Hcol. simpl. by rewrite length_normalizeColumn. }
  assert (Forall (Forall Num.in_unit) columns) as Hunit.
  { apply Forall_map, Forall_lookup_2. intros j col Hcol.
    apply normalizeColumn_unit.
    rewrite (transposeMatrix_lookup c) in Hcol by done.
    destruct (decide (j < c)%nat) as [Hj|]; [|done].
    apply (inj Some) in Hcol. subst col.
    apply Forall_map, Forall_lookup_2. intros i row Hrow.
    destruct (rectangular_entry c features i j row Hrect Hrow Hj)
      as (x & Hx & ->).
    eapply Forall_lookup_1; [|exact Hx].
    eapply Forall_lookup_1; [exact Hfin | exact Hrow]. }
  apply Forall_lookup_2. intros i row Hrow.
  rewrite (transposeMatrix_lookup (length features)) in Hrow by done.
  destruct (decide (i < length features)%nat) as [Hi|]; [|done].
  apply (inj Some) in Hrow. subst row.
  apply Forall_map, Forall_lookup_2. intros j col Hcol.
  destruct (rectangular_entry (length features) columns j i col Hrect' Hcol Hi)
    as (x & Hx & ->).
  eapply Forall_lookup_1; [|exact Hx].
  eapply Forall_lookup_1; [exact Hunit | exact Hcol].
Qed.


Lemma engineerFeatures_dims (dividendData : list Dividend) :
  length (engineerFeatures dividendData) = length dividendData /\
  rectangular 5 (engineerFeatures dividendData).
Proof.
  unfold engineerFeatures.
  destruct (decide (dividendData = [])) as [->|Hne]; [split; [done | constructor]|].
  assert (imap (featureRow dividendData) dividendData <> []) as Hne'.
  { intros E. apply (f_equal length) in E. rewrite length_imap in E.
    destruct dividendData; [done | discriminate]. }
  assert (rectangular 5 (imap (featureRow dividendData) dividendData)) as Hrect.
  { apply Forall_lookup_2. intros i row. rewrite list_lookup_imap.
    destruct (dividendData !! i); [|done]. intros Hrow.
    apply (inj Some) in Hrow. by subst row. }
  destruct (normalizeFeatures_shape 5 _ Hne' Hrect ltac:(lia)) as [Hlen Hshape].
  by rewrite length_imap in Hlen.
Qed.

(** X6.  The engineered features have one row of five entries per dividend
    record. *)
Theorem engineerFeatures_shape (dividendData : list Dividend) :
  length (engineerFeatures dividendData) = length dividendData /\
  rectangular 5 (engineerFeatures dividendData).
Proof. apply engineerFeatures_dims. Qed.

End Normalisation.


(** ** The features of a series of positive dividends *)

Section RegularSeries.

Import AnomalyDetector.

Variable dividendData : list Dividend.
Hypothesis regular : Forall regularDividend dividendData.

Lemma valueAt_positive (i : nat) :
  (i < length dividendData)%nat -> positive (valueAt dividendData i).
Proof.
  intros Hi. destruct (lookup_lt_is_Some_2 dividendData i Hi) as [d Hd].
  unfold valueAt. rewrite Hd. simpl.
  by destruct (Forall_lookup_1 _ _ _ _ regular Hd) as [Hpos _].
Qed.

Lemma yieldOf_finite (item : Dividend) :
  regularDividend item -> finite (yieldOf item).
Proof.
  intros ([v [Hv Hvpos]] & Hyield & Hprice). unfold yieldOf.
  assert (finite
            (if Num.truthy (Num.of_slot (price item))
             then (value item / Num.of_slot (price item) * Fin 100)%num
             else Fin 0)) as Halt.
  { destruct (price item) as [p|] eqn:Hp; simpl; [|by eexists].
    destruct (Hprice p eq_refl) as [q ->]. rewrite Hv. simpl.
    destruct (Qis0 q); simpl; by eexists. }
  destruct (yield item) as [y|] eqn:Hy; simpl; [|exact Halt].
  destruct (Hyield y eq_refl) as [q ->]. simpl.
  destruct (Qis0 q); simpl; [exact Halt | by eexists].
Qed.

Lemma relative_change_finite (a b : num) :
  finite a -> positive b -> finite ((a - b) / b * Fin 100)%num.
Proof.
  intros [x ->] (y & -> & Hy). simpl.
  rewrite (proj2 (Qis0_false y)) by lra. by eexists.
Qed.

Lemma positive_finite (a : num) : positive a -> finite a.
Proof. intros (q & -> & _). by eexists. Qed.

Lemma featureRow_finite (i : nat) (item : Dividend) :
  dividendData !! i = Some item ->
  Forall finite (featureRow dividendData i item).
Proof.
  intros Hitem. pose proof (lookup_lt_Some _ _ _ Hitem) as Hi.
  pose proof (Forall_lookup_1 _ _ _ _ regular Hitem) as Hreg.
  pose proof Hreg as (Hvalue & _).
  assert (positive (if (0 <? i)%nat then valueAt dividendData (i - 1)
                    else value item)) as Hprev.
  { destruct (0 <? i)%nat; [apply valueAt_positive; lia | done]. }
  assert (positive (if (2 <=? i)%nat
                    then ((valueAt dividendData i + valueAt dividendData (i - 1)
                           + valueAt dividendData (i - 2)) / Fin 3)%num
                    else value item)) as Hma.
  { destruct (2 <=? i)%nat; [|done].
    destruct (valueAt_positive i) as (a & -> & Ha); [lia|].
    destruct (valueAt_positive (i - 1)) as (b & -> & Hb); [lia|].
    destruct (valueAt_positive (i - 2)) as (c & -> & Hc); [lia|].
    simpl. eexists. split; [reflexivity|].
    apply Qlt_shift_div_l; lra. }
  unfold featureRow. repeat constructor.
  - by apply positive_finite.
  - by apply yieldOf_finite.
  - apply relative_change_finite; [by apply positive_finite | done].
  - by apply positive_finite.
  - apply relative_change_finite; [by apply positive_finite | done].
Qed.

(** X7.  For a series of positive dividends (with finite yields and prices
    where present) every engineered feature lies in [0,1]. *)
Theorem engineerFeatures_in_unit :
  Forall (Forall Num.in_unit) (engineerFeatures dividendData).
Proof.
  unfold engineerFeatures.
  destruct (decide (dividendData = [])) as [E|Hne].
  { rewrite E. constructor. }
  apply (normalizeFeatures_unit 5).
  - intros E. apply (f_equal length) in E. rewrite length_imap in E.
    destruct dividendData; [done | discriminate].
  - apply Forall_lookup_2. intros i row. rewrite list_lookup_imap.
    destruct (dividendData !! i); [|done]. intros Hrow.
    apply (inj Some) in Hrow. by subst row.
  - lia.
  - apply Forall_lookup_2. intros i row. rewrite list_lookup_imap.
    destruct (dividendData !! i) as [item|] eqn:Hitem; [|done]. intros Hrow.
    apply (inj Some) in Hrow. subst row. by apply featureRow_finite.
Qed.

End RegularSeries.

Lemma sampleDividend_regular (month : string) (amount : Q) :
  0 < amount -> regularDividend (sampleDividend month amount).
Proof.
  intros Hpos. split; [by exists amount|]. split; intros ? [=].
Qed.

Lemma engineerFeatures_in_unit_witness :
  Forall (Forall Num.in_unit) (AnomalyDetector.engineerFeatures sampleDividends).
Proof.
  apply (engineerFeatures_in_unit sampleDividends).
  unfold sampleDividends.
  repeat (apply Forall_cons_2; [apply sampleDividend_regular; reflexivity|]).
  apply Forall_nil_2.
Defined.

(** ** The isolation forest *)

Lemma sq_diff_nonneg (a b : Q) :
  exists q, Num.sq (Fin a - Fin b) = Fin q /\ 0 <= q.
Proof.
  exists ((a + - b) * (a + - b)). split; [reflexivity|].
  generalize (a + - b). intros x.
  destruct (Qlt_le_dec x 0) as [Hneg|Hpos].
  - assert (0 <= (- x) * (- x)) by (apply Qmult_le_0_compat; lra).
    assert ((- x) * (- x) == x * x) as E by ring. by rewrite <- E.
  - by apply Qmult_le_0_compat.
Qed.

Lemma squared_distance_finite (means feature : list num) :
  Forall finite feature ->
  forall k acc,
    (forall j, (k <= j < k + length feature)%nat -> finite (at_index means j)) ->
    0 <= acc ->
    exists q,
      foldi_from (fun acc x i => (acc + Num.sq (x - at_index means i))%num)
        k feature (Fin acc) = Fin q /\ 0 <= q.
Proof.
  induction 1 as [|x feature [a ->] _ IH]; intros k acc Hmeans Hacc.
  - exists acc. by split.
  - cbn [foldi_from].
    destruct (Hmeans k) as [b ->]; [cbn; lia|].
    destruct (sq_diff_nonneg a b) as (d & -> & Hd). cbn [Num.add].
    apply IH; [|lra].
    intros j Hj. apply Hmeans. cbn [length]. lia.
Qed.

Lemma expSeries_nonneg (x : Q) (fuel : nat) :
  0 <= x -> forall term k, 0 <= term -> 0 <= Approx.expSeries x term k fuel.
Proof.
  intros Hx. induction fuel as [|fuel IH]; intros term k Hterm; cbn [Approx.expSeries].
  - lra.
  - rewrite Qred_correct.
    assert (0 <= term * x / inject_Z (Z.of_nat k)) as Hnext.
    { apply Qmult_le_0_compat; [by apply Qmult_le_0_compat|].
      apply Qinv_le_0_compat. change 0 with (inject_Z 0). rewrite <- Zle_Qle. lia. }
    assert (0 <= Qred (term * x / inject_Z (Z.of_nat k))) as Hred
      by (rewrite Qred_correct; exact Hnext).
    specialize (IH _ (S k) Hred). lra.
Qed.

Lemma Approx_exp_nonneg (q : Q) : 0 <= Approx.exp q.
Proof.
  unfold Approx.exp.
  assert (0 <= Approx.truncate (Qabs q)) as Hx.
  { unfold Approx.truncate. rewrite Qred_correct.
    assert (0 <= Qfloor (Qabs q * 1000000))%Z as Hfl.
    { change 0%Z with (Qfloor 0). apply Qfloor_resp_le.
      apply Qmult_le_0_compat; [apply Qabs_nonneg | discriminate]. }
    unfold Qle. cbn [Qnum Qden]. lia. }
  pose proof (expSeries_nonneg _ 16 Hx 1 1%nat ltac:(lra)) as He.
  destruct (Qltb q 0); [|exact He].
  rewrite Qred_correct. by apply Qinv_le_0_compat.
Qed.

Section IsolationForest.

Import AnomalyDetector.

Variable Msqrt : Q -> Q.
Variable Mexp : Q -> Q.
Variable config : Config.

Hypothesis exp_nonneg : forall q, 0 <= Mexp q.

Variable c : nat.
Variable features : list (list num).
Hypothesis shape : rectangular c features.
Hypothesis entries : Forall (Forall finite) features.

Lemma column_means_finite (j : nat) :
  features <> [] ->
  (j < c)%nat ->
  finite (at_index (map calculateMean (transposeMatrix features)) j).
Proof.
  intros Hne Hj. unfold at_index. change (map calculateMean ?l) with (calculateMean <$> l).
  rewrite list_lookup_fmap, (transposeMatrix_lookup c) by done.
  rewrite decide_True by done. cbn [fmap option_fmap option_map Num.of_slot default from_option id].
  apply mean_finite. apply Forall_map, list.Forall_forall. intros row Hrow.
  apply list_elem_of_lookup in Hrow as [i Hi].
  destruct (rectangular_entry c features i j row shape Hi Hj) as (x & Hx & ->).
  pose proof (Forall_lookup_1 _ _ _ _ entries Hi) as Hfin.
  apply (Forall_lookup_1 _ _ _ _ Hfin Hx).
Qed.

Lemma isolationForest_scores (i : nat) (feature : list num) :
  features !! i = Some feature ->
  exists s,
    anomalyScores (detectAnomaliesWithIsolationForest Msqrt Mexp config features) !! i
    = Some (Fin s) /\ 0 < s <= 1.
Proof.
  intros Hi. unfold detectAnomaliesWithIsolationForest.
  match goal with
  | |- context [scoreEach ?f features] =>
      pose proof (scoreEach_scores f features i) as Hs;
      destruct (scoreEach f features) as [indices scores]
  end.
  cbn [anomalyScores snd] in *. rewrite Hs, Hi. cbn [fmap option_fmap option_map snd].
  pose proof (Forall_lookup_1 _ _ _ _ shape Hi) as Hlen. simpl in Hlen.
  pose proof (Forall_lookup_1 _ _ _ _ entries Hi) as Hfin. simpl in Hfin.
  destruct (squared_distance_finite
              (map calculateMean (transposeMatrix features)) feature Hfin 0 0)
    as (d & Hd & Hdpos); [|lra|].
  { intros j Hj. apply column_means_finite; [|lia].
    intros E. by rewrite E in Hi. }
  unfold foldi. rewrite Hd. unfold sqrt.
  replace (Qltb d 0) with false by (symmetry; by apply Qltb_false).
  cbn [Num.neg Num.add exp].
  pose proof (exp_nonneg (- Msqrt d + 3)) as He. revert He.
  generalize (Mexp (- Msqrt d + 3)). intros e He.
  unfold Num.div. replace (Qis0 (1 + e)) with false
    by (symmetry; apply Qis0_false; lra).
  eexists. split; [reflexivity|]. split.
  - apply Qlt_shift_div_l; lra.
  - apply Qle_shift_div_r; lra.
Qed.

End IsolationForest.

(** X8.  When [Math.exp] is never negative, the isolation forest gives
    every row of a rectangular matrix of finite features a finite score
    above [0] and at most [1]. *)
Theorem isolationForest_scores_in_unit (Msqrt Mexp : Q -> Q)
    (config : AnomalyDetector.Config) (c : nat) (features : list (list num))
    (i : nat) :
  (forall q, 0 <= Mexp q) ->
  rectangular c features ->
  Forall (Forall finite) features ->
  (i < length features)%nat ->
  exists s,
    AnomalyDetector.anomalyScores
      (AnomalyDetector.detectAnomaliesWithIsolationForest Msqrt Mexp config features)
      !! i = Some (Fin s) /\ 0 < s <= 1.
Proof.
  intros Hexp Hshape Hentries Hi.
  destruct (lookup_lt_is_Some_2 features i Hi) as [feature Hfeature].
  by apply (isolationForest_scores Msqrt Mexp config Hexp c features Hshape Hentries
              i feature).
Qed.

(** ** The autoencoder that cannot run *)

Section AutoencoderFallback.

Import AnomalyDetector.

Variable Msqrt : Q -> Q.
Variable Mexp : Q -> Q.
Variable config : Config.
Variable createAndTrainAutoencoder : list (list num) -> option Predictor.

Lemma single_feature_values (values : list num) :
  map (fun f => at_index f 0) (map (fun value => [value]) values) = values.
Proof.
  rewrite map_map. induction values as [|v values IH]; [done|].
  cbn [map]. by rewrite IH.
Qed.

Lemma autoencoder_falls_back (cfg : Config) (st : State) (features : list (list num)) :
  (forall predict, autoencoder st = Some predict -> predict features = None) ->
  (autoencoder st = None ->
   forall predict,
     createAndTrainAutoencoder features = Some predict -> predict features = None) ->
  (detectAnomaliesWithAutoencoder Msqrt cfg createAndTrainAutoencoder st features).1
  = fallbackZScore Msqrt cfg features.
Proof.
  intros Hloaded Htrained. unfold detectAnomaliesWithAutoencoder.
  destruct (autoencoder st) as [predict|] eqn:Est.
  - by rewrite (Hloaded predict eq_refl).
  - destruct (createAndTrainAutoencoder features) as [predict|] eqn:Ecreate;
      [|reflexivity].
    by rewrite (Htrained eq_refl predict eq_refl).
Qed.

(** X9.  When the autoencoder is enabled but no model can be made to
    reconstruct the series, its place is taken by a second Z-score run; on
    the raw values (feature engineering off) every record that the Z-score
    flags therefore has two of the four votes, and the majority keeps it. *)
Theorem failed_autoencoder_doubles_zscore (st : State)
    (dividendData : list Dividend) (i : nat) :
  let cfg := setEnsembleMethod config "majority" in
  let features := map (fun value => [value]) (map value dividendData) in
  useAutoencoder config = true ->
  featureEngineering config = false ->
  (forall predict, autoencoder st = Some predict -> predict features = None) ->
  (autoencoder st = None ->
   forall predict,
     createAndTrainAutoencoder features = Some predict -> predict features = None) ->
  i ∈ anomalyIndices (detectAnomaliesWithZScore Msqrt cfg (map value dividendData)) ->
  i ∈ combineAnomalyDetections cfg
        (runMethods Msqrt Mexp cfg createAndTrainAutoencoder st dividendData).1.
Proof.
  intros cfg features Hauto Hraw Hloaded Htrained Hflag.
  unfold runMethods.
  change (featureEngineering cfg) with (featureEngineering config).
  change (useAutoencoder cfg) with (useAutoencoder config).
  rewrite Hauto, Hraw. fold features.
  pose proof (autoencoder_falls_back cfg st features Hloaded Htrained) as Hfall.
  destruct (detectAnomaliesWithAutoencoder _ _ _ _ _) as [result st'].
  cbn [fst] in *. subst result.
  unfold fallbackZScore, features. rewrite single_feature_values.
  unfold cfg at 1. apply combine_majority. fold cfg.
  apply occurrences_pos in Hflag.
  rewrite ceilHalf_eq. cbn [app length detections foldr snd].
  change ((4 + 1) / 2)%nat with 2%nat. lia.
Qed.

End AutoencoderFallback.

(** ** The ensemble: which indices can be combined *)

Section Ensemble.

Import AnomalyDetector.

Lemma tallyIndex_NoDup (method : MethodResult) (t : Tally) (index : nat) :
  NoDup (allIndices t) -> NoDup (allIndices (tallyIndex method t index)).
Proof.
  intros Hnd.
  assert (allIndices (tallyIndex method t index) =
          if bool_decide (index ∈ allIndices t) then allIndices t
          else allIndices t ++ [index]) as ->.
  { unfold tallyIndex. by destruct (indexCounts t !! index) as [[|?]|]. }
  destruct (bool_decide_reflect (index ∈ allIndices t)) as [Hin|Hnin]; [done|].
  apply NoDup_app. split; [done|]. split; [|apply NoDup_singleton].
  intros x Hx ->%list_elem_of_singleton. contradiction.
Qed.

Lemma tallyMethod_NoDup (method : MethodResult) : forall indices t,
  NoDup (allIndices t) ->
  NoDup (allIndices (fold_left (tallyIndex method) indices t)).
Proof.
  induction indices as [|j indices IH]; intros t Hnd; simpl; [done|].
  by apply IH, tallyIndex_NoDup.
Qed.

Lemma tally_NoDup (ms : list (string * MethodResult)) :
  NoDup (allIndices (tally ms)).
Proof.
  unfold tally.
  assert (forall t, NoDup (allIndices t) ->
                    NoDup (allIndices (fold_left tallyMethod (map snd ms) t))) as H.
  { induction ms as [|m ms IH]; intros t Hnd; simpl; [done|].
    apply IH. by apply tallyMethod_NoDup. }
  apply H. constructor.
Qed.

Lemma occurrences_pos_iff (i : nat) (indices : list nat) :
  (0 < occurrences i indices)%nat <-> i ∈ indices.
Proof.
  split; [|apply occurrences_pos].
  induction indices as [|j indices IH]; [unfold occurrences; simpl; lia|].
  rewrite occurrences_cons. destruct (Nat.eqb_spec j i) as [->|Hne].
  - intros _. apply list_elem_of_here.
  - intros H. apply list_elem_of_further, IH. lia.
Qed.

Lemma detections_pos_iff (ms : list (string * MethodResult)) (i : nat) :
  (0 < detections ms i)%nat <->
  exists name result, (name, result) ∈ ms /\ i ∈ anomalyIndices result.
Proof.
  induction ms as [|[name result] ms IH]; simpl.
  - split; [lia | by intros (? & ? & ?%elem_of_nil & _)].
  - split.
    + intros H.
      destruct (decide (0 < occurrences i (anomalyIndices result))%nat) as [Hocc|Hocc].
      * exists name, result. split; [apply list_elem_of_here|].
        by apply occurrences_pos_iff.
      * destruct (proj1 IH) as (name' & result' & Hin & Hflag); [lia|].
        exists name', result'. split; [by apply list_elem_of_further | done].
    + intros (name' & result' & Hin & Hflag).
      apply elem_of_cons in Hin as [[= -> ->]|Hin].
      * apply occurrences_pos_iff in Hflag. lia.
      * assert (0 < detections ms i)%nat by (apply IH; eauto). lia.
Qed.

Lemma combine_sublist (config : Config) (ms : list (string * MethodResult)) :
  sublist (combineAnomalyDetections config ms) (allIndices (tally ms)).
Proof.
  unfold combineAnomalyDetections.
  destruct (String.eqb _ _); [apply List_filter_sublist|].
  destruct (String.eqb _ _); [apply List_filter_sublist | done].
Qed.

Lemma combine_flagged (config : Config) (ms : list (string * MethodResult)) (i : nat) :
  i ∈ combineAnomalyDetections config ms ->
  exists name result, (name, result) ∈ ms /\ i ∈ anomalyIndices result.
Proof.
  intros Hin. apply detections_pos_iff.
  apply (tally_counts ms i).
  eapply sublist_subseteq; [apply combine_sublist | exact Hin].
Qed.

Lemma combine_NoDup (config : Config) (ms : list (string * MethodResult)) :
  NoDup (combineAnomalyDetections config ms).
Proof.
  exact (sublist_NoDup _ _ (tally_NoDup ms) (combine_sublist config ms)).
Qed.

(** X10.  Whatever the policy, the combined indices are a sublist of those
    kept under ['any'], without duplicates; and the result under ['any']
    holds exactly the indices that some method flags. *)
Theorem combined_indices_are_flagged (config : Config)
    (ms : list (string * MethodResult)) (i : nat) :
  sublist (combineAnomalyDetections config ms)
          (combineAnomalyDetections (setEnsembleMethod config "any") ms) /\
  NoDup (combineAnomalyDetections config ms) /\
  (i ∈ combineAnomalyDetections (setEnsembleMethod config "any") ms <->
   exists name result, (name, result) ∈ ms /\ i ∈ anomalyIndices result).
Proof.
  split; [apply combine_sublist|]. split; [apply combine_NoDup|].
  rewrite combine_any. apply detections_pos_iff.
Qed.

(** X11.  Under ['majority'] an index is kept exactly when it has been
    flagged, and the number of times it occurs in the lists of flagged
    indices, over all the methods, reaches half the number of methods
    rounded up. *)
Theorem majority_iff_enough_detections (config : Config)
    (ms : list (string * MethodResult)) (i : nat) :
  i ∈ combineAnomalyDetections (setEnsembleMethod config "majority") ms <->
  (0 < detections ms i)%nat /\ ((length ms + 1) / 2 <= detections ms i)%nat.
Proof. rewrite combine_majority, ceilHalf_eq. done. Qed.

Lemma List_filter_all {A : Type} (p : A -> bool) (l : list A) :
  Forall (fun x => p x = true) l -> List.filter p l = l.
Proof.
  induction 1 as [|x l Hx _ IH]; simpl; [done|]. by rewrite Hx, IH.
Qed.

(** X12.  With one or two methods, ['majority'] keeps every flagged index: it
    is ['any']. *)
Theorem majority_of_two_is_any (config : Config)
    (ms : list (string * MethodResult)) :
  (length ms <= 2)%nat ->
  combineAnomalyDetections (setEnsembleMethod config "majority") ms
  = combineAnomalyDetections (setEnsembleMethod config "any") ms.
Proof.
  intros Hlen. unfold combineAnomalyDetections. simpl.
  apply List_filter_all, list.Forall_forall. intros i Hi.
  destruct (tally_counts ms i) as [Hc Ha]. apply Ha in Hi.
  unfold countAtLeast. rewrite Hc.
  destruct (Nat.eqb_spec (detections ms i) 0) as [E|_]; [lia|].
  apply Nat.leb_le. rewrite ceilHalf_eq.
  assert ((length ms + 1) / 2 <= 1)%nat; [|lia].
  destruct (length ms) as [|[|[|n]]]; simpl; lia.
Qed.

End Ensemble.

Lemma majority_of_two_is_any_witness :
  AnomalyDetector.combineAnomalyDetections
    (setEnsembleMethod AnomalyDetector.defaultConfig "majority")
    (take 2 sampleMethods)
  = AnomalyDetector.combineAnomalyDetections
      (setEnsembleMethod AnomalyDetector.defaultConfig "any")
      (take 2 sampleMethods).
Proof.
  apply (majority_of_two_is_any AnomalyDetector.defaultConfig (take 2 sampleMethods)).
  simpl. lia.
Defined.

(** ** What a fresh analysis returns *)

Lemma scoreEach_indices_range {A : Type} (f : A -> bool * num) (xs : list A) :
  Forall (fun j => (j < length xs)%nat) (scoreEach f xs).1.
Proof.
  rewrite scoreEach_indices. apply list.Forall_forall.
  intros j Hj%flaggedFrom_range. lia.
Qed.

Lemma StronglySorted_weaken {A : Type} (R R' : A -> A -> Prop) (l : list A) :
  (forall x y, R x y -> R' x y) -> StronglySorted R l -> StronglySorted R' l.
Proof.
  intros Himp. induction 1 as [|x l Hl IH Hx]; constructor; [done|].
  eapply Forall_impl; [exact Hx|]. intros y. apply Himp.
Qed.

Section FreshAnalysis.

Import AnomalyDetector.

Variable Msqrt : Q -> Q.
Variable Mexp : Q -> Q.
Variable config : Config.
Variable storedModel : option Predictor.
Variable createAndTrainAutoencoder : list (list num) -> option Predictor.
Variable numberToString : num -> string.
Variable missingSeriesMessage : string.

Lemma zscore_indices_range (values : list num) :
  Forall (fun j => (j < length values)%nat)
         (anomalyIndices (detectAnomaliesWithZScore Msqrt config values)).
Proof.
  unfold detectAnomaliesWithZScore.
  match goal with
  | |- context [scoreEach ?f ?xs] =>
      pose proof (scoreEach_indices_range f xs) as H; destruct (scoreEach f xs)
  end.
  by rewrite length_map in H.
Qed.

Lemma iqr_indices_range (values : list num) :
  Forall (fun j => (j < length values)%nat)
         (anomalyIndices (detectAnomaliesWithIQR config values)).
Proof.
  unfold detectAnomaliesWithIQR.
  match goal with
  | |- context [scoreEach ?f ?xs] =>
      pose proof (scoreEach_indices_range f xs) as H; destruct (scoreEach f xs)
  end.
  exact H.
Qed.

Lemma isolationForest_indices_range (features : list (list num)) :
  Forall (fun j => (j < length features)%nat)
         (anomalyIndices
            (detectAnomaliesWithIsolationForest Msqrt Mexp config features)).
Proof.
  unfold detectAnomaliesWithIsolationForest.
  match goal with
  | |- context [scoreEach ?f ?xs] =>
      pose proof (scoreEach_indices_range f xs) as H; destruct (scoreEach f xs)
  end.
  exact H.
Qed.

Lemma scoreReconstruction_indices_range (errors : list num) :
  Forall (fun j => (j < length errors)%nat)
         (anomalyIndices (scoreReconstruction Msqrt errors)).
Proof.
  unfold scoreReconstruction.
  match goal with
  | |- context [scoreEach ?f ?xs] =>
      pose proof (scoreEach_indices_range f xs) as H; destruct (scoreEach f xs)
  end.
  exact H.
Qed.

Lemma autoencoder_indices_range (st : State) (features : list (list num)) :
  Forall (fun j => (j < length features)%nat)
         (anomalyIndices
            (detectAnomaliesWithAutoencoder Msqrt config createAndTrainAutoencoder
               st features).1).
Proof.
  assert (Forall (fun j => (j < length features)%nat)
                 (anomalyIndices (fallbackZScore Msqrt config features))) as Hfb.
  { unfold fallbackZScore.
    pose proof (zscore_indices_range (map (fun f => at_index f 0) features)) as H.
    by rewrite length_map in H. }
  unfold detectAnomaliesWithAutoencoder.
  destruct (match autoencoder st with Some m => Some m | None => _ end)
    as [predict|]; [|exact Hfb].
  destruct (predict features) as [outputArray|]; [|exact Hfb].
  cbn [fst].
  match goal with
  | |- context [scoreReconstruction _ ?e] =>
      pose proof (scoreReconstruction_indices_range e) as H
  end.
  by rewrite length_imap in H.
Qed.

Lemma features_length (dividendData : list Dividend) :
  length (if featureEngineering config then engineerFeatures dividendData
          else map (fun value => [value]) (map value dividendData))
  = length dividendData.
Proof.
  destruct (featureEngineering config).
  - apply engineerFeatures_dims.
  - by rewrite !length_map.
Qed.

(** The methods that ran, and where their flags point. *)
Lemma runMethods_spec (st : State) (dividendData : list Dividend) :
  map fst (runMethods Msqrt Mexp config createAndTrainAutoencoder st dividendData).1
  = ["zScore"; "iqr"; "isolationForest"]
      ++ (if useAutoencoder config then ["autoencoder"] else []) /\
  Forall (fun m => Forall (fun j => (j < length dividendData)%nat)
                          (anomalyIndices m.2))
         (runMethods Msqrt Mexp config createAndTrainAutoencoder st dividendData).1.
Proof.
  unfold runMethods.
  pose proof (zscore_indices_range (map value dividendData)) as Hz.
  pose proof (iqr_indices_range (map value dividendData)) as Hq.
  rewrite length_map in Hz, Hq.
  pose proof (isolationForest_indices_range
                (if featureEngineering config then engineerFeatures dividendData
                 else map (fun value => [value]) (map value dividendData))) as Hi.
  pose proof (autoencoder_indices_range st
                (if featureEngineering config then engineerFeatures dividendData
                 else map (fun value => [value]) (map value dividendData))) as Ha.
  rewrite features_length in Hi, Ha.
  destruct (useAutoencoder config).
  - destruct (detectAnomaliesWithAutoencoder _ _ _ _ _) as [result st'].
    split; [reflexivity|]. cbn [fst app].
    repeat (apply Forall_cons_2; [assumption|]). apply Forall_nil_2.
  - split; [reflexivity|]. cbn [fst].
    repeat (apply Forall_cons_2; [assumption|]). apply Forall_nil_2.
Qed.

Lemma toAnomaly_record (ms : list (string * MethodResult))
    (dividendData : list Dividend) (index : nat) (d : Dividend) :
  dividendData !! index = Some d ->
  a_date (toAnomaly ms (map value dividendData) (map date dividendData) index)
  = Some (date d) /\
  a_value (toAnomaly ms (map value dividendData) (map date dividendData) index)
  = value d.
Proof.
  intros Hd. unfold toAnomaly, at_index. cbn [a_date a_value].
  change (map date dividendData) with (date <$> dividendData).
  change (map value dividendData) with (value <$> dividendData).
  rewrite !list_lookup_fmap, Hd. done.
Qed.

Lemma detectedBy_flags (ms : list (string * MethodResult)) (values : list num)
    (dates : list string) (index : nat) (name : string) :
  name ∈ detectedBy (toAnomaly ms values dates index) <->
  exists result, (name, result) ∈ ms /\ index ∈ anomalyIndices result.
Proof.
  unfold toAnomaly. cbn [detectedBy].
  rewrite list_elem_of_In, in_map_iff. split.
  - intros ([name' result] & <- & Hin). apply filter_In in Hin as [Hin Hflag].
    exists result. split; [by apply list_elem_of_In|].
    unfold flags in Hflag. by apply bool_decide_eq_true in Hflag.
  - intros (result & Hin & Hflag). exists (name, result). split; [done|].
    apply filter_In. split; [by apply list_elem_of_In|].
    unfold flags. by apply bool_decide_eq_true.
Qed.

(** The result of a call that the cache does not answer. *)
Lemma detect_fresh (now later : Z) (st : State) (dividendData : list Dividend) :
  cachedResult config now (initialize config storedModel st)
    (cacheKeyOf numberToString dividendData) = None ->
  (detectDividendAnomalies Msqrt Mexp config storedModel createAndTrainAutoencoder
     numberToString missingSeriesMessage now later st (Some dividendData)).1
  = if (length dividendData <? 5)%nat then degraded None
    else (analyse Msqrt Mexp config createAndTrainAutoencoder
            (initialize config storedModel st) dividendData).1.
Proof.
  intros Hmiss. unfold detectDividendAnomalies. rewrite Hmiss.
  destruct (length dividendData <? 5)%nat; [done|].
  destruct (analyse _ _ _ _ _ _) as [result st'].
  by destruct (useCache config).
Qed.

Lemma NoDup_below_length (n : nat) (l : list nat) :
  NoDup l -> Forall (fun j => (j < n)%nat) l -> (length l <= n)%nat.
Proof.
  intros Hnd Hlt.
  assert (length l <= length (seq 0 n))%nat as H; [|by rewrite length_seq in H].
  apply submseteq_length, NoDup_submseteq; [done|].
  intros j Hj. apply elem_of_seq.
  pose proof (proj1 (list.Forall_forall _ _) Hlt j Hj). simpl in *. lia.
Qed.

Lemma analyse_records (st : State) (dividendData : list Dividend) :
  let result :=
    (analyse Msqrt Mexp config createAndTrainAutoencoder st dividendData).1 in
  count (stats result) = length (anomalies result) /\
  (length (anomalies result) <= length dividendData)%nat /\
  Forall (fun a => exists i d,
              dividendData !! i = Some d /\
              a_date a = Some (date d) /\ a_value a = value d)
         (anomalies result) /\
  Forall (fun a => detectedBy a <> [] /\ detectedBy a ⊆ map fst (methods result))
         (anomalies result) /\
  map fst (methods result)
  = ["zScore"; "iqr"; "isolationForest"]
      ++ (if useAutoencoder config then ["autoencoder"] else []) /\
  (Forall (fun a => finite (anomalyScore a)) (anomalies result) ->
   StronglySorted
     (fun a b => valueOf (anomalyScore b) <= valueOf (anomalyScore a))
     (anomalies result)).
Proof.
  unfold analyse.
  destruct (runMethods_spec st dividendData) as [Hnames Hrange].
  destruct (runMethods _ _ _ _ _ _) as [ms st']. cbn [fst] in *.
  cbn [fst anomalies stats count methods].
  assert (Forall (fun i => (i < length dividendData)%nat)
                 (combineAnomalyDetections config ms)) as Hidx.
  { apply list.Forall_forall. intros i Hi.
    destruct (combine_flagged config ms i Hi) as (name & result & Hin & Hflag).
    pose proof (proj1 (list.Forall_forall _ _) Hrange _ Hin) as Hr.
    apply (proj1 (list.Forall_forall _ _) Hr i Hflag). }
  assert (map fst (map (fun m => (m.1, summarize m.2)) ms) = map fst ms) as Hfst.
  { rewrite map_map. by apply map_ext. }
  split; [reflexivity|]. split.
  { rewrite length_sortBy, length_map.
    apply NoDup_below_length; [apply combine_NoDup | exact Hidx]. }
  split.
  { apply Forall_sortBy, Forall_map.
    eapply Forall_impl; [exact Hidx|]. intros i Hi. cbn beta in Hi.
    destruct (lookup_lt_is_Some_2 dividendData i Hi) as [d Hd].
    exists i, d. split; [done|]. exact (toAnomaly_record ms dividendData i d Hd). }
  split.
  { apply Forall_sortBy, Forall_map, list.Forall_forall. intros i Hi. cbn beta.
    destruct (combine_flagged config ms i Hi) as (name & result & Hin & Hflag).
    split.
    - intros E.
      assert (name ∈ detectedBy
                (toAnomaly ms (map value dividendData) (map date dividendData) i))
        as Hname by (apply detectedBy_flags; eauto).
      rewrite E in Hname. by apply elem_of_nil in Hname.
    - intros name' (result' & Hin' & _)%detectedBy_flags.
      rewrite Hfst. apply list_elem_of_In, in_map_iff.
      exists (name', result'). split; [done | by apply list_elem_of_In]. }
  split; [by rewrite Hfst|].
  intros Hfin.
  set (records := map (toAnomaly ms (map value dividendData)
                         (map date dividendData))
                      (combineAnomalyDetections config ms)) in *.
  assert (Forall (fun a => finite (anomalyScore a)) records) as Hfin'.
  { by rewrite <- (sortBy_perm (fun a b => (anomalyScore b - anomalyScore a)%num)). }
  pose proof (sortBy_sorted
                (fun a b => (anomalyScore b - anomalyScore a)%num)
                (fun a => - valueOf (anomalyScore a)) records) as Hsorted.
  eapply StronglySorted_weaken; [|apply Hsorted].
  - intros a b Hab. simpl in Hab. lra.
  - intros x y Hx Hy.
    destruct (proj1 (list.Forall_forall _ _) Hfin' x Hx) as [sx Ex].
    destruct (proj1 (list.Forall_forall _ _) Hfin' y Hy) as [sy Ey].
    rewrite Ex, Ey. unfold Num.gtb. simpl.
    destruct (Qltb (- sy) (- sx)) eqn:E.
    + apply Qltb_true in E. apply Qltb_true. lra.
    + apply Qltb_false in E. apply Qltb_false. lra.
Qed.

End FreshAnalysis.

Section FreshCalls.

Import AnomalyDetector.

Variable Msqrt : Q -> Q.
Variable Mexp : Q -> Q.
Variable config : Config.
Variable storedModel : option Predictor.
Variable createAndTrainAutoencoder : list (list num) -> option Predictor.
Variable numberToString : num -> string.
Variable missingSeriesMessage : string.
Variables now later : Z.
Variable st : State.
Variable dividendData : list Dividend.

Let result : DetectionResult :=
  (detectDividendAnomalies Msqrt Mexp config storedModel createAndTrainAutoencoder
     numberToString missingSeriesMessage now later st (Some dividendData)).1.

Hypothesis miss :
  cachedResult config now (initialize config storedModel st)
    (cacheKeyOf numberToString dividendData) = None.

(** X13.  When the cache does not answer, the count of the statistics is the
    number of anomalies, there are no more anomalies than records, and
    every anomaly carries the date and the value of one of the records. *)
Theorem fresh_anomalies_are_records :
  count (stats result) = length (anomalies result) /\
  (length (anomalies result) <= length dividendData)%nat /\
  Forall (fun a => exists i d,
              dividendData !! i = Some d /\
              a_date a = Some (date d) /\ a_value a = value d)
         (anomalies result).
Proof.
  unfold result. rewrite (detect_fresh _ _ _ _ _ _ _ _ _ _ _ miss).
  destruct (length dividendData <? 5)%nat.
  - split; [done|]. split; [simpl; lia | constructor].
  - pose proof (analyse_records Msqrt Mexp config createAndTrainAutoencoder
                  (initialize config storedModel st) dividendData) as H.
    cbn zeta in H. tauto.
Qed.

(** X14.  When the cache does not answer, every anomaly names at least one
    method that detected it, all of them among the methods of the summary;
    with five records or more these are the Z-score, the IQR and the
    isolation forest, then the autoencoder when it is enabled. *)
Theorem fresh_anomalies_name_their_methods :
  Forall (fun a => detectedBy a <> [] /\ detectedBy a ⊆ map fst (methods result))
         (anomalies result) /\
  ((length dividendData <? 5)%nat = false ->
   map fst (methods result)
   = ["zScore"; "iqr"; "isolationForest"]
       ++ (if useAutoencoder config then ["autoencoder"] else [])).
Proof.
  unfold result. rewrite (detect_fresh _ _ _ _ _ _ _ _ _ _ _ miss).
  destruct (length dividendData <? 5)%nat.
  - split; [constructor | discriminate].
  - pose proof (analyse_records Msqrt Mexp config createAndTrainAutoencoder
                  (initialize config storedModel st) dividendData) as H.
    cbn zeta in H. tauto.
Qed.


End FreshCalls.

(** ** The cache of the detector *)

Section CacheBehaviour.

Import AnomalyDetector.

Variable Msqrt : Q -> Q.
Variable Mexp : Q -> Q.
Variable config : Config.
Variable storedModel : option Predictor.
Variable createAndTrainAutoencoder : list (list num) -> option Predictor.
Variable numberToString : num -> string.
Variable missingSeriesMessage : string.

Let detect (now later : Z) : State -> option (list Dividend) -> DetectionResult * State :=
  detectDividendAnomalies Msqrt Mexp config storedModel createAndTrainAutoencoder
    numberToString missingSeriesMessage now later.

Lemma initialize_initialized (st : State) :
  initialized (initialize config storedModel st) = true.
Proof. unfold initialize. by destruct (initialized st) eqn:E. Qed.

Lemma initialize_done (st : State) :
  initialized st = true -> initialize config storedModel st = st.
Proof. unfold initialize. by intros ->. Qed.

Lemma analyse_initialized (st : State) (dividendData : list Dividend) :
  initialized (analyse Msqrt Mexp config createAndTrainAutoencoder st dividendData).2
  = initialized st.
Proof.
  unfold analyse, runMethods.
  destruct (useAutoencoder config); [|reflexivity].
  unfold detectAnomaliesWithAutoencoder.
  destruct (match autoencoder st with Some m => Some m | None => _ end)
    as [predict|]; [destruct (predict _)|]; reflexivity.
Qed.

(** X16.  With the cache enabled, after a call that analysed a series of five
    records or more, a second call on the same series within the expiry
    time returns the same result and leaves the detector as it is. *)
Theorem cached_result_is_replayed (now later now' later' : Z) (st : State)
    (dividendData : list Dividend) :
  useCache config = true ->
  (5 <= length dividendData)%nat ->
  cachedResult config now (initialize config storedModel st)
    (cacheKeyOf numberToString dividendData) = None ->
  (now' - later < cacheExpiration config)%Z ->
  detect now' later' (detect now later st (Some dividendData)).2 (Some dividendData)
  = detect now later st (Some dividendData).
Proof.
  intros Hon Hlen Hmiss Hvalid. unfold detect at 2 3, detectDividendAnomalies.
  rewrite Hmiss, Hon.
  destruct (Nat.ltb_spec (length dividendData) 5) as [?|_]; [lia|].
  pose proof (analyse_initialized (initialize config storedModel st) dividendData)
    as Hinit.
  rewrite initialize_initialized in Hinit.
  destruct (analyse _ _ _ _ _ _) as [result st']. cbn [snd] in *.
  unfold detect, detectDividendAnomalies.
  rewrite initialize_done by exact Hinit.
  unfold cachedResult at 1. rewrite Hon. cbn [cache].
  rewrite lookup_insert_eq. cbn [timestamp data].
  unfold isCacheValid. by rewrite (proj2 (Z.ltb_lt _ _) Hvalid).
Qed.

(** X17.  A call changes the cache at most at the key of a series of five
    records or more: every other entry is kept, and a call on a shorter or
    missing series changes none. *)
Theorem cache_kept_at_other_keys (now later : Z) (st : State)
    (dividendData : option (list Dividend)) (key : list string) :
  (forall series,
      dividendData = Some series -> (5 <= length series)%nat ->
      key <> cacheKeyOf numberToString series) ->
  cache (detect now later st dividendData).2 !! key = cache st !! key.
Proof.
  intros Hkey. unfold detect, detectDividendAnomalies.
  pose proof (initialize_cache config storedModel st) as Hinit.
  destruct dividendData as [series|]; [|cbn [snd]; by rewrite Hinit].
  destruct (cachedResult _ _ _ _); [cbn [snd]; by rewrite Hinit|].
  destruct (Nat.ltb_spec (length series) 5) as [?|Hlen];
    [cbn [snd]; by rewrite Hinit|].
  pose proof (analyse_cache Msqrt Mexp config createAndTrainAutoencoder
                (initialize config storedModel st) series) as Hcache.
  destruct (analyse _ _ _ _ _ _) as [result st']. cbn [snd] in *.
  destruct (useCache config); cbn [snd cache]; [|by rewrite Hcache, Hinit].
  rewrite lookup_insert_ne by (intros E; by apply (Hkey series eq_refl Hlen)).
  by rewrite Hcache, Hinit.
Qed.

End CacheBehaviour.

(** ** The model the detector holds *)

Section HeldModel.

Import AnomalyDetector.

Variable Msqrt : Q -> Q.
Variable Mexp : Q -> Q.
Variable config : Config.
Variable storedModel : option Predictor.
Variable createAndTrainAutoencoder : list (list num) -> option Predictor.
Variable numberToString : num -> string.
Variable missingSeriesMessage : string.

Let detect (now later : Z) : State -> option (list Dividend) -> DetectionResult * State :=
  detectDividendAnomalies Msqrt Mexp config storedModel createAndTrainAutoencoder
    numberToString missingSeriesMessage now later.

Lemma analyse_keeps_model (st : State) (dividendData : list Dividend)
    (model : Predictor) :
  autoencoder st = Some model ->
  autoencoder (analyse Msqrt Mexp config createAndTrainAutoencoder st dividendData).2
  = Some model.
Proof.
  intros Hheld. unfold analyse, runMethods.
  destruct (useAutoencoder config); [|exact Hheld].
  unfold detectAnomaliesWithAutoencoder. rewrite Hheld.
  by destruct (model _).
Qed.

(** X18.  Once the detector is initialised and holds a model, every call
    leaves it initialised and holding that model: the model is neither
    loaded nor trained again, whatever series comes later. *)
Theorem held_model_is_kept (now later : Z) (st : State)
    (dividendData : option (list Dividend)) (model : Predictor) :
  initialized st = true ->
  autoencoder st = Some model ->
  initialized (detect now later st dividendData).2 = true /\
  autoencoder (detect now later st dividendData).2 = Some model.
Proof.
  intros Hinit Hheld. unfold detect, detectDividendAnomalies.
  rewrite (initialize_done config storedModel st Hinit).
  destruct dividendData as [series|]; [|by split].
  destruct (cachedResult _ _ _ _); [by split|].
  destruct (length series <? 5)%nat; [by split|].
  pose proof (analyse_keeps_model st series model Hheld) as Hkept.
  pose proof (analyse_initialized Msqrt Mexp config createAndTrainAutoencoder
                st series) as Hstill.
  destruct (analyse _ _ _ _ _ _) as [result st']. cbn [snd] in *.
  destruct (useCache config); cbn [snd initialized autoencoder];
    split; congruence.
Qed.

End HeldModel.

Lemma held_model_is_kept_witness :
  let st :=
    {| AnomalyDetector.initialized := true;
       AnomalyDetector.autoencoder := Some (fun _ => None);
       AnomalyDetector.cache := ∅ |} in
  AnomalyDetector.initialized
    (AnomalyDetector.detectDividendAnomalies Approx.sqrt Approx.exp
       AnomalyDetector.defaultConfig None (fun _ => None) Approx.showNum
       "TypeError" 0 1 st (Some sampleDividends)).2 = true /\
  AnomalyDetector.autoencoder
    (AnomalyDetector.detectDividendAnomalies Approx.sqrt Approx.exp
       AnomalyDetector.defaultConfig None (fun _ => None) Approx.showNum
       "TypeError" 0 1 st (Some sampleDividends)).2 = Some (fun _ => None).
Proof.
  apply (held_model_is_kept Approx.sqrt Approx.exp
           AnomalyDetector.defaultConfig None (fun _ => None) Approx.showNum
           "TypeError" 0 1
           {| AnomalyDetector.initialized := true;
              AnomalyDetector.autoencoder := Some (fun _ => None);
              AnomalyDetector.cache := ∅ |}
           (Some sampleDividends) (fun _ => None));
    reflexivity.
Defined.

(** ** The recommendation engine: weights, thresholds and scores *)

Section EngineWeights.

Import RecommendationEngine.

Lemma positive_scaled (a : num) (k : Q) :
  0 < k -> positive a -> positive (a * Fin k)%num.
Proof.
  intros Hk (q & -> & Hq). exists (q * k). split; [reflexivity|].
  apply Qmult_lt_0_compat; assumption.
Qed.

Lemma positiveWeights_intro (w : Weights) :
  positive (priceForecasting w) -> positive (sentiment w) ->
  positive (anomalies w) -> positive (fundamentals w) ->
  positiveWeights w.
Proof.
  intros. unfold positiveWeights, weightValues.
  repeat apply Forall_cons_2; auto. 
Qed.

Lemma positiveWeights_elim (w : Weights) :
  positiveWeights w ->
  positive (priceForecasting w) /\ positive (sentiment w) /\
  positive (anomalies w) /\ positive (fundamentals w).
Proof.
  unfold positiveWeights, weightValues. intros H.
  apply Forall_cons_1 in H as [? H].
  apply Forall_cons_1 in H as [? H].
  apply Forall_cons_1 in H as [? H].
  apply Forall_cons_1 in H as [? H]. auto.
Qed.

Ltac scaled_weights :=
  apply positiveWeights_intro; cbn [priceForecasting sentiment anomalies fundamentals];
  first [assumption | apply positive_scaled; [reflexivity | assumption]].

Lemma adjustForRisk_positive (preferences : Preferences) (w : Weights) :
  positiveWeights w -> positiveWeights (adjustForRisk preferences w).
Proof.
  intros H. pose proof H as (? & ? & ? & ?)%positiveWeights_elim.
  unfold adjustForRisk.
  destruct (String.eqb _ "low"); [scaled_weights|].
  destruct (String.eqb _ "high"); [scaled_weights | assumption].
Qed.

Lemma adjustForHorizon_positive (preferences : Preferences) (w : Weights) :
  positiveWeights w -> positiveWeights (adjustForHorizon preferences w).
Proof.
  intros H. pose proof H as (? & ? & ? & ?)%positiveWeights_elim.
  unfold adjustForHorizon.
  destruct (String.eqb _ "short"); [scaled_weights|].
  destruct (String.eqb _ "long"); [scaled_weights | assumption].
Qed.

Lemma adjustForIncome_positive (preferences : Preferences) (w : Weights) :
  positiveWeights w -> positiveWeights (adjustForIncome preferences w).
Proof.
  intros H. pose proof H as (? & ? & ? & ?)%positiveWeights_elim.
  unfold adjustForIncome.
  destruct (Num.gtb _ _); [scaled_weights|].
  destruct (Num.ltb _ _); [scaled_weights | assumption].
Qed.

Lemma normalizeWeights_sum (w : Weights) :
  positiveWeights w ->
  exists p s a f,
    normalizeWeights w =
      {| priceForecasting := Fin p; sentiment := Fin s;
         anomalies := Fin a; fundamentals := Fin f |} /\
    0 < p /\ 0 < s /\ 0 < a /\ 0 < f /\ p + s + a + f == 1.
Proof.
  intros ((p & Ep & Hp) & (s & Es & Hs) & (a & Ea & Ha) & (f & Ef & Hf))%positiveWeights_elim.
  unfold normalizeWeights, weightValues. rewrite Ep, Es, Ea, Ef.
  cbn [fold_left Num.add].
  set (t := 0 + p + s + a + f).
  assert (0 < t) as Ht by (unfold t; lra).
  assert (Qis0 t = false) as Hnz.
  { apply Qis0_false. intros E. rewrite E in Ht. inversion Ht. }
  unfold Num.div. rewrite Hnz.
  exists (p / t), (s / t), (a / t), (f / t).
  split; [reflexivity|].
  repeat split; try (apply Qlt_shift_div_l; [assumption | lra]).
  unfold t. field. fold t. lra.
Qed.

(** X19.  Whatever the preferences, adjusting positive weights gives weights
    that are again finite and positive and that sum to one. *)
Theorem adjusted_weights_sum_to_one (config : Config) (preferences : Preferences) :
  positiveWeights (weights config) ->
  exists p s a f,
    adjustWeightsByPreferences config preferences =
      {| priceForecasting := Fin p; sentiment := Fin s;
         anomalies := Fin a; fundamentals := Fin f |} /\
    0 < p /\ 0 < s /\ 0 < a /\ 0 < f /\ p + s + a + f == 1.
Proof.
  intros H. unfold adjustWeightsByPreferences.
  apply normalizeWeights_sum, adjustForIncome_positive,
    adjustForHorizon_positive, adjustForRisk_positive, H.
Qed.

Lemma defaultWeights_positive : positiveWeights (weights defaultConfig).
Proof.
  apply positiveWeights_intro; cbn; eexists; (split; [reflexivity|]); reflexivity.
Qed.

Lemma adjusted_weights_sum_to_one_witness :
  exists p s a f,
    adjustWeightsByPreferences defaultConfig
      {| riskTolerance := "high"; investmentHorizon := "long";
         incomePreference := Fin 0.9; sectorPreferences := ∅ |} =
      {| priceForecasting := Fin p; sentiment := Fin s;
         anomalies := Fin a; fundamentals := Fin f |} /\
    0 < p /\ 0 < s /\ 0 < a /\ 0 < f /\ p + s + a + f == 1.
Proof.
  apply (adjusted_weights_sum_to_one defaultConfig).
  apply defaultWeights_positive.
Defined.

End EngineWeights.

Section EngineThresholds.

Import RecommendationEngine.

Lemma geb_upwards (q1 q2 : Q) (t : num) :
  q1 <= q2 -> Num.geb (Fin q1) t = true -> Num.geb (Fin q2) t = true.
Proof.
  intros Hle. unfold Num.geb, Num.leb. destruct t as [x| | |]; try done.
  rewrite !Qle_bool_iff. lra.
Qed.

Lemma leb_downwards (q1 q2 : Q) (t : num) :
  q1 <= q2 -> Num.leb (Fin q2) t = true -> Num.leb (Fin q1) t = true.
Proof.
  intros Hle. unfold Num.leb. destruct t as [x| | |]; try done.
  rewrite !Qle_bool_iff. lra.
Qed.

(** X20.  Whatever the thresholds, a higher score never gets a more
    negative recommendation. *)
Theorem recommendation_monotone (config : Config) (q1 q2 : Q) :
  q1 <= q2 ->
  (rank (determineRecommendation config (Fin q1))
   <= rank (determineRecommendation config (Fin q2)))%Z.
Proof.
  intros Hle. unfold determineRecommendation.
  pose proof (geb_upwards q1 q2 (strongBuy (thresholds config)) Hle) as H1.
  pose proof (geb_upwards q1 q2 (buy (thresholds config)) Hle) as H2.
  pose proof (leb_downwards q1 q2 (strongSell (thresholds config)) Hle) as H3.
  pose proof (leb_downwards q1 q2 (sell (thresholds config)) Hle) as H4.
  destruct (Num.geb (Fin q1) (strongBuy _)), (Num.geb (Fin q2) (strongBuy _));
    try (discriminate (H1 eq_refl));
  destruct (Num.geb (Fin q1) (buy _)), (Num.geb (Fin q2) (buy _));
    try (discriminate (H2 eq_refl));
  destruct (Num.leb (Fin q1) (strongSell _)), (Num.leb (Fin q2) (strongSell _));
    try (discriminate (H3 eq_refl));
  destruct (Num.leb (Fin q1) (sell _)), (Num.leb (Fin q2) (sell _));
    try (discriminate (H4 eq_refl));
  vm_compute; congruence.
Qed.

Lemma recommendation_monotone_witness :
  (rank (determineRecommendation defaultConfig (Fin (-0.6)))
   <= rank (determineRecommendation defaultConfig (Fin 0.6)))%Z.
Proof.
  apply (recommendation_monotone defaultConfig (-0.6) 0.6). vm_compute. congruence.
Defined.

End EngineThresholds.

Section EngineScores.

Import AnomalyDetector RecommendationEngine.

(** [Math.max(-1, Math.min(1, x))] on a finite [x]. *)
Lemma clamp_finite (x : Q) :
  exists q, Num.max (Fin (-1)) (Num.min (Fin 1) (Fin x)) = Fin q /\
            -1 <= q <= 1 /\ (-1 <= x <= 1 -> q == x) /\
            (0 < x <-> 0 < q) /\ (x < 0 <-> q < 0) /\
            (forall b, -1 <= b -> x <= b -> q <= b).
Proof.
  unfold Num.min, Num.ltb. destruct (Qltb x 1) eqn:E1.
  - apply Qltb_true in E1. unfold Num.max, Num.ltb.
    destruct (Qltb (-1) x) eqn:E2.
    + apply Qltb_true in E2. exists x. repeat split; try lra. intros; lra.
    + apply Qltb_false in E2. exists (-1). repeat split; try lra. intros; lra.
  - apply Qltb_false in E1. exists 1. split; [reflexivity|].
    repeat split; try lra. intros; lra.
Qed.

Lemma unit_fraction (d : num) :
  d <> NaN ->
  exists m, Num.min (Fin 1) (Num.abs d / Fin 50)%num = Fin m /\ 0 <= m <= 1.
Proof.
  intros Hd. destruct d as [d| | |]; try done.
  - unfold Num.abs, Num.div. change (Qis0 50) with false. cbv iota.
    unfold Num.min, Num.ltb.
    pose proof (Qabs_nonneg d) as Habs. revert Habs. generalize (Qabs d). intros x Hx.
    destruct (Qltb (x / 50) 1) eqn:E.
    + exists (x / 50). split; [reflexivity|]. apply Qltb_true in E.
      split; [|lra]. apply Qle_shift_div_l; lra.
    + exists 1. split; [reflexivity|]. lra.
  - exists 1. split; [reflexivity | lra].
  - exists 1. split; [reflexivity | lra].
Qed.

Lemma anomalyImpact_bounds (anomaly : Anomaly) :
  deviation anomaly <> NaN ->
  exists q, anomalyImpact anomaly = Fin q /\ -(1 # 2) <= q <= 1 # 2.
Proof.
  intros (m & Em & Hm)%unit_fraction. unfold anomalyImpact. rewrite Em.
  destruct (String.eqb (type anomaly) "high_value");
    [|destruct (String.eqb (type anomaly) "low_value")];
    (destruct (String.eqb (severity anomaly) "high");
       [|destruct (String.eqb (severity anomaly) "medium")]);
    cbn [Num.mul]; eexists; (split; [reflexivity|]); lra.
Qed.

Lemma impacts_sum_bounds (list : list Anomaly) :
  Forall (fun anomaly => deviation anomaly <> NaN) list ->
  forall q0, exists q,
    fold_left (fun totalScore anomaly => (totalScore + anomalyImpact anomaly)%num)
      list (Fin q0) = Fin q /\
    q0 - inject_Z (Z.of_nat (length list)) * (1 # 2) <= q /\
    q <= q0 + inject_Z (Z.of_nat (length list)) * (1 # 2).
Proof.
  induction 1 as [|anomaly list Hd _ IH]; intros q0.
  - exists q0. split; [reflexivity|]. cbn [length].
    change (inject_Z (Z.of_nat 0)) with 0. lra.
  - destruct (anomalyImpact_bounds anomaly Hd) as (i & Ei & Hi).
    cbn [fold_left]. rewrite Ei. cbn [Num.add].
    destruct (IH (q0 + i)) as (q & Eq & Hlo & Hhi).
    exists q. split; [exact Eq|].
    cbn [length]. rewrite inject_nat_succ.
    revert Hlo Hhi. generalize (inject_Z (Z.of_nat (length list))). intros n Hlo Hhi.
    lra.
Qed.

Lemma anomaly_score_bounds (list : list Anomaly) :
  Forall (fun anomaly => deviation anomaly <> NaN) list ->
  exists q,
    calculateAnomalyScore (Some {| reported := Some list |}) = Fin q /\
    -(1 # 2) <= q <= 1 # 2.
Proof.
  intros Hd. unfold calculateAnomalyScore. cbn [reported].
  destruct list as [|anomaly list].
  { exists 0.1. split; [reflexivity|]. lra. }
  set (l := anomaly :: list) in *.
  assert (0 < length l)%nat as Hlen by (cbn; lia).
  replace (length l =? 0)%nat with false by (symmetry; apply Nat.eqb_neq; lia).
  replace (0 <? length l)%nat with true by (symmetry; apply Nat.ltb_lt; lia).
  destruct (impacts_sum_bounds l Hd 0) as (t & -> & Hlo & Hhi).
  pose proof (inject_nat_pos _ Hlen) as Hn.
  unfold Num.of_nat, Num.div.
  replace (Qis0 (inject_Z (Z.of_nat (length l)))) with false
    by (symmetry; apply Qis0_false; lra).
  revert Hn Hlo Hhi. generalize (inject_Z (Z.of_nat (length l))). intros n Hn Hlo Hhi.
  assert (-(1 # 2) <= t / n <= 1 # 2) as Hq.
  { split; [apply Qle_shift_div_l | apply Qle_shift_div_r]; lra. }
  destruct (clamp_finite (t / n)) as (q & -> & _ & Hsame & _).
  exists q. split; [reflexivity|]. rewrite Hsame; lra.
Qed.

(** X21.  The anomaly score is a finite number between [-0.5] and [0.5]
    whenever no anomaly carries a [NaN] deviation: the clamp to [-1, 1]
    is never reached. *)
Theorem anomaly_score_within_half (list : list Anomaly) :
  Forall (fun anomaly => deviation anomaly <> NaN) list ->
  exists q,
    calculateAnomalyScore (Some {| reported := Some list |}) = Fin q /\
    -(1 # 2) <= q <= 1 # 2.
Proof. apply anomaly_score_bounds. Qed.

Lemma yieldPoints_bounds (y : num) :
  exists c, yieldPoints y = Fin c /\ -(1 # 5) <= c <= 4 # 5.
Proof.
  unfold yieldPoints.
  destruct (Num.geb y (Fin 8)); [|destruct (Num.geb y (Fin 6)); [|destruct (Num.geb y (Fin 4))]];
    eexists; (split; [reflexivity|]); lra.
Qed.

Lemma vacancyPoints_bounds (v : num) :
  exists c, vacancyPoints v = Fin c /\ -(3 # 5) <= c <= 7 # 10.
Proof.
  unfold vacancyPoints.
  destruct (Num.leb v (Fin 5)); [|destruct (Num.leb v (Fin 10)); [|destruct (Num.leb v (Fin 15))]];
    eexists; (split; [reflexivity|]); lra.
Qed.

Lemma liquidityPoints_bounds (l : string) :
  exists c, liquidityPoints l = Fin c /\ -(1 # 5) <= c <= 2 # 5.
Proof.
  unfold liquidityPoints.
  destruct (String.eqb l "high"); [|destruct (String.eqb l "medium")];
    eexists; (split; [reflexivity|]); lra.
Qed.

(** The points of a price-to-book ratio: never above [0.5], possibly
    unbounded below. *)
Lemma pvpPoints_bounds (r : num) :
  r <> NaN ->
  pvpPoints r = NInf \/ exists c, pvpPoints r = Fin c /\ c <= 1 # 2.
Proof.
  intros Hr. destruct r as [q| | |]; try done.
  - right. unfold pvpPoints, Num.ltb, Num.leb.
    destruct (Qltb q 0.7) eqn:E1.
    + apply Qltb_true in E1. unfold Num.div. change (Qis0 0.7) with false.
      cbn [Num.sub Num.add Num.neg]. eexists. split; [reflexivity|].
      assert (q / 0.7 <= 1) by (apply Qle_shift_div_r; lra). lra.
    + destruct (Qle_bool q 1.1) eqn:E2.
      * eexists. split; [reflexivity|]. lra.
      * unfold Num.div. change (Qis0 0.5) with false.
        cbn [Num.sub Num.add Num.neg]. unfold Num.min, Num.ltb.
        apply Qltb_false in E1.
        assert (1.1 < q) as Hq.
        { apply Qnot_le_lt. intros Hle. apply Qle_bool_iff in Hle. congruence. }
        set (x := (q + - (1.1)) / 0.5).
        assert (0 <= x) as Hx by (unfold x; apply Qle_shift_div_l; lra).
        clearbody x.
        destruct (Qltb x 0.5) eqn:E3; cbn [Num.neg];
          eexists; (split; [reflexivity|]); lra.
  - right. eexists. split; [reflexivity|]. lra.
  - left. reflexivity.
Qed.

Lemma addFactor_bounded {A : Type} (points : A -> num) (field : option A)
    (acc : num * nat) :
  (forall x, field = Some x ->
             points x = NInf \/ exists c, points x = Fin c /\ c <= 4 # 5) ->
  boundedTotal acc -> boundedTotal (addFactor points field acc).
Proof.
  intros Hpoints Hacc. unfold addFactor. destruct field as [x|]; [|exact Hacc].
  destruct (Hpoints x eq_refl) as [Ex|(c & Ex & Hc)]; rewrite Ex;
    destruct Hacc as [[Et Hn]|(t & Et & Ht)]; rewrite Et; unfold boundedTotal;
    cbn [fst snd Num.add].
  - left. split; [reflexivity | lia].
  - left. split; [reflexivity | lia].
  - left. split; [reflexivity | lia].
  - right. exists (t + c). split; [reflexivity|]. rewrite inject_nat_succ.
    revert Ht. generalize (inject_Z (Z.of_nat acc.2)). intros n Ht. lra.
Qed.

Lemma fundamental_score_bounds (fundamentals : Fundamentals) :
  pvp fundamentals <> Some NaN ->
  exists q, calculateFundamentalScore (Some fundamentals) = Fin q /\
            -1 <= q <= 4 # 5.
Proof.
  intros Hpvp. unfold calculateFundamentalScore.
  assert (boundedTotal
            (addFactor liquidityPoints (liquidity fundamentals)
               (addFactor vacancyPoints (vacancy fundamentals)
                  (addFactor yieldPoints (dividendYield fundamentals)
                     (addFactor pvpPoints (pvp fundamentals) (Fin 0, 0%nat))))))
    as Hacc.
  { apply addFactor_bounded.
    { intros l _. destruct (liquidityPoints_bounds l) as (c & -> & Hc).
      right. exists c. split; [reflexivity | lra]. }
    apply addFactor_bounded.
    { intros v _. destruct (vacancyPoints_bounds v) as (c & -> & Hc).
      right. exists c. split; [reflexivity | lra]. }
    apply addFactor_bounded.
    { intros y _. destruct (yieldPoints_bounds y) as (c & -> & Hc).
      right. exists c. split; [reflexivity | lra]. }
    apply addFactor_bounded.
    { intros r Hr. destruct (pvpPoints_bounds r) as [->|(c & -> & Hc)].
      - intros ->. by apply Hpvp.
      - by left.
      - right. exists c. split; [reflexivity | lra]. }
    right. exists 0. split; [reflexivity|]. cbn [snd].
    change (inject_Z (Z.of_nat 0)) with 0. lra. }
  destruct (addFactor _ _ _) as [score factorsCount].
  destruct (Nat.ltb_spec 0 factorsCount) as [Hn|Hn].
  - pose proof (inject_nat_pos _ Hn) as Hpos.
    assert (Qis0 (inject_Z (Z.of_nat factorsCount)) = false) as Hnz
      by (apply Qis0_false; lra).
    destruct Hacc as [[Es _]|(c & Es & Hc)]; cbn [fst snd] in *; subst score.
    + unfold Num.of_nat, Num.div. rewrite Hnz.
      cbn [Num.sgn_num]. rewrite (sgn_pos _ Hpos).
      exists (-1). split; [reflexivity | lra].
    + unfold Num.of_nat, Num.div. rewrite Hnz.
      revert Hpos Hc. generalize (inject_Z (Z.of_nat factorsCount)).
      intros n Hpos Hc.
      destruct (clamp_finite (c / n)) as (q & -> & Hq & _ & _ & _ & Hup).
      exists q. split; [reflexivity|]. split; [lra|].
      apply Hup; [lra|]. apply Qle_shift_div_r; lra.
  - assert (factorsCount = 0%nat) as -> by lia.
    destruct Hacc as [[_ Hn']|(c & Es & Hc)]; cbn [fst snd] in *; [lia|].
    subst score. change (inject_Z (Z.of_nat 0)) with 0 in Hc.
    destruct (clamp_finite c) as (q & -> & Hq & _ & _ & _ & Hup).
    exists q. split; [reflexivity|]. split; [lra|]. apply Hup; lra.
Qed.

(** X22.  The fundamental score is a finite number between [-1] and [0.8]
    for every set of indicators whose price-to-book ratio is not [NaN],
    and [0] when no indicator is given. *)
Theorem fundamental_score_at_most_four_fifths (fundamentals : Fundamentals) :
  pvp fundamentals <> Some NaN ->
  (exists q, calculateFundamentalScore (Some fundamentals) = Fin q /\
             -1 <= q <= 4 # 5) /\
  (pvp fundamentals = None -> dividendYield fundamentals = None ->
   vacancy fundamentals = None -> liquidity fundamentals = None ->
   calculateFundamentalScore (Some fundamentals) = Fin 0).
Proof.
  intros Hpvp. split; [by apply fundamental_score_bounds|].
  destruct fundamentals as [r y v l]. cbn. by intros -> -> -> ->.
Qed.

Lemma fundamental_score_at_most_four_fifths_witness :
  (exists q,
      calculateFundamentalScore
        (Some {| pvp := Some (Fin 0.9); dividendYield := Some (Fin 7.5);
                 vacancy := Some (Fin 3); liquidity := Some "high" |}) = Fin q /\
      -1 <= q <= 4 # 5) /\
  calculateFundamentalScore
    (Some {| pvp := Some (Fin 0.9); dividendYield := Some (Fin 7.5);
             vacancy := Some (Fin 3); liquidity := Some "high" |})
  = Fin ((0 + 0.5 + 0.5 + 0.7 + 0.4) / 4).
Proof.
  split; [|reflexivity].
  apply (fundamental_score_at_most_four_fifths
           {| pvp := Some (Fin 0.9); dividendYield := Some (Fin 7.5);
              vacancy := Some (Fin 3); liquidity := Some "high" |}).
  simpl. discriminate.
Defined.

(** X23.  For a forecast that starts at a positive finite price and ends at
    a finite one, the price score is a finite number between [-1] and [1]
    that is positive exactly when the last price is above the first and
    negative exactly when it is below. *)
Theorem price_score_follows_direction (forecast : Forecast) (prices : list num)
    (first last : Q) :
  predictions forecast = Some prices ->
  prices !! 0%nat = Some (Fin first) ->
  prices !! (length prices - 1)%nat = Some (Fin last) ->
  0 < first ->
  exists s,
    calculatePriceScore (Some forecast) = Fin s /\
    -1 <= s <= 1 /\ (0 < s <-> first < last) /\ (s < 0 <-> last < first).
Proof.
  intros Hp Hfirst Hlast Hpos. unfold calculatePriceScore. rewrite Hp.
  destruct prices as [|p0 rest]; [discriminate|].
  set (prices := p0 :: rest) in *.
  replace (length prices =? 0)%nat with false by reflexivity.
  unfold at_index. rewrite Hfirst, Hlast.
  change (Num.of_slot (Some (Fin first))) with (Fin first).
  change (Num.of_slot (Some (Fin last))) with (Fin last).
  assert (Qis0 first = false) as Hnz by (apply Qis0_false; lra).
  assert (exists q,
             Num.max (Fin (-1))
               (Num.min (Fin 1)
                  ((Fin last - Fin first) / Fin first * Fin 100 / Fin 10))%num
             = Fin q /\
             -1 <= q <= 1 /\ (0 < q <-> first < last) /\ (q < 0 <-> last < first))
    as (q & -> & Hq & Hup & Hdown).
  { cbn [Num.sub Num.add Num.neg]. unfold Num.div at 2. rewrite Hnz.
    cbn [Num.mul]. unfold Num.div. change (Qis0 10) with false. cbv iota.
    set (y := (last + - first) / first).
    assert (y * first == last + - first) as Ey by (unfold y; field; lra).
    assert (0 < y <-> first < last) as Hup.
    { split; intros H.
      - assert (0 * first < y * first) as H' by (apply Qmult_lt_r; assumption).
        rewrite Ey in H'. lra.
      - unfold y. apply Qlt_shift_div_l; lra. }
    assert (y < 0 <-> last < first) as Hdown.
    { split; intros H.
      - assert (y * first < 0 * first) as H' by (apply Qmult_lt_r; assumption).
        rewrite Ey in H'. lra.
      - unfold y. apply Qlt_shift_div_r; lra. }
    clearbody y. clear Ey.
    set (x := y * 100 / 10).
    assert (x == y * 10) as Ex by (unfold x; field).
    assert (0 < x <-> 0 < y) as Hx1 by (rewrite Ex; split; intros; lra).
    assert (x < 0 <-> y < 0) as Hx2 by (rewrite Ex; split; intros; lra).
    clear Ex.
    clearbody x.
    destruct (clamp_finite x) as (q & -> & Hq & _ & Hqup & Hqdown & _).
    exists q. split; [reflexivity|]. split; [lra|]. tauto. }
  assert (forall k, k == 1 \/ k == 0.8 \/ k == 0.6 ->
            exists s, (Fin q * Fin k)%num = Fin s /\
                      -1 <= s <= 1 /\ (0 < s <-> first < last) /\
                      (s < 0 <-> last < first)) as Hscaled.
  { intros k Hk. exists (q * k). split; [reflexivity|].
    destruct Hk as [E|[E|E]]; rewrite E; (split; [lra|]);
      rewrite <- Hup, <- Hdown; split; split; intros; lra. }
  assert (exists s, Fin q = Fin s /\ -1 <= s <= 1 /\ (0 < s <-> first < last) /\
                    (s < 0 <-> last < first)) as Hplain.
  { exists q. split; [reflexivity|]. tauto. }
  destruct (metrics forecast) as [m|]; [|exact Hplain].
  destruct (strTruthy (confidence m)); [|exact Hplain].
  unfold confidenceMultiplier.
  destruct (String.eqb _ "high"); [apply Hscaled; left; lra|].
  destruct (String.eqb _ "medium"); apply Hscaled; [right; left; lra | right; right; lra].
Qed.

Lemma price_score_follows_direction_witness :
  exists s,
    calculatePriceScore
      (Some {| predictions := Some [Fin 100; Fin 102; Fin 104; Fin 106; Fin 108];
               metrics := Some {| confidence := Some "high" |};
               trend := Some "strong_up" |}) = Fin s /\
    -1 <= s <= 1 /\ (0 < s <-> 100 < 108) /\ (s < 0 <-> 108 < 100).
Proof.
  apply (price_score_follows_direction
           {| predictions := Some [Fin 100; Fin 102; Fin 104; Fin 106; Fin 108];
              metrics := Some {| confidence := Some "high" |};
              trend := Some "strong_up" |}
           [Fin 100; Fin 102; Fin 104; Fin 106; Fin 108] 100 108);
    reflexivity.
Defined.

Lemma strOr_idem (a : option string) (d : string) :
  strOr (Some (strOr a d)) d = strOr a d.
Proof.
  unfold strOr. destruct a as [s|].
  - destruct (String.eqb s "") eqn:E.
    + by destruct (String.eqb d "").
    + by rewrite E.
  - by destruct (String.eqb d "").
Qed.

(** X24.  Merging no preferences gives the configured ones; a sector the
    caller names keeps the caller's value and any other keeps the
    configured one; and merging the merged preferences again changes
    nothing. *)
Theorem mergePreferences_fills_defaults (config : Config)
    (userPreferences : UserPreferences) :
  mergePreferences config
    {| userRiskTolerance := None; userInvestmentHorizon := None;
       userIncomePreference := None; userSectorPreferences := None |}
  = personalization config /\
  (forall sector,
      sectorPreferences (mergePreferences config userPreferences) !! sector
      = match default ∅ (userSectorPreferences userPreferences) !! sector with
        | Some x => Some x
        | None => sectorPreferences (personalization config) !! sector
        end) /\
  mergePreferences config
    (asUserPreferences (mergePreferences config userPreferences))
  = mergePreferences config userPreferences.
Proof.
  split; [|split].
  - unfold mergePreferences. cbn. rewrite (left_id_L ∅ (∪)).
    by destruct (personalization config).
  - intros sector. cbn [mergePreferences sectorPreferences].
    rewrite lookup_union.
    by destruct (_ !! sector), (_ !! sector).
  - unfold mergePreferences, asUserPreferences.
    cbn [userRiskTolerance userInvestmentHorizon userIncomePreference
         userSectorPreferences riskTolerance investmentHorizon incomePreference
         sectorPreferences default].
    rewrite !strOr_idem. f_equal. unfold id.
    rewrite <- (assoc_L (∪)). by rewrite (idemp_L (∪)).
Qed.

End EngineScores.

(** ** From the detector to the engine *)

Section DetectorToEngine.

Import AnomalyDetector RecommendationEngine.

Variable Msqrt : Q -> Q.
Variable Mexp : Q -> Q.
Variable config : AnomalyDetector.Config.
Variable storedModel : option Predictor.
Variable createAndTrainAutoencoder : list (list num) -> option Predictor.
Variable numberToString : num -> string.
Variable missingSeriesMessage : string.
Variables now later : Z.

Let detect : State -> option (list Dividend) -> DetectionResult * State :=
  detectDividendAnomalies Msqrt Mexp config storedModel createAndTrainAutoencoder
    numberToString missingSeriesMessage now later.

(** X25.  What the detector returns for a missing series or one of fewer
    than five records is scored by the engine like a series without
    anomalies, [0.1], and on its own gives the confidence ['low']. *)
Theorem short_series_scored_as_calm (st : State)
    (dividendData : option (list Dividend)) :
  cacheSound numberToString st ->
  (forall series, dividendData = Some series -> (length series < 5)%nat) ->
  calculateAnomalyScore (Some (reportOf (detect st dividendData).1)) = Fin 0.1 /\
  calculateConfidence (detectionOnly (detect st dividendData).1) = "low".
Proof.
  intros Hsound Hshort.
  destruct (detect_insufficient Msqrt Mexp config storedModel
              createAndTrainAutoencoder numberToString missingSeriesMessage
              now later st dividendData Hsound Hshort) as [message E].
  fold detect in E. rewrite E. split; reflexivity.
Qed.

(** X26.  What the detector returns for a series of five records or more
    that the cache does not answer gives, on its own, the confidence
    ['high']: three methods or more always ran. *)
Theorem full_analysis_gives_high_confidence (st : State)
    (dividendData : list Dividend) :
  (5 <= length dividendData)%nat ->
  cachedResult config now (initialize config storedModel st)
    (cacheKeyOf numberToString dividendData) = None ->
  calculateConfidence (detectionOnly (detect st (Some dividendData)).1) = "high".
Proof.
  intros Hlen Hmiss. unfold detect.
  rewrite (detect_fresh Msqrt Mexp config storedModel createAndTrainAutoencoder
             numberToString missingSeriesMessage now later st dividendData Hmiss).
  destruct (Nat.ltb_spec (length dividendData) 5) as [?|_]; [lia|].
  pose proof (analyse_records Msqrt Mexp config createAndTrainAutoencoder
                (initialize config storedModel st) dividendData) as H.
  cbn zeta in H. destruct H as (_ & _ & _ & _ & Hnames & _).
  unfold calculateConfidence, detectionOnly, outputOf.
  cbn [priceForecast sentimentAnalysis anomalyDetection outputMethods mbind
       option_bind default from_option id].
  rewrite Hnames. by destruct (useAutoencoder config).
Qed.

End DetectorToEngine.

(** ** The pipeline *)

Lemma round2_above (q : Q) (k : Z) :
  0 <= q ->
  inject_Z k / 100 < Num.round2 q <-> inject_Z k + 1 <= q * 100 + (1 # 2).
Proof.
  intros Hq. unfold Num.round2.
  replace (Qltb q 0) with false by (symmetry; by apply Qltb_false).
  assert (Qfloor (Qabs q * 100 + (1 # 2)) = Qfloor (q * 100 + (1 # 2))) as ->.
  { apply Qfloor_comp. by rewrite (Qabs_pos q Hq). }
  set (x := q * 100 + (1 # 2)).
  assert (inject_Z k / 100 < inject_Z (Qfloor x) / 100 <-> (k < Qfloor x)%Z) as ->.
  { rewrite Zlt_Qlt.
    generalize (inject_Z k), (inject_Z (Qfloor x)). intros a b. split; intros H.
    - apply (Qmult_lt_r _ _ (/ 100)); [reflexivity | exact H].
    - apply (Qmult_lt_r _ _ (/ 100)) in H; [exact H | reflexivity]. }
  split; intros H.
  - pose proof (Qfloor_le x) as Hfl.
    assert (inject_Z (k + 1) <= inject_Z (Qfloor x)) as H'
      by (rewrite <- Zle_Qle; lia).
    rewrite inject_Z_plus in H'. change (inject_Z 1) with 1 in H'. lra.
  - assert (inject_Z (k + 1) <= x) as H'
      by (rewrite inject_Z_plus; change (inject_Z 1) with 1; exact H).
    apply Qfloor_resp_le in H'. rewrite Qfloor_Z in H'. lia.
Qed.

(** When the rounded percentage of [n] out of [m] exceeds [k / 100]. *)
Lemma percentage_above (n m : nat) (k : Z) (t : Q) :
  (0 < m)%nat -> t == inject_Z k / 100 ->
  Num.gtb (Num.toFixed2 (Num.of_nat n / Num.of_nat m * Fin 100)) (Fin t) = true
  <-> ((2 * k + 1) * Z.of_nat m <= 20000 * Z.of_nat n)%Z.
Proof.
  intros Hm Et. pose proof (inject_nat_pos m Hm) as HM.
  unfold Num.of_nat, Num.div.
  replace (Qis0 (inject_Z (Z.of_nat m))) with false
    by (symmetry; apply Qis0_false; lra).
  cbn [Num.mul Num.toFixed2]. unfold Num.gtb, Num.ltb. rewrite Qltb_true, Et.
  assert (0 <= inject_Z (Z.of_nat n)) as HN.
  { change 0 with (inject_Z 0). rewrite <- Zle_Qle. lia. }
  rewrite Zle_Qle, !inject_Z_mult, inject_Z_plus, inject_Z_mult.
  change (inject_Z 2) with 2. change (inject_Z 1) with 1.
  change (inject_Z 20000) with 20000.
  revert HM HN. generalize (inject_Z (Z.of_nat n)), (inject_Z (Z.of_nat m)).
  intros N M HM HN.
  set (y := N / M).
  assert (y * M == N) as Ey by (unfold y; field; lra).
  assert (0 <= y) as Hy by (unfold y; apply Qle_shift_div_l; lra).
  clearbody y.
  rewrite round2_above by lra.
  generalize (inject_Z k). intros K.
  rewrite <- Ey. split; intros H.
  - assert ((K + (1 # 2)) * M <= y * 10000 * M) as H'
      by (apply Qmult_le_r; [exact HM | lra]).
    lra.
  - assert ((K + (1 # 2)) * M <= y * 10000 * M) as H' by lra.
    apply Qmult_le_r in H'; [lra | exact HM].
Qed.

Section PipelineRisk.

Import AnomalyDetector DataPipeline.

(** X27.  The risk level of [n] anomalies among [m] records, read off the
    percentage rounded to two decimals: ['low'] below 5.005 per cent,
    ['medium'] between 5.005 and 15.005 per cent, ['high'] above. *)
Theorem risk_level_after_rounding (found : list Anomaly)
    (dividendData : list Dividend) :
  dividendData <> [] ->
  let n := Z.of_nat (length found) in
  let m := Z.of_nat (length dividendData) in
  let level :=
    calculateRiskLevel
      (Some (calculateAnomalyStats (Some found) (Some dividendData))) in
  ((20000 * n < 1001 * m)%Z -> level = "low") /\
  ((1001 * m < 20000 * n)%Z -> (20000 * n < 3001 * m)%Z -> level = "medium") /\
  ((3001 * m < 20000 * n)%Z -> level = "high").
Proof.
  intros Hne n m level.
  assert (0 < length dividendData)%nat as Hm
    by (destruct dividendData; [done | cbn; lia]).
  pose proof (percentage_above (length found) (length dividendData) 1500 15 Hm
                ltac:(reflexivity)) as Hhigh.
  pose proof (percentage_above (length found) (length dividendData) 500 5 Hm
                ltac:(reflexivity)) as Hmed.
  fold n m in Hhigh, Hmed.
  unfold level, calculateRiskLevel, calculateAnomalyStats.
  replace (length dividendData =? 0)%nat with false
    by (symmetry; apply Nat.eqb_neq; lia).
  cbn [percentage].
  destruct (Num.gtb _ (Fin 15)) eqn:E15.
  - pose proof (proj1 Hhigh eq_refl).
    repeat split; intros; first [reflexivity | lia].
  - assert (~ ((2 * 1500 + 1) * m <= 20000 * n)%Z) as Hlow
      by (intros X; apply Hhigh in X; discriminate).
    destruct (Num.gtb _ (Fin 5)) eqn:E5.
    + pose proof (proj1 Hmed eq_refl).
      repeat split; intros; first [reflexivity | lia].
    + assert (~ ((2 * 500 + 1) * m <= 20000 * n)%Z)
        by (intros X; apply Hmed in X; discriminate).
      repeat split; intros; first [reflexivity | lia].
Qed.

Lemma risk_level_after_rounding_witness :
  calculateRiskLevel
    (Some (calculateAnomalyStats
             (Some [sampleAnomaly])
             (Some (take 6 sampleDividends)))) = "high".
Proof.
  apply (risk_level_after_rounding [sampleAnomaly] (take 6 sampleDividends));
    [discriminate | reflexivity].
Defined.

End PipelineRisk.

Section PipelineCalls.

Import AnomalyDetector DataPipeline.

Variable Msqrt : Q -> Q.
Variable Mexp : Q -> Q.
Variable anomalyConfig : AnomalyDetector.Config.
Variable storedModel : option Predictor.
Variable createAndTrainAutoencoder : list (list num) -> option Predictor.
Variable numberToString : num -> string.
Variable missingSeriesMessage : string.

Let run (now detectorNow detectorLater stamp : Z)
    : Pipeline -> string -> option (list Dividend) -> Report * Pipeline :=
  detectAnomalies Msqrt Mexp anomalyConfig storedModel createAndTrainAutoencoder
    numberToString missingSeriesMessage now detectorNow detectorLater stamp.

Lemma run_unanswered (now detectorNow detectorLater stamp : Z)
    (pipeline : Pipeline) (name : string) (dividendData : option (list Dividend)) :
  unanswered now pipeline name ->
  run now detectorNow detectorLater stamp pipeline name dividendData
  = let result :=
      detectDividendAnomalies Msqrt Mexp anomalyConfig storedModel
        createAndTrainAutoencoder numberToString missingSeriesMessage
        detectorNow detectorLater (anomalyDetector pipeline) dividendData in
    let stats :=
      calculateAnomalyStats (Some (AnomalyDetector.anomalies result.1))
        dividendData in
    let report :=
      {| ticker := name;
         DataPipeline.anomalies := AnomalyDetector.anomalies result.1;
         DataPipeline.stats := stats;
         riskLevel := calculateRiskLevel (Some stats) |} in
    (report,
     {| anomalyDetector := result.2;
        anomalyCache :=
          <[name := {| DataPipeline.data := report;
                       DataPipeline.timestamp := stamp |}]>
            (anomalyCache pipeline) |}).
Proof.
  intros Hmiss. unfold run, detectAnomalies.
  destruct (anomalyCache pipeline !! name) as [entry|] eqn:E.
  - rewrite (Hmiss entry E). by destruct (detectDividendAnomalies _ _ _ _ _ _ _ _ _ _ _).
  - by destruct (detectDividendAnomalies _ _ _ _ _ _ _ _ _ _ _).
Qed.

(** X28.  The pipeline caches by ticker alone: after a call that ran the
    detector, a second call for the same ticker within four hours returns
    the first report whatever series it is given, and changes nothing. *)
Theorem pipeline_replays_by_ticker
    (now detectorNow detectorLater stamp now' detectorNow' detectorLater' stamp' : Z)
    (pipeline : Pipeline) (name : string)
    (dividendData dividendData' : option (list Dividend)) :
  unanswered now pipeline name ->
  (now' - stamp < 4 * 60 * 60 * 1000)%Z ->
  run now' detectorNow' detectorLater' stamp'
    (run now detectorNow detectorLater stamp pipeline name dividendData).2
    name dividendData'
  = run now detectorNow detectorLater stamp pipeline name dividendData.
Proof.
  intros Hmiss Hvalid. rewrite (run_unanswered _ _ _ _ _ _ _ Hmiss). cbn zeta.
  unfold run, detectAnomalies. cbn [snd anomalyCache].
  rewrite lookup_insert_eq. cbn [DataPipeline.timestamp DataPipeline.data].
  unfold DataPipeline.isCacheValid.
  by rewrite (proj2 (Z.ltb_lt _ _) Hvalid).
Qed.

Lemma short_series_stats (dividendData : option (list Dividend)) :
  calculateRiskLevel (Some (calculateAnomalyStats (Some []) dividendData)) = "low".
Proof.
  unfold calculateAnomalyStats. destruct dividendData as [series|]; [|reflexivity].
  destruct (Nat.eqb_spec (length series) 0) as [|Hne]; [reflexivity|].
  unfold calculateRiskLevel. cbn [percentage length].
  assert (0 < length series)%nat as Hm by lia.
  destruct (Num.gtb _ (Fin 15)) eqn:E15.
  { apply (percentage_above 0 (length series) 1500 15 Hm) in E15;
      [lia | reflexivity]. }
  destruct (Num.gtb _ (Fin 5)) eqn:E5; [|reflexivity].
  apply (percentage_above 0 (length series) 500 5 Hm) in E5; [lia | reflexivity].
Qed.

(** X29.  A ticker whose dividend series is missing or has fewer than five
    records is reported without anomalies and at risk level ['low'], and
    with no forecast and no sentiment analysis that report alone makes
    [generateRecommendations] recommend ['buy'] with score [1]. *)
Theorem short_series_recommended_as_buy (now detectorNow detectorLater stamp : Z)
    (pipeline : Pipeline) (name horizon : string)
    (dividendData : option (list Dividend)) :
  unanswered now pipeline name ->
  cacheSound numberToString (anomalyDetector pipeline) ->
  (forall series, dividendData = Some series -> (length series < 5)%nat) ->
  let report :=
    (run now detectorNow detectorLater stamp pipeline name dividendData).1 in
  DataPipeline.anomalies report = [] /\
  riskLevel report = "low" /\
  recommendation
    (generateRecommendations horizon name
       {| priceForecast := None; sentimentAnalysis := None;
          anomalyReport := Some report |}) = "buy" /\
  score
    (generateRecommendations horizon name
       {| priceForecast := None; sentimentAnalysis := None;
          anomalyReport := Some report |}) = 1%Z.
Proof.
  intros Hmiss Hsound Hshort report. unfold report.
  rewrite (run_unanswered _ _ _ _ _ _ _ Hmiss). cbn zeta. cbn [fst].
  destruct (detect_insufficient Msqrt Mexp anomalyConfig storedModel
              createAndTrainAutoencoder numberToString missingSeriesMessage
              detectorNow detectorLater (anomalyDetector pipeline) dividendData
              Hsound Hshort) as [message ->].
  cbn [degraded AnomalyDetector.anomalies DataPipeline.anomalies riskLevel].
  rewrite short_series_stats.
  repeat split; reflexivity.
Qed.

End PipelineCalls.

Section PipelineRecommendation.

Import DataPipeline.

Lemma priceTrendScore_bounds (priceTrend : string) :
  (-2 <= priceTrendScore priceTrend <= 2)%Z /\
  (priceTrendScore priceTrend = 2%Z -> priceTrend = "strong_up") /\
  (priceTrendScore priceTrend = (-2)%Z -> priceTrend = "strong_down").
Proof.
  unfold priceTrendScore.
  destruct (String.eqb_spec priceTrend "strong_up") as [->|_];
    [repeat split; done|].
  destruct (String.eqb_spec priceTrend "up") as [->|_];
    [repeat split; done|].
  destruct (String.eqb_spec priceTrend "down") as [->|_];
    [repeat split; done|].
  destruct (String.eqb_spec priceTrend "strong_down") as [->|_];
    repeat split; done.
Qed.

Lemma sentimentTrendScore_bounds (sentimentTrend : string) :
  (-2 <= sentimentTrendScore sentimentTrend <= 2)%Z /\
  (sentimentTrendScore sentimentTrend = 2%Z -> sentimentTrend = "very_positive") /\
  (sentimentTrendScore sentimentTrend = (-2)%Z -> sentimentTrend = "very_negative").
Proof.
  unfold sentimentTrendScore.
  destruct (String.eqb_spec sentimentTrend "very_positive") as [->|_];
    [repeat split; done|].
  destruct (String.eqb_spec sentimentTrend "positive") as [->|_];
    [repeat split; done|].
  destruct (String.eqb_spec sentimentTrend "negative") as [->|_];
    [repeat split; done|].
  destruct (String.eqb_spec sentimentTrend "very_negative") as [->|_];
    repeat split; done.
Qed.

Lemma strOr_eq (a : option string) (d s : string) :
  strOr a d = s -> s <> d -> a = Some s.
Proof.
  unfold strOr. destruct a as [x|]; [|congruence].
  destruct (String.eqb x ""); congruence.
Qed.

Lemma recommendationOf_strong (total : Z) :
  (recommendationOf total = "strong_buy" -> (3 <= total)%Z) /\
  (recommendationOf total = "strong_sell" -> (total <= -3)%Z).
Proof.
  unfold recommendationOf.
  destruct (Z.leb_spec 3 total); [split; [lia | discriminate]|].
  destruct (Z.leb_spec 1 total); [split; discriminate|].
  destruct (Z.leb_spec total (-3)); [split; [discriminate | lia]|].
  destruct (Z.leb_spec total (-1)); split; discriminate.
Qed.

(** X30.  The score lies between [-5] and [5].  At risk level ['high'] a
    ['strong_buy'] is only recommended when the price trend is
    ['strong_up'] and the sentiment trend ['very_positive']; at risk level
    ['low'] a ['strong_sell'] only when they are ['strong_down'] and
    ['very_negative']. *)
Theorem strong_advice_against_the_risk (horizon name : string) (data : Analysis)
    (report : Report) :
  anomalyReport data = Some report ->
  let advice := generateRecommendations horizon name data in
  (-5 <= score advice <= 5)%Z /\
  (riskLevel report = "high" -> recommendation advice = "strong_buy" ->
   priceForecast data ≫= trend = Some "strong_up" /\
   sentimentAnalysis data ≫= trend = Some "very_positive") /\
  (riskLevel report = "low" -> recommendation advice = "strong_sell" ->
   priceForecast data ≫= trend = Some "strong_down" /\
   sentimentAnalysis data ≫= trend = Some "very_negative").
Proof.
  intros Hreport advice. unfold advice, generateRecommendations.
  cbn [score recommendation]. rewrite Hreport. cbn [fmap option_fmap option_map].
  set (priceTrend := strOr (priceForecast data ≫= trend) "neutral").
  set (sentimentTrend := strOr (sentimentAnalysis data ≫= trend) "neutral").
  destruct (priceTrendScore_bounds priceTrend) as (Hp & Hp2 & Hpm2).
  destruct (sentimentTrendScore_bounds sentimentTrend) as (Hs & Hs2 & Hsm2).
  split; [|split].
  - unfold riskScore.
    destruct (String.eqb _ "high"); [lia|]. destruct (String.eqb _ "low"); lia.
  - intros -> Hstrong. apply (proj1 (recommendationOf_strong _)) in Hstrong.
    change (riskScore (strOr (Some "high") "medium")) with (-1)%Z in Hstrong.
    split; [eapply strOr_eq; [apply Hp2; lia | discriminate]
           | eapply strOr_eq; [apply Hs2; lia | discriminate]].
  - intros -> Hstrong. apply (proj2 (recommendationOf_strong _)) in Hstrong.
    change (riskScore (strOr (Some "low") "medium")) with 1%Z in Hstrong.
    split; [eapply strOr_eq; [apply Hpm2; lia | discriminate]
           | eapply strOr_eq; [apply Hsm2; lia | discriminate]].
Qed.

End PipelineRecommendation.

(** ** The properties on the sample series *)

Lemma zscore_flag_iff_score_above_half_witness :
  7%nat ∈ AnomalyDetector.anomalyIndices
            (AnomalyDetector.detectAnomaliesWithZScore Approx.sqrt
               AnomalyDetector.defaultConfig
               (map AnomalyDetector.value sampleDividends)) <->
  exists s,
    AnomalyDetector.anomalyScores
      (AnomalyDetector.detectAnomaliesWithZScore Approx.sqrt
         AnomalyDetector.defaultConfig
         (map AnomalyDetector.value sampleDividends)) !! 7%nat = Some (Fin s)
    /\ 1 # 2 < s.
Proof.
  apply (zscore_flag_iff_score_above_half Approx.sqrt AnomalyDetector.defaultConfig
           (map AnomalyDetector.value sampleDividends) 2.5 7);
    reflexivity.
Defined.

Lemma sample_run_unanswered :
  AnomalyDetector.cachedResult AnomalyDetector.defaultConfig 0
    (AnomalyDetector.initialize AnomalyDetector.defaultConfig None
       AnomalyDetector.newState)
    (AnomalyDetector.cacheKeyOf Approx.showNum sampleDividends) = None.
Proof. unfold AnomalyDetector.cachedResult. cbn. by rewrite lookup_empty. Qed.

Lemma fresh_anomalies_are_records_witness :
  let result :=
    (AnomalyDetector.detectDividendAnomalies Approx.sqrt Approx.exp
       AnomalyDetector.defaultConfig None (fun _ => None) Approx.showNum
       "TypeError" 0 1 AnomalyDetector.newState (Some sampleDividends)).1 in
  AnomalyDetector.count (AnomalyDetector.stats result)
  = length (AnomalyDetector.anomalies result) /\
  (length (AnomalyDetector.anomalies result) <= length sampleDividends)%nat /\
  Forall (fun a => exists i d,
              sampleDividends !! i = Some d /\
              AnomalyDetector.a_date a = Some (AnomalyDetector.date d) /\
              AnomalyDetector.a_value a = AnomalyDetector.value d)
         (AnomalyDetector.anomalies result).
Proof.
  apply (fresh_anomalies_are_records Approx.sqrt Approx.exp
           AnomalyDetector.defaultConfig None (fun _ => None) Approx.showNum
           "TypeError" 0 1 AnomalyDetector.newState sampleDividends).
  apply sample_run_unanswered.
Defined.

Lemma fresh_anomalies_name_their_methods_witness :
  let result :=
    (AnomalyDetector.detectDividendAnomalies Approx.sqrt Approx.exp
       AnomalyDetector.defaultConfig None (fun _ => None) Approx.showNum
       "TypeError" 0 1 AnomalyDetector.newState (Some sampleDividends)).1 in
  map fst (AnomalyDetector.methods result)
  = ["zScore"; "iqr"; "isolationForest"; "autoencoder"].
Proof.
  apply (fresh_anomalies_name_their_methods Approx.sqrt Approx.exp
           AnomalyDetector.defaultConfig None (fun _ => None) Approx.showNum
           "TypeError" 0 1 AnomalyDetector.newState sampleDividends).
  - apply sample_run_unanswered.
  - reflexivity.
Defined.



Lemma cached_result_is_replayed_witness :
  AnomalyDetector.detectDividendAnomalies Approx.sqrt Approx.exp
    AnomalyDetector.defaultConfig None (fun _ => None) Approx.showNum
    "TypeError" 3600000 3600001
    (AnomalyDetector.detectDividendAnomalies Approx.sqrt Approx.exp
       AnomalyDetector.defaultConfig None (fun _ => None) Approx.showNum
       "TypeError" 0 1 AnomalyDetector.newState (Some sampleDividends)).2
    (Some sampleDividends)
  = AnomalyDetector.detectDividendAnomalies Approx.sqrt Approx.exp
      AnomalyDetector.defaultConfig None (fun _ => None) Approx.showNum
      "TypeError" 0 1 AnomalyDetector.newState (Some sampleDividends).
Proof.
  apply (cached_result_is_replayed Approx.sqrt Approx.exp
           AnomalyDetector.defaultConfig None (fun _ => None) Approx.showNum
           "TypeError" 0 1 3600000 3600001 AnomalyDetector.newState
           sampleDividends).
  - reflexivity.
  - vm_compute. lia.
  - apply sample_run_unanswered.
  - reflexivity.
Defined.

Lemma cache_kept_at_other_keys_witness :
  AnomalyDetector.cache
    (AnomalyDetector.detectDividendAnomalies Approx.sqrt Approx.exp
       AnomalyDetector.defaultConfig None (fun _ => None) Approx.showNum
       "TypeError" 0 1 AnomalyDetector.newState (Some sampleDividends)).2
    !! ([] : list string)
  = AnomalyDetector.cache AnomalyDetector.newState !! ([] : list string).
Proof.
  apply (cache_kept_at_other_keys Approx.sqrt Approx.exp
           AnomalyDetector.defaultConfig None (fun _ => None) Approx.showNum
           "TypeError" 0 1 AnomalyDetector.newState (Some sampleDividends) []).
  intros series E _. apply (inj Some) in E. subst series. discriminate.
Defined.

Lemma anomaly_score_within_half_witness :
  exists q,
    RecommendationEngine.calculateAnomalyScore
      (Some {| RecommendationEngine.reported := Some [sampleAnomaly] |}) = Fin q /\
    -(1 # 2) <= q <= 1 # 2.
Proof.
  apply (anomaly_score_within_half [sampleAnomaly]).
  apply Forall_cons_2; [discriminate | apply Forall_nil_2].
Defined.

Lemma short_series_scored_as_calm_witness :
  RecommendationEngine.calculateAnomalyScore
    (Some (RecommendationEngine.reportOf
             (AnomalyDetector.detectDividendAnomalies Approx.sqrt Approx.exp
                AnomalyDetector.defaultConfig None (fun _ => None) Approx.showNum
                "TypeError" 0 1 AnomalyDetector.newState (Some shortDividends)).1))
  = Fin 0.1 /\
  RecommendationEngine.calculateConfidence
    (detectionOnly
       (AnomalyDetector.detectDividendAnomalies Approx.sqrt Approx.exp
          AnomalyDetector.defaultConfig None (fun _ => None) Approx.showNum
          "TypeError" 0 1 AnomalyDetector.newState (Some shortDividends)).1)
  = "low".
Proof.
  apply (short_series_scored_as_calm Approx.sqrt Approx.exp
           AnomalyDetector.defaultConfig None (fun _ => None) Approx.showNum
           "TypeError" 0 1 AnomalyDetector.newState (Some shortDividends)).
  - apply cacheSound_new.
  - intros series E. apply (inj Some) in E. subst series. vm_compute. lia.
Defined.

Lemma full_analysis_gives_high_confidence_witness :
  RecommendationEngine.calculateConfidence
    (detectionOnly
       (AnomalyDetector.detectDividendAnomalies Approx.sqrt Approx.exp
          AnomalyDetector.defaultConfig None (fun _ => None) Approx.showNum
          "TypeError" 0 1 AnomalyDetector.newState (Some sampleDividends)).1)
  = "high".
Proof.
  apply (full_analysis_gives_high_confidence Approx.sqrt Approx.exp
           AnomalyDetector.defaultConfig None (fun _ => None) Approx.showNum
           "TypeError" 0 1 AnomalyDetector.newState sampleDividends).
  - vm_compute. lia.
  - apply sample_run_unanswered.
Defined.

Lemma newPipeline_unanswered (now : Z) (name : string) :
  unanswered now newPipeline name.
Proof. intros entry E. cbn in E. by rewrite lookup_empty in E. Qed.

Lemma pipeline_replays_by_ticker_witness :
  DataPipeline.detectAnomalies Approx.sqrt Approx.exp
    AnomalyDetector.defaultConfig None (fun _ => None) Approx.showNum "TypeError"
    3600000 3600001 3600002 3600003
    (DataPipeline.detectAnomalies Approx.sqrt Approx.exp
       AnomalyDetector.defaultConfig None (fun _ => None) Approx.showNum
       "TypeError" 0 1 2 3 newPipeline "HGLG11" (Some sampleDividends)).2
    "HGLG11" (Some shortDividends)
  = DataPipeline.detectAnomalies Approx.sqrt Approx.exp
      AnomalyDetector.defaultConfig None (fun _ => None) Approx.showNum
      "TypeError" 0 1 2 3 newPipeline "HGLG11" (Some sampleDividends).
Proof.
  apply (pipeline_replays_by_ticker Approx.sqrt Approx.exp
           AnomalyDetector.defaultConfig None (fun _ => None) Approx.showNum
           "TypeError" 0 1 2 3 3600000 3600001 3600002 3600003 newPipeline
           "HGLG11" (Some sampleDividends) (Some shortDividends)).
  - apply newPipeline_unanswered.
  - reflexivity.
Defined.

Lemma short_series_recommended_as_buy_witness :
  let report :=
    (DataPipeline.detectAnomalies Approx.sqrt Approx.exp
       AnomalyDetector.defaultConfig None (fun _ => None) Approx.showNum
       "TypeError" 0 1 2 3 newPipeline "HGLG11" (Some shortDividends)).1 in
  DataPipeline.anomalies report = [] /\
  DataPipeline.riskLevel report = "low" /\
  DataPipeline.recommendation
    (DataPipeline.generateRecommendations "30" "HGLG11"
       {| DataPipeline.priceForecast := None;
          DataPipeline.sentimentAnalysis := None;
          DataPipeline.anomalyReport := Some report |}) = "buy" /\
  DataPipeline.score
    (DataPipeline.generateRecommendations "30" "HGLG11"
       {| DataPipeline.priceForecast := None;
          DataPipeline.sentimentAnalysis := None;
          DataPipeline.anomalyReport := Some report |}) = 1%Z.
Proof.
  apply (short_series_recommended_as_buy Approx.sqrt Approx.exp
           AnomalyDetector.defaultConfig None (fun _ => None) Approx.showNum
           "TypeError" 0 1 2 3 newPipeline "HGLG11" "30" (Some shortDividends)).
  - apply newPipeline_unanswered.
  - apply cacheSound_new.
  - intros series E. apply (inj Some) in E. subst series. vm_compute. lia.
Defined.

Lemma strong_advice_against_the_risk_witness :
  let advice :=
    DataPipeline.generateRecommendations "30" "HGLG11"
      {| DataPipeline.priceForecast :=
           Some {| DataPipeline.trend := Some "strong_up" |};
         DataPipeline.sentimentAnalysis :=
           Some {| DataPipeline.trend := Some "positive" |};
         DataPipeline.anomalyReport :=
           Some {| DataPipeline.ticker := "HGLG11";
                   DataPipeline.anomalies := [sampleAnomaly];
                   DataPipeline.stats :=
                     {| AnomalyDetector.count := 1;
                        AnomalyDetector.percentage := Fin 20 |};
                   DataPipeline.riskLevel := "high" |} |} in
  (-5 <= DataPipeline.score advice <= 5)%Z /\
  DataPipeline.recommendation advice = "buy".
Proof.
  split; [|reflexivity].
  apply (strong_advice_against_the_risk "30" "HGLG11"
           {| DataPipeline.priceForecast :=
                Some {| DataPipeline.trend := Some "strong_up" |};
              DataPipeline.sentimentAnalysis :=
                Some {| DataPipeline.trend := Some "positive" |};
              DataPipeline.anomalyReport :=
                Some {| DataPipeline.ticker := "HGLG11";
                        DataPipeline.anomalies := [sampleAnomaly];
                        DataPipeline.stats :=
                          {| AnomalyDetector.count := 1;
                             AnomalyDetector.percentage := Fin 20 |};
                        DataPipeline.riskLevel := "high" |} |}
           {| DataPipeline.ticker := "HGLG11";
              DataPipeline.anomalies := [sampleAnomaly];
              DataPipeline.stats :=
                {| AnomalyDetector.count := 1;
                   AnomalyDetector.percentage := Fin 20 |};
              DataPipeline.riskLevel := "high" |}).
  reflexivity.
Defined.

Lemma isolationForest_scores_in_unit_witness :
  exists s,
    AnomalyDetector.anomalyScores
      (AnomalyDetector.detectAnomaliesWithIsolationForest Approx.sqrt Approx.exp
         AnomalyDetector.defaultConfig
         [[Fin 1; Fin 2]; [Fin 3; Fin 4]; [Fin 5; Fin 9]])
      !! 2%nat = Some (Fin s) /\ 0 < s <= 1.
Proof.
  apply (isolationForest_scores_in_unit Approx.sqrt Approx.exp
           AnomalyDetector.defaultConfig 2
           [[Fin 1; Fin 2]; [Fin 3; Fin 4]; [Fin 5; Fin 9]] 2).
  - apply Approx_exp_nonneg.
  - repeat (apply Forall_cons_2; [reflexivity|]). apply Forall_nil_2.
  - repeat (apply Forall_cons_2;
              [repeat (apply Forall_cons_2; [eexists; reflexivity|]);
               apply Forall_nil_2|]).
    apply Forall_nil_2.
  - vm_compute. lia.
Defined.

Lemma sample_zscore_flag :
  7%nat ∈ AnomalyDetector.anomalyIndices
            (AnomalyDetector.detectAnomaliesWithZScore Approx.sqrt
               (setEnsembleMethod rawValuesConfig "majority")
               (map AnomalyDetector.value sampleDividends)).
Proof. vm_compute. apply list_elem_of_here. Qed.

Lemma failed_autoencoder_doubles_zscore_witness :
  7%nat ∈ AnomalyDetector.combineAnomalyDetections
            (setEnsembleMethod rawValuesConfig "majority")
            (AnomalyDetector.runMethods Approx.sqrt Approx.exp
               (setEnsembleMethod rawValuesConfig "majority") (fun _ => None)
               AnomalyDetector.newState sampleDividends).1.
Proof.
  apply (failed_autoencoder_doubles_zscore Approx.sqrt Approx.exp rawValuesConfig
           (fun _ => None) AnomalyDetector.newState sampleDividends 7).
  - reflexivity.
  - reflexivity.
  - intros predict E. discriminate E.
  - intros _ predict E. discriminate E.
  - apply sample_zscore_flag.
Defined.
